(** * Finance-bot document pipeline: a shallow embedding and its properties

    The development follows the Lambda sources of the repository:

    - [lambda/shared/document-status.js]   (module [DocumentStatus])
    - [lambda/shared/parser.js]            (module [Parser], the Textract table parser)
    - the module the worker requires as [../shared/transaction-parser]
      (module [TransactionParser], the line scanner)
    - [lambda/shared/pdf-text-extractor.js] (module [PdfTextExtractor])
    - the module the worker requires as [../shared/document-tracker]
      (module [DocumentTracker])
    - [lambda/workers/pdf-processor.js]    (module [PdfProcessor])

    JavaScript values are modelled as follows.

    - A string is a Rocq [string] holding the UTF-8 text.  Every pattern the
      code searches for is ASCII or is searched for literally, and UTF-8 is
      self-synchronising, so searching the bytes finds what searching the
      characters finds.  White space ([trim], the class [\s], the prefix
      [parseFloat] skips) covers the whole ECMAScript class, multi-byte
      members included.
    - A number is [NaN], an infinity, or the exact rational that a decimal
      text denotes ([Fin]).  The double the engine holds is that rational
      rounded to nearest; equal rationals round to equal doubles and rounding
      is monotone, so equalities and sign facts proved here carry over.
      Negative zero is not told apart from zero.
    - An [async] function whose awaits are strictly sequential is a state
      transformer; a rejected promise is the [inl] of a sum. *)

From Stdlib Require Import ZArith QArith Qabs Qpower Ascii String List Lia.
From stdpp Require Import base strings list gmap.

Local Open Scope string_scope.

(* ===================================================================== *)
(** * JavaScript primitives used by the sources *)
(* ===================================================================== *)

Module Js.

(** ** Numbers *)

Inductive number : Type :=
| NaN
| Infinity (negative : bool)
| Fin (q : Q).

(** The number written [m]e[e] in decimal notation, e.g. [dec 12345678 (-2)]
    for 123456.78. *)
Definition dec (m e : Z) : number := Fin (Qred (inject_Z m * 10 ^ e)).

Definition isNaN (n : number) : bool :=
  match n with NaN => true | _ => false end.

(** [n < 0] *)
Definition isNegative (n : number) : bool :=
  match n with
  | NaN => false
  | Infinity neg => neg
  | Fin q => Qle_bool q 0 && negb (Qeq_bool q 0)
  end.

(** [n > 0] *)
Definition isPositive (n : number) : bool :=
  match n with
  | NaN => false
  | Infinity neg => negb neg
  | Fin q => Qle_bool 0 q && negb (Qeq_bool q 0)
  end.

(** ** Values that reach the modelled functions as loosely typed arguments

    [VObject] stands for any object or array: it is truthy, it has none of
    the string methods, and no modelled function reads inside one. *)

Inductive value : Type :=
| VUndefined
| VNull
| VBool (b : bool)
| VNum (n : number)
| VStr (s : string)
| VObject.

(** ToBoolean *)
Definition truthy (v : value) : bool :=
  match v with
  | VUndefined | VNull => false
  | VBool b => b
  | VNum NaN => false
  | VNum (Infinity _) => true
  | VNum (Fin q) => negb (Qeq_bool q 0)
  | VStr s => negb (String.eqb s "")
  | VObject => true
  end.

(** A thrown value: the [name] and [message] of the [Error] object. *)
Record error : Type := Error { name : string; message : string }.

Definition TypeError (msg : string) : error := Error "TypeError" msg.

(** ** Characters *)

Definition code (c : ascii) : N := N_of_ascii c.

Definition isDigit (c : ascii) : bool := (48 <=? code c)%N && (code c <=? 57)%N.

(** One-byte members of WhiteSpace and LineTerminator: TAB, LF, VT, FF, CR, SP. *)
Definition ws1 (a : ascii) : bool :=
  ((9 <=? code a)%N && (code a <=? 13)%N) || (code a =? 32)%N.

(** U+00A0 *)
Definition ws2 (a b : ascii) : bool := (code a =? 194)%N && (code b =? 160)%N.

(** U+1680, U+2000..U+200A, U+2028, U+2029, U+202F, U+205F, U+3000, U+FEFF *)
Definition ws3 (a b c : ascii) : bool :=
  let '(x, y, z) := (code a, code b, code c) in
  ((x =? 225) && (y =? 154) && (z =? 128))%N
  || ((x =? 226) && (y =? 128)
      && (((128 <=? z) && (z <=? 138)) || (z =? 168) || (z =? 169) || (z =? 175)))%N
  || ((x =? 226) && (y =? 129) && (z =? 159))%N
  || ((x =? 227) && (y =? 128) && (z =? 128))%N
  || ((x =? 239) && (y =? 187) && (z =? 191))%N.

(** ** String.prototype members *)

(** [s.trimStart()], also the white space skipped by [\s*] and [parseFloat]. *)
Fixpoint trimStart (s : string) : string :=
  match s with
  | String a s1 =>
      if ws1 a then trimStart s1 else
      match s1 with
      | String b s2 =>
          if ws2 a b then trimStart s2 else
          match s2 with
          | String c s3 => if ws3 a b c then trimStart s3 else s
          | EmptyString => s
          end
      | EmptyString => s
      end
  | EmptyString => s
  end.

(** [trimStart] on the reversed text: the bytes of a character come last first. *)
Fixpoint trimStartRev (s : string) : string :=
  match s with
  | String a s1 =>
      if ws1 a then trimStartRev s1 else
      match s1 with
      | String b s2 =>
          if ws2 b a then trimStartRev s2 else
          match s2 with
          | String c s3 => if ws3 c b a then trimStartRev s3 else s
          | EmptyString => s
          end
      | EmptyString => s
      end
  | EmptyString => s
  end.

Definition trimEnd (s : string) : string := String.rev (trimStartRev (String.rev s)).

(** [s.trim()] *)
Definition trim (s : string) : string := trimEnd (trimStart s).

(** [s.includes(sub)] *)
Fixpoint includes (s sub : string) : bool :=
  String.prefix sub s ||
  match s with
  | String _ s' => includes s' sub
  | EmptyString => false
  end.

Fixpoint dropS (n : nat) (s : string) : string :=
  match n, s with
  | S n', String _ s' => dropS n' s'
  | _, _ => s
  end.

(** [s.replace(pat, rep)] with a string pattern: the first occurrence only.
    ([rep] holds no [$] in the sources, so no replacement pattern applies.) *)
Fixpoint replace (pat rep s : string) : string :=
  if String.prefix pat s then rep +:+ dropS (String.length pat) s
  else match s with
       | String c s' => String c (replace pat rep s')
       | EmptyString => EmptyString
       end.

(** [s.replace(/c/g, '')] for a one-character class [p]. *)
Fixpoint removeAll (p : ascii -> bool) (s : string) : string :=
  match s with
  | String c s' => if p c then removeAll p s' else String c (removeAll p s')
  | EmptyString => EmptyString
  end.

(** [s.split(sep)] for a one-character separator; never the empty list. *)
Fixpoint split (sep : ascii) (s : string) : list string :=
  match s with
  | EmptyString => [EmptyString]
  | String c s' =>
      if Ascii.eqb c sep then EmptyString :: split sep s'
      else match split sep s' with
           | h :: t => String c h :: t
           | [] => [String c EmptyString]
           end
  end.

(** [parts.join(sep)] over strings *)
Definition join (sep : string) (parts : list string) : string :=
  String.concat sep parts.

(** [s.padStart(2, '0')] (on ASCII text, where length counts bytes) *)
Definition padStart2 (s : string) : string :=
  match s with
  | EmptyString => "00"
  | String c EmptyString => String "0" s
  | _ => s
  end.

Definition isUpper (c : ascii) : bool := (65 <=? code c)%N && (code c <=? 90)%N.

Definition lowerAscii (c : ascii) : ascii :=
  if isUpper c then ascii_of_N (code c + 32) else c.

(** [s.toLowerCase()], exact on the ASCII bytes of the result: ASCII capitals
    are lowered, U+212A (Kelvin sign) becomes [k] and U+0130 becomes [i]
    followed by U+0307.  Every other character outside ASCII lowers to
    characters outside ASCII and is left as it stands, which no search for an
    ASCII keyword can observe. *)
Fixpoint toLowerCase (s : string) : string :=
  match s with
  | EmptyString => EmptyString
  | String a s1 =>
      let keep := String (lowerAscii a) (toLowerCase s1) in
      match s1 with
      | String b s2 =>
          if ((code a =? 196) && (code b =? 176))%N
          then String "i" (String (ascii_of_N 204) (String (ascii_of_N 135) (toLowerCase s2)))
          else match s2 with
               | String c s3 =>
                   if ((code a =? 226) && (code b =? 132) && (code c =? 170))%N
                   then String "k" (toLowerCase s3)
                   else keep
               | EmptyString => keep
               end
      | EmptyString => keep
      end
  end.

(** Every character of [s] satisfies [p]. *)
Fixpoint allChars (p : ascii -> bool) (s : string) : bool :=
  match s with
  | String c s' => p c && allChars p s'
  | EmptyString => true
  end.

Definition notMinus (c : ascii) : bool := negb (code c =? 45)%N.

(** ** parseFloat *)

Fixpoint takeWhile (p : ascii -> bool) (s : string) : string :=
  match s with
  | String c s' => if p c then String c (takeWhile p s') else EmptyString
  | EmptyString => EmptyString
  end.

Fixpoint dropWhile (p : ascii -> bool) (s : string) : string :=
  match s with
  | String c s' => if p c then dropWhile p s' else s
  | EmptyString => EmptyString
  end.

Definition digitVal (c : ascii) : Z := Z.of_N (code c) - 48.

Fixpoint digitsValue (acc : Z) (ds : string) : Z :=
  match ds with
  | String c ds' => digitsValue (acc * 10 + digitVal c) ds'
  | EmptyString => acc
  end.

Definition isEmpty (s : string) : bool :=
  match s with EmptyString => true | _ => false end.

(** ExponentPart: [e] or [E], an optional sign, at least one digit; an
    incomplete exponent is not part of the literal. *)
Definition parseExponent (s : string) : Z :=
  match s with
  | String c s1 =>
      if ((code c =? 101) || (code c =? 69))%N then
        let '(neg, s2) :=
          match s1 with
          | String d r =>
              if (code d =? 43)%N then (false, r)
              else if (code d =? 45)%N then (true, r)
              else (false, s1)
          | EmptyString => (false, s1)
          end in
        let ds := takeWhile isDigit s2 in
        if isEmpty ds then 0%Z
        else if neg then (- digitsValue 0 ds)%Z else digitsValue 0 ds
      else 0%Z
  | EmptyString => 0%Z
  end.

(** [parseFloat(s)]: skip leading white space, then read the longest prefix
    that is a StrDecimalLiteral; [NaN] when there is none. *)
Definition parseFloat (s : string) : number :=
  let t := trimStart s in
  let '(neg, u) :=
    match t with
    | String d r =>
        if (code d =? 43)%N then (false, r)
        else if (code d =? 45)%N then (true, r)
        else (false, t)
    | EmptyString => (false, t)
    end in
  if String.prefix "Infinity" u then Infinity neg else
  let ip := takeWhile isDigit u in
  let r1 := dropWhile isDigit u in
  let '(fp, r2) :=
    match r1 with
    | String d r =>
        if (code d =? 46)%N then (takeWhile isDigit r, dropWhile isDigit r)
        else (EmptyString, r1)
    | EmptyString => (EmptyString, r1)
    end in
  if isEmpty ip && isEmpty fp then NaN else
  let e := parseExponent r2 in
  let m := digitsValue 0 (ip +:+ fp) in
  let q := (inject_Z m * 10 ^ (e - Z.of_nat (String.length fp)))%Q in
  Fin (Qred (if neg then - q else q)).


(** The shape [YYYY-MM-DD]: four digits, two digits, two digits. *)
Definition isIsoDate (s : string) : bool :=
  match s with
  | String y1 (String y2 (String y3 (String y4 (String h1 (String m1 (String m2
      (String h2 (String d1 (String d2 EmptyString))))))))) =>
      isDigit y1 && isDigit y2 && isDigit y3 && isDigit y4 && (code h1 =? 45)%N
      && isDigit m1 && isDigit m2 && (code h2 =? 45)%N && isDigit d1 && isDigit d2
  | _ => false
  end.

End Js.

Import Js.

(* ===================================================================== *)
(** * Sequential effects: a world threaded through, exceptions as [inl] *)
(* ===================================================================== *)

Module Eff.

Definition M (W A : Type) : Type := W -> (error + A) * W.

Definition ret {W A} (a : A) : M W A := fun w => (inr a, w).

Definition throw {W A} (e : error) : M W A := fun w => (inl e, w).

Definition bind {W A B} (c : M W A) (k : A -> M W B) : M W B :=
  fun w =>
    match c w with
    | (inr a, w') => k a w'
    | (inl e, w') => (inl e, w')
    end.

(** [try { body } catch (error) { handler }] *)
Definition tryCatch {W A} (body : M W A) (handler : error -> M W A) : M W A :=
  fun w =>
    match body w with
    | (inl e, w') => handler e w'
    | (inr a, w') => (inr a, w')
    end.

(** [if (cond) stmt;] for a statement run for its effect *)
Definition when {W} (cond : bool) (stmt : M W unit) : M W unit :=
  if cond then stmt else ret tt.

Declare Scope eff_scope.
Delimit Scope eff_scope with eff.

Notation "x <- c ;; k" := (bind c (fun x => k))
  (at level 100, c at next level, right associativity) : eff_scope.
Notation "c ;; k" := (bind c (fun _ => k))
  (at level 100, right associativity) : eff_scope.

End Eff.

Import Eff.

(* ===================================================================== *)
(** * lambda/shared/document-status.js *)
(* ===================================================================== *)

Module DocumentStatus.

Definition PROCESSING := "PROCESSING".
Definition DECRYPTING := "DECRYPTING".
Definition EXTRACTING_TEXT := "EXTRACTING_TEXT".
Definition PARSING := "PARSING".
Definition COMPLETED := "COMPLETED".
Definition FAILED := "FAILED".
Definition PASSWORD_ERROR := "PASSWORD_ERROR".
Definition RETRY_PENDING := "RETRY_PENDING".

(** The members of [ErrorType] the worker writes. *)
Definition PASSWORD_INCORRECT := "PASSWORD_INCORRECT".
Definition EXTRACTION_FAILED := "EXTRACTION_FAILED".
Definition PARSING_FAILED := "PARSING_FAILED".
Definition NO_TRANSACTIONS_FOUND := "NO_TRANSACTIONS_FOUND".
Definition DYNAMODB_ERROR := "DYNAMODB_ERROR".

Definition IN_PROGRESS_STATUSES : list string :=
  [PROCESSING; DECRYPTING; EXTRACTING_TEXT; PARSING].

Definition FINAL_STATUSES : list string := [COMPLETED; FAILED; PASSWORD_ERROR].

Definition RETRYABLE_STATUSES : list string := [FAILED; PASSWORD_ERROR; RETRY_PENDING].

(** [Array.prototype.includes] on an array of strings *)
Definition arrayIncludes (xs : list string) (x : string) : bool :=
  existsb (String.eqb x) xs.

Definition canRetry (status : string) : bool := arrayIncludes RETRYABLE_STATUSES status.

Definition isProcessing (status : string) : bool := arrayIncludes IN_PROGRESS_STATUSES status.

Definition isFinal (status : string) : bool := arrayIncludes FINAL_STATUSES status.


End DocumentStatus.

(* ===================================================================== *)
(** * lambda/shared/parser.js (Textract table parser) *)
(* ===================================================================== *)

Module Parser.

(** [£] and [¥] *)
Definition cur2 (a b : ascii) : bool :=
  ((code a =? 194) && ((code b =? 163) || (code b =? 165)))%N.

(** the euro and rupee signs *)
Definition cur3 (a b c : ascii) : bool :=
  ((code a =? 226) && (code b =? 130) && ((code c =? 172) || (code c =? 185)))%N.

(** [.replace(/[$€£¥₹]/g, '')] *)
Fixpoint removeCurrency (s : string) : string :=
  match s with
  | String a s1 =>
      if (code a =? 36)%N then removeCurrency s1 else
      match s1 with
      | String b s2 =>
          if cur2 a b then removeCurrency s2 else
          match s2 with
          | String c s3 =>
              if cur3 a b c then removeCurrency s3 else String a (removeCurrency s1)
          | EmptyString => String a (removeCurrency s1)
          end
      | EmptyString => String a EmptyString
      end
  | EmptyString => EmptyString
  end.

(** [.replace(/\s+/g, '')] *)
Fixpoint removeSpaces (s : string) : string :=
  match s with
  | String a s1 =>
      if ws1 a then removeSpaces s1 else
      match s1 with
      | String b s2 =>
          if ws2 a b then removeSpaces s2 else
          match s2 with
          | String c s3 =>
              if ws3 a b c then removeSpaces s3 else String a (removeSpaces s1)
          | EmptyString => String a (removeSpaces s1)
          end
      | EmptyString => String a EmptyString
      end
  | EmptyString => EmptyString
  end.

(** [/\d+,\d{2}$/.test(s)]: the text ends in a digit, a comma and two digits. *)
Definition hasCommaDecimal (s : string) : bool :=
  match String.rev s with
  | String d2 (String d1 (String c (String d0 _))) =>
      isDigit d2 && isDigit d1 && (code c =? 44)%N && isDigit d0
  | _ => false
  end.

Definition isDot (c : ascii) : bool := (code c =? 46)%N.
Definition isComma (c : ascii) : bool := (code c =? 44)%N.

(** The [try] block of [parseAmount] on a non-empty string. *)
Definition parseAmountTry (amountStr : string) : number :=
  let cleaned := removeSpaces (removeCurrency (trim amountStr)) in
  let cleaned :=
    if hasCommaDecimal cleaned
    then replace "," "." (removeAll isDot cleaned)
    else removeAll isComma cleaned in
  let amount := parseFloat cleaned in
  if isNaN amount then dec 0 0 else amount.

(** [parseAmount(amountStr)].  A falsy argument returns 0 at once; a truthy
    argument that is no string has no [trim], the [TypeError] is caught and
    0 is returned. *)
Definition parseAmount (amountStr : value) : number :=
  if negb (truthy amountStr) then dec 0 0
  else match amountStr with
       | VStr s => parseAmountTry s
       | _ => dec 0 0
       end.

Definition creditKeywords : list string :=
  ["pago"; "payment"; "abono"; "credit"; "reverso"].

(** [-Math.abs(amount)] *)
Definition negAbs (n : number) : number :=
  match n with
  | NaN => NaN
  | Infinity _ => Infinity true
  | Fin q => Fin (Qred (- Qabs q))
  end.

Definition determineSign (amount : number) (description : string) : number :=
  if isNegative amount then amount
  else
    let lower := toLowerCase description in
    if existsb (fun kw => includes lower kw) creditKeywords then amount
    else negAbs amount.

(** ** [normalizeDate] *)

(** [s.replace(/\s+/g, ' ')]; [inRun] says that the character before was
    white space. *)
Fixpoint collapseSpaces (inRun : bool) (s : string) : string :=
  match s with
  | String a s1 =>
      let space rest := if inRun then rest else String (ascii_of_N 32) rest in
      if ws1 a then space (collapseSpaces true s1) else
      match s1 with
      | String b s2 =>
          if ws2 a b then space (collapseSpaces true s2) else
          match s2 with
          | String c s3 =>
              if ws3 a b c then space (collapseSpaces true s3)
              else String a (collapseSpaces false s1)
          | EmptyString => String a (collapseSpaces false s1)
          end
      | EmptyString => String a (collapseSpaces false s1)
      end
  | EmptyString => EmptyString
  end.

(** [[\/\-]] *)
Definition isSeparator (c : ascii) : bool := (code c =? 47)%N || (code c =? 45)%N.

Definition isHyphen (c : ascii) : bool := (code c =? 45)%N.

(** [\d{1,2}] at the head of [s]: what it can take, with what is left,
    longest first. *)
Definition digits12 (s : string) : list (string * string) :=
  match s with
  | String a rest =>
      if isDigit a then
        match rest with
        | String b rest' =>
            if isDigit b
            then [(String a (String b EmptyString), rest'); (String a EmptyString, rest)]
            else [(String a EmptyString, rest)]
        | EmptyString => [(String a EmptyString, rest)]
        end
      else []
  | EmptyString => []
  end.

(** [\d{n}] at the head of [s] *)
Fixpoint digitsN (n : nat) (s : string) : option (string * string) :=
  match n with
  | O => Some (EmptyString, s)
  | S n' =>
      match s with
      | String a rest =>
          if isDigit a then
            match digitsN n' rest with
            | Some (ds, rest') => Some (String a ds, rest')
            | None => None
            end
          else None
      | EmptyString => None
      end
  end.

(** One character of a class at the head of [s] *)
Definition charAt (class : ascii -> bool) (s : string) : option string :=
  match s with
  | String c rest => if class c then Some rest else None
  | EmptyString => None
  end.

(** The first alternative that leads to a match, in the order a
    backtracking matcher tries them. *)
Fixpoint firstMatch {A B : Type} (f : A -> option B) (alternatives : list A) : option B :=
  match alternatives with
  | [] => None
  | a :: rest => match f a with Some b => Some b | None => firstMatch f rest end
  end.

(** [(\d{1,2})[\/\-](\d{1,2})[\/\-](\d{n})] at the head of [s]: the three
    groups. *)
Definition dayFirstAt (n : nat) (s : string) : option (string * string * string) :=
  firstMatch
    (fun '(day, s1) =>
       match charAt isSeparator s1 with
       | Some s2 =>
           firstMatch
             (fun '(month, s3) =>
                match charAt isSeparator s3 with
                | Some s4 =>
                    match digitsN n s4 with
                    | Some (year, _) => Some (day, month, year)
                    | None => None
                    end
                | None => None
                end)
             (digits12 s2)
       | None => None
       end)
    (digits12 s).

(** [(\d{4})-(\d{1,2})-(\d{1,2})] at the head of [s]: the three groups. *)
Definition yearFirstAt (s : string) : option (string * string * string) :=
  match digitsN 4 s with
  | Some (year, s1) =>
      match charAt isHyphen s1 with
      | Some s2 =>
          firstMatch
            (fun '(month, s3) =>
               match charAt isHyphen s3 with
               | Some s4 =>
                   match digits12 s4 with
                   | (day, _) :: _ => Some (year, month, day)
                   | [] => None
                   end
               | None => None
               end)
            (digits12 s2)
      | None => None
      end
  | None => None
  end.

(** [s.match(re)] for a pattern without the [g] flag: the match at the
    leftmost position that has one. *)
Fixpoint matchFirst {A : Type} (at_ : string -> option A) (s : string) : option A :=
  match at_ s with
  | Some groups => Some groups
  | None =>
      match s with
      | String _ rest => matchFirst at_ rest
      | EmptyString => None
      end
  end.

(** [normalizeDate(dateStr)].  The [trim] stands before the [try], so a
    truthy argument that is no string makes the call throw. *)
Definition normalizeDate (dateStr : value) : error + option string :=
  if negb (truthy dateStr) then inr None
  else match dateStr with
       | VStr s =>
           let cleaned := collapseSpaces false (trim s) in
           match matchFirst (dayFirstAt 4) cleaned with
           | Some (day, month, year) =>
               inr (Some (year +:+ "-" +:+ padStart2 month +:+ "-" +:+ padStart2 day))
           | None =>
               match matchFirst (dayFirstAt 2) cleaned with
               | Some (day, month, year) =>
                   let fullYear :=
                     if (50 <=? digitsValue 0 year)%Z then "19" +:+ year
                     else "20" +:+ year in
                   inr (Some (fullYear +:+ "-" +:+ padStart2 month +:+ "-"
                              +:+ padStart2 day))
               | None =>
                   match matchFirst yearFirstAt cleaned with
                   | Some (year, month, day) =>
                       inr (Some (year +:+ "-" +:+ padStart2 month +:+ "-"
                                  +:+ padStart2 day))
                   | None => inr None
                   end
               end
           end
       | _ => inl (TypeError "dateStr.trim is not a function")
       end.

(** ** [detectColumnIndices] and [parseTable] *)

(** The [indices] object; a property not set is [None]. *)
Record Indices : Type := {
  date : option nat;
  description : option nat;
  amount : option nat;
  category : option nat
}.

(** [header.includes(k1) || header.includes(k2) || ...] *)
Definition includesAny (header : string) (keywords : list string) : bool :=
  existsb (includes header) keywords.

(** The body of the loop of [detectColumnIndices] at index [i] *)
Definition detectAt (i : nat) (header : string) (indices : Indices) : Indices :=
  let indices1 :=
    if includesAny header ["fecha"; "date"]
    then {| date := Some i; description := description indices;
            amount := amount indices; category := category indices |}
    else indices in
  let indices2 :=
    if includesAny header ["descripción"; "descripcion"; "comercio"; "merchant"; "detail"]
    then {| date := date indices1; description := Some i;
            amount := amount indices1; category := category indices1 |}
    else indices1 in
  let indices3 :=
    if includesAny header ["monto"; "valor"; "amount"; "importe"]
    then {| date := date indices2; description := description indices2;
            amount := Some i; category := category indices2 |}
    else indices2 in
  if includesAny header ["categoría"; "categoria"; "category"]
  then {| date := date indices3; description := description indices3;
          amount := amount indices3; category := Some i |}
  else indices3.

Fixpoint detectFrom (i : nat) (headers : list string) (indices : Indices) : Indices :=
  match headers with
  | [] => indices
  | header :: rest => detectFrom (S i) rest (detectAt i header indices)
  end.

Definition detectColumnIndices (headers : list string) : Indices :=
  detectFrom 0 headers
    {| date := None; description := None; amount := None; category := None |}.

(** [!index] for an index that is a number or not set *)
Definition noIndex (index : option nat) : bool :=
  match index with
  | Some (S _) => false
  | _ => true
  end.

Section WithRows.

(** A cell of a table and its [text] *)
Variable Cell : Type.
Variable text : Cell -> string.
(** [String.prototype.toLowerCase], on every character *)
Variable lower : string -> string.
(** What [parseRow] makes of a row: a thrown error or a transaction, of
    which [parseTable] reads whether [date] is truthy *)
Variable Row : Type.
Variable parseRow : list Cell -> Indices -> error + Row.
Variable hasDate : Row -> bool.

(** [parseTable(table)] for [table.rows] an array of rows or missing *)
Definition parseTable (rows : option (list (list Cell))) : list Row :=
  match rows with
  | Some (header :: data) =>
      if (List.length (header :: data) <? 2)%nat then []
      else
        let headers := map (fun cell => trim (lower (text cell))) header in
        let indices := detectColumnIndices headers in
        if noIndex (date indices) then []
        else
          flat_map (fun row =>
                      match parseRow row indices with
                      | inr transaction => if hasDate transaction then [transaction] else []
                      | inl error => []
                      end) data
  | _ => []
  end.

(** [parseStatementTables(tables)] *)
Definition parseStatementTables (tables : list (option (list (list Cell)))) : list Row :=
  flat_map parseTable tables.

End WithRows.

End Parser.

(* ===================================================================== *)
(** * shared/transaction-parser (line scanner used by the worker) *)
(* ===================================================================== *)

Module TransactionParser.

Inductive TxType : Type := CREDIT | DEBIT.

Record Transaction : Type := {
  auth0UserId : option string;
  userEmail : option string;
  transactionId : string;
  date : option string;
  merchant : string;
  authNumber : option string;
  amount : number;
  amountStr : string;
  type : TxType;
  category : string;
  sourceDocumentId : option string;
  documentType : option string;
  rawLine : string;
  createdAt : string
}.

(** The [metadata] argument; a missing property is [None]. *)
Record Metadata : Type := {
  md_sourceDocumentId : option string;
  md_auth0UserId : option string;
  md_userEmail : option string;
  md_documentType : option string
}.

(** [datePattern = /(\d{2}\/\d{2}\/\d{4})/] anchored at the head of [s] *)
Definition dateAt (s : string) : option string :=
  match s with
  | String d1 (String d2 (String p (String m1 (String m2 (String q
      (String y1 (String y2 (String y3 (String y4 _))))))))) =>
      if isDigit d1 && isDigit d2 && (code p =? 47)%N
         && isDigit m1 && isDigit m2 && (code q =? 47)%N
         && isDigit y1 && isDigit y2 && isDigit y3 && isDigit y4
      then Some (String d1 (String d2 (String p (String m1 (String m2 (String q
             (String y1 (String y2 (String y3 (String y4 EmptyString))))))))))
      else None
  | _ => None
  end.

(** [line.match(datePattern)]: group 1 of the leftmost match. *)
Fixpoint matchDate (s : string) : option string :=
  match dateAt s with
  | Some d => Some d
  | None => match s with
            | String _ s' => matchDate s'
            | EmptyString => None
            end
  end.

Definition isAmountChar (c : ascii) : bool :=
  isDigit c || (code c =? 46)%N || (code c =? 44)%N.

(** [[...line.matchAll(/\$\s*([\d.,]+)/g)]], group 1 of every match.  A
    match covers a dollar sign, white space and a run of digits, dots and
    commas, so no dollar sign lies inside it: resuming the search one
    character after the dollar sign finds the matches that resuming after the
    match finds. *)
Fixpoint matchAllAmounts (s : string) : list string :=
  match s with
  | EmptyString => []
  | String c s' =>
      if (code c =? 36)%N then
        let run := takeWhile isAmountChar (trimStart s') in
        if isEmpty run then matchAllAmounts s' else run :: matchAllAmounts s'
      else matchAllAmounts s'
  end.

(** [line.split('$')[0]] *)
Definition beforeDollar (line : string) : string :=
  match split "$" line with
  | h :: _ => h
  | [] => EmptyString
  end.

(** [merchant.match(/^(\d{6})/)] *)
Definition matchAuthNumber (s : string) : option string :=
  match s with
  | String a (String b (String c (String d (String e (String f _))))) =>
      if isDigit a && isDigit b && isDigit c && isDigit d && isDigit e && isDigit f
      then Some (String a (String b (String c (String d (String e (String f EmptyString))))))
      else None
  | _ => None
  end.

(** [convertToISODate]: without a slash [month] is undefined, its [padStart]
    throws and the [catch] returns the argument; with one slash only, [year]
    is undefined and the template prints it as such. *)
Definition convertToISODate (dateStr : string) : string :=
  match split "/" dateStr with
  | day :: month :: rest =>
      let year := match rest with y :: _ => y | [] => "undefined" end in
      year +:+ "-" +:+ padStart2 month +:+ "-" +:+ padStart2 day
  | _ => dateStr
  end.

(** The [try] block of [parseAmount]: [replace] exists on strings only. *)
Definition parseAmountTry (amountStr : value) : error + number :=
  match amountStr with
  | VStr s =>
      let normalized := replace "," "." (removeAll Parser.isDot s) in
      inr (parseFloat normalized)
  | _ => inl (TypeError "amountStr.replace is not a function")
  end.

Definition parseAmount (amountStr : value) : number :=
  match parseAmountTry amountStr with
  | inr n => n
  | inl _ => dec 0 0
  end.

(** The category table, in source order. *)
Definition categories : list (string * list string) :=
  [ ("RESTAURANTES", ["restaurante"; "pizza"; "burger"; "comida"; "cafe"; "starbucks";
                      "mc donald"; "frisby"; "dominos"; "juan vald"; "coffee"]);
    ("SUPERMERCADOS", ["exito"; "carulla"; "mercado"; "super"; "homecenter"; "alkosto"]);
    ("TRANSPORTE", ["uber"; "taxi"; "parking"; "peaje"; "gasolina"; "ecopetrol"; "eds";
                    "combustible"]);
    ("SALUD", ["farmacia"; "drogueria"; "clinica"; "hospital"; "colmedica"; "farmatodo";
               "cruz verde"]);
    ("TECNOLOGIA", ["amazon"; "google"; "apple"; "microsoft"; "netflix"; "spotify"; "openai";
                    "github"; "cloudflare"; "aws"]);
    ("ENTRETENIMIENTO", ["cine"; "teatro"; "juego"; "gimnasio"; "fitness"; "deporte"; "sporty"]);
    ("SERVICIOS", ["telefon"; "internet"; "luz"; "agua"; "gas"; "movistar"; "claro"; "une";
                   "starlink"]);
    ("HOGAR", ["homecenter"; "ferreteria"; "mueble"; "decoracion"]);
    ("EDUCACION", ["universidad"; "colegio"; "curso"; "libro"]);
    ("VIAJES", ["hotel"; "aero"; "avianca"; "latam"; "viaje"]);
    ("OTROS_SERVICIOS", ["rappi"; "payu"; "pago"]) ].

Fixpoint firstCategory (merchantLower : string) (table : list (string * list string))
  : string :=
  match table with
  | (category, keywords) :: rest =>
      if existsb (fun keyword => includes merchantLower keyword) keywords
      then category
      else firstCategory merchantLower rest
  | [] => "SIN_CATEGORIA"
  end.

Definition autoCategory (merchant : string) : string :=
  firstCategory (toLowerCase merchant) categories.

(** The test behind [isCredit] in [parseTransactions] *)
Definition isCredit (merchant : string) : bool :=
  let lower := toLowerCase merchant in
  includes lower "pago" || includes lower "abono" || includes lower "reversion".

Definition orEmpty (o : option string) : string :=
  match o with Some s => s | None => EmptyString end.

Section WithRuntime.

(** [crypto.createHash('sha256').update(s).digest('hex')] *)
Variable sha256_hex : string -> string.
(** Number-to-string conversion, as [Array.prototype.join] applies it *)
Variable Number_toString : number -> string.
(** [new Date().toISOString()] as read while line [i] is handled *)
Variable now : nat -> string.

Definition hashInput (auth0UserId date : option string) (amount : number)
    (merchant : string) (authNumber sourceDocumentId : option string) : string :=
  join "|" [ orEmpty auth0UserId; orEmpty date; Number_toString amount; merchant;
             orEmpty authNumber; orEmpty sourceDocumentId ].

Definition generateTransactionHash (auth0UserId date : option string) (amount : number)
    (merchant : string) (authNumber sourceDocumentId : option string) : string :=
  sha256_hex (hashInput auth0UserId date amount merchant authNumber sourceDocumentId).

(** The body of [if (hasDate && amounts.length > 0)]: the transaction
    built from a trimmed line. *)
Definition buildTransaction (metadata : Metadata) (i : nat) (line : string)
    (amounts : list string) : Transaction :=
  let date := matchDate line in
  let isoDate := option_map convertToISODate date in
  let merchant := trim (beforeDollar line) in
  let merchant :=
    match date with
    | Some d => trim (replace d "" merchant)
    | None => merchant
    end in
  let authNumber := matchAuthNumber merchant in
  let merchant :=
    match authNumber with
    | Some a => trim (replace a "" merchant)
    | None => merchant
    end in
  let extractedAmounts := map trim amounts in
  let amountStr :=
    match extractedAmounts with
    | a :: _ => if isEmpty a then "0" else a
    | [] => "0"
    end in
  let amount := parseAmount (VStr amountStr) in
  let type := if isCredit merchant then CREDIT else DEBIT in
  let hash := generateTransactionHash (md_auth0UserId metadata) isoDate amount merchant
                authNumber (md_sourceDocumentId metadata) in
  let category := autoCategory merchant in
  {| auth0UserId := md_auth0UserId metadata;
     userEmail := md_userEmail metadata;
     transactionId := hash;
     date := isoDate;
     merchant := if isEmpty merchant then "DESCONOCIDO" else merchant;
     authNumber := authNumber;
     amount := amount;
     amountStr := amountStr;
     type := type;
     category := category;
     sourceDocumentId := md_sourceDocumentId metadata;
     documentType := md_documentType metadata;
     rawLine := line;
     createdAt := now i |}.

Definition isSectionStart (line : string) : bool :=
  includes line "Nuevos movimientos" || includes line "Movimientos"
  || (includes line "Número de" && includes line "autorización").

Definition isSectionEnd (line : string) : bool :=
  includes line "En casos de inconsistencias" || includes line "Resumen de tu cuenta"
  || includes line "Total a pagar".

(** One turn of the [for] loop over [lines], on [lines[i]]; the state is
    [inTransactionSection] and the transactions pushed so far, oldest
    first. *)
Definition scanLine (metadata : Metadata) (i : nat) (st : bool * list Transaction)
    (rawText : string) : bool * list Transaction :=
  let '(inTransactionSection, transactions) := st in
  let line := trim rawText in
  if isSectionStart line then (true, transactions)
  else
    let transactions :=
      if inTransactionSection && negb (isEmpty line) then
        let hasDate := match matchDate line with Some _ => true | None => false end in
        let amounts := matchAllAmounts line in
        if hasDate && negb (Nat.eqb (List.length amounts) 0)
        then (transactions ++ [buildTransaction metadata i line amounts])%list
        else transactions
      else transactions in
    (if isSectionEnd line then false else inTransactionSection, transactions).

Fixpoint scanLines (metadata : Metadata) (i : nat) (st : bool * list Transaction)
    (lines : list string) : bool * list Transaction :=
  match lines with
  | [] => st
  | l :: rest => scanLines metadata (S i) (scanLine metadata i st l) rest
  end.

Definition parseTransactions (text : string) (metadata : Metadata) : list Transaction :=
  snd (scanLines metadata 0 (false, []) (split (ascii_of_N 10) text)).

End WithRuntime.

End TransactionParser.

(* ===================================================================== *)
(** * lambda/shared/pdf-text-extractor.js *)
(* ===================================================================== *)

Module PdfTextExtractor.

Local Open Scope eff_scope.

(** The part of [/tmp] the function touches: path to content. *)
Abbreviation FS := (gmap string string).

(** What one run of an external command does: whether it exits with status
    0, its diagnostic output, and the content it leaves at its output path,
    if any.  [qpdf] exits with status 3 after writing its output when it met
    warnings, so a failed run may have written. *)
Record ToolRun : Type := {
  exitOk : bool;
  stderr : string;
  written : option string
}.

(** Everything outside the function that a call depends on. *)
Record Env : Type := {
  (** [s3.send(getCommand)] then [streamToBuffer] *)
  download : error + string;
  (** the four readings of [Date.now()], input, output, unlocked, password *)
  tInput : string;
  tOutput : string;
  tUnlocked : string;
  tPassword : string;
  (** the error with which [/tmp] refuses to open the input file for
      writing, and the password file, if it does (no permission, no room
      for another file) *)
  refusedInput : option error;
  refusedPassword : option error;
  (** how Node describes, in the message of its [TypeError], data that it
      does not write, e.g. [ Received type number (1234)] *)
  received : string;
  qpdf : ToolRun;
  pdftotext : ToolRun
}.

Definition inputFile (env : Env) : string := "/tmp/input_" +:+ tInput env +:+ ".pdf".
Definition outputFile (env : Env) : string := "/tmp/output_" +:+ tOutput env +:+ ".txt".
Definition unlockedFile (env : Env) : string := "/tmp/unlocked_" +:+ tUnlocked env +:+ ".pdf".
Definition passwordFile (env : Env) : string := "/tmp/password_" +:+ tPassword env +:+ ".txt".

Definition tempFiles (env : Env) : list string :=
  [inputFile env; passwordFile env; unlockedFile env; outputFile env].

(** ** [fs]

    Removing or reading a file that is not there throws.  Writing throws in
    two cases, both before a byte is written, so that the path is left as it
    was: data that is neither a string nor a buffer is refused by Node 22
    (the runtime of the functions) with a [TypeError] before the file is
    opened, and [/tmp] may refuse to open the file. *)

Definition ERR_INVALID_ARG_TYPE (received : string) : error :=
  TypeError ("The " +:+ String (ascii_of_N 34) "data" +:+ String (ascii_of_N 34)
             " argument must be of type string or an instance of Buffer, TypedArray, or DataView."
             +:+ received).

(** [fs.writeFileSync(path, data)]; a buffer is a [VStr] here. *)
Definition writeFileSync (refused : option error) (received : string)
    (path : string) (data : value) : M FS unit :=
  match data with
  | VStr content =>
      match refused with
      | Some error => throw error
      | None => fun fs => (inr tt, <[path := content]> fs)
      end
  | _ => throw (ERR_INVALID_ARG_TYPE received)
  end.

Definition existsSync (path : string) : M FS bool :=
  fun fs => (inr (bool_decide (is_Some (fs !! path))), fs).

Definition ENOENT (path : string) : error :=
  Error "Error" ("ENOENT: no such file or directory, '" +:+ path +:+ "'").

Definition unlinkSync (path : string) : M FS unit :=
  fun fs =>
    match fs !! path with
    | Some _ => (inr tt, delete path fs)
    | None => (inl (ENOENT path), fs)
    end.

(** [if (fs.existsSync(path)) fs.unlinkSync(path);] *)
Definition unlinkIfExists (path : string) : M FS unit :=
  (ex <- existsSync path ;; when ex (unlinkSync path))%eff.

Definition readFileSync (path : string) : M FS string :=
  fun fs =>
    match fs !! path with
    | Some data => (inr data, fs)
    | None => (inl (ENOENT path), fs)
    end.

(** [await execAsync(command)], the command writing to [out]: the run leaves
    its output, then the promise resolves on status 0 and is rejected
    otherwise with the command and the diagnostic in the message. *)
Definition execAsync (command : string) (run : ToolRun) (out : string) : M FS unit :=
  fun fs =>
    let fs' := match written run with
               | Some data => <[out := data]> fs
               | None => fs
               end in
    if exitOk run then (inr tt, fs')
    else (inl (Error "Error" ("Command failed: " +:+ command +:+ String (ascii_of_N 10)
                                (stderr run))), fs').

Definition qpdfCommand (env : Env) : string :=
  "/usr/local/bin/qpdf --password-file=" +:+ String (ascii_of_N 34) (passwordFile env)
  +:+ String (ascii_of_N 34) " --decrypt "
  +:+ String (ascii_of_N 34) (inputFile env) +:+ String (ascii_of_N 34) " "
  +:+ String (ascii_of_N 34) (unlockedFile env) +:+ String (ascii_of_N 34) "".

Definition pdftotextCommand (fileToExtract : string) (env : Env) : string :=
  "pdftotext -layout " +:+ String (ascii_of_N 34) fileToExtract
  +:+ String (ascii_of_N 34) " "
  +:+ String (ascii_of_N 34) (outputFile env) +:+ String (ascii_of_N 34) "".

Definition PDF_UNLOCK_FAILED : error :=
  Error "Error" "PDF_UNLOCK_FAILED: No se pudo desbloquear el PDF".

(** Step 3: unlock with [qpdf] when there is a password, whatever value
    [options.password] is; the result is [fileToExtract].  The write of the
    password stands before the [try]. *)
Definition unlockStep (env : Env) (password : value) : M FS string :=
  if truthy password then
    writeFileSync (refusedPassword env) (received env) (passwordFile env) password ;;
    tryCatch
      (execAsync (qpdfCommand env) (qpdf env) (unlockedFile env) ;;
       unlinkSync (passwordFile env) ;;
       unlinkSync (inputFile env) ;;
       ret (unlockedFile env))
      (fun error =>
         unlinkIfExists (passwordFile env) ;;
         unlinkIfExists (inputFile env) ;;
         throw PDF_UNLOCK_FAILED)
  else ret (inputFile env).

(** Steps 4 and 5: run [pdftotext], read its output, clean up. *)
Definition extractStep (env : Env) (fileToExtract : string) : M FS string :=
  tryCatch
    (execAsync (pdftotextCommand fileToExtract env) (pdftotext env) (outputFile env) ;;
     ex <- existsSync (outputFile env) ;;
     if ex then
       text <- readFileSync (outputFile env) ;;
       unlinkSync fileToExtract ;;
       unlinkSync (outputFile env) ;;
       ret text
     else throw (Error "Error" "pdftotext no generó archivo de salida"))
    (fun error =>
       unlinkIfExists fileToExtract ;;
       unlinkIfExists (outputFile env) ;;
       throw (Error "Error" ("TEXT_EXTRACTION_FAILED: " +:+ message error))).

Definition s3Download (env : Env) : M FS string :=
  fun fs => (download env, fs).

(** [extractTextFromPDF(bucket, key, { password })]; the outer [catch] logs
    and throws the error again, and removes nothing. *)
Definition extractTextFromPDF (env : Env) (password : value) : M FS string :=
  tryCatch
    (pdfBuffer <- s3Download env ;;
     writeFileSync (refusedInput env) (received env) (inputFile env) (VStr pdfBuffer) ;;
     fileToExtract <- unlockStep env password ;;
     extractStep env fileToExtract)
    (fun error => throw error).

End PdfTextExtractor.

(* ===================================================================== *)
(** * shared/document-tracker *)
(* ===================================================================== *)

Module DocumentTracker.

Local Open Scope eff_scope.

Record UpdateCommand : Type := {
  TableName : option string;
  Key : string * string;
  UpdateExpression : string;
  ExpressionAttributeNames : gmap string string;
  ExpressionAttributeValues : gmap string value
}.

(** The world of the tracker: the document store, whatever it is, the
    commands handed to [dynamo.send] so far and the lines written to the
    console, both oldest first. *)
Record World (S : Type) : Type := {
  store : S;
  sent : list UpdateCommand;
  console : list string
}.
Arguments store {S} _.
Arguments sent {S} _.
Arguments console {S} _.

(** [additionalData.key]: the property, or undefined *)
Fixpoint property (data : list (string * value)) (key : string) : value :=
  match data with
  | (k, v) :: rest => if String.eqb k key then v else property rest key
  | [] => VUndefined
  end.

(** [!x] for an argument that is a string or missing *)
Definition missing (x : option string) : bool :=
  match x with
  | Some s => isEmpty s
  | None => true
  end.

Section WithStore.

Context {S : Type}.
(** [process.env.UPLOADS_TABLE_NAME] *)
Variable UPLOADS_TABLE : option string.
(** What the store does with an update: any state change, then success or
    a thrown error. *)
Variable storeUpdate : UpdateCommand -> S -> (error + unit) * S.
(** [new Date().toISOString()] *)
Variable now : string.

Definition consoleWrite (line : string) : M (World S) unit :=
  fun w => (inr tt, {| store := store w; sent := sent w;
                       console := (console w ++ [line])%list |}).

(** [await dynamo.send(new UpdateCommand(...))] *)
Definition send (command : UpdateCommand) : M (World S) unit :=
  fun w =>
    let '(r, st) := storeUpdate command (store w) in
    (r, {| store := st; sent := (sent w ++ [command])%list; console := console w |}).

(** The three accumulators of the update, as the code fills them. *)
Record Expression : Type := {
  updateExpression : list string;
  expressionAttributeNames : gmap string string;
  expressionAttributeValues : gmap string value
}.

Definition setField (e : Expression) (key : string) (v : value) : Expression :=
  {| updateExpression := (updateExpression e ++ ["#" +:+ key +:+ " = :" +:+ key])%list;
     expressionAttributeNames := <["#" +:+ key := key]> (expressionAttributeNames e);
     expressionAttributeValues := <[":" +:+ key := v]> (expressionAttributeValues e) |}.

Definition buildExpression (auth0UserId status : string)
    (additionalData : list (string * value)) : Expression :=
  let statusComposite := auth0UserId +:+ "#" +:+ status in
  let e0 :=
    {| updateExpression :=
         ["SET #status = :status, #statusComposite = :statusComposite, #updatedAt = :updatedAt"];
       expressionAttributeNames :=
         <["#updatedAt" := "updatedAt"]>
           (<["#statusComposite" := "statusComposite"]> (<["#status" := "status"]> ∅));
       expressionAttributeValues :=
         <[":updatedAt" := VStr now]>
           (<[":statusComposite" := VStr statusComposite]>
              (<[":status" := VStr status]> ∅)) |} in
  let e1 :=
    if String.eqb status DocumentStatus.PROCESSING
       && negb (truthy (property additionalData "processingStartedAt"))
    then setField e0 "processingStartedAt" (VStr now) else e0 in
  let e2 :=
    if String.eqb status DocumentStatus.COMPLETED
       && negb (truthy (property additionalData "completedAt"))
    then setField e1 "completedAt" (VStr now) else e1 in
  fold_left (fun e kv => setField e (fst kv) (snd kv)) additionalData e2.

(** The command built inside the [try] block *)
Definition updateCommand (auth0UserId documentId status : string)
    (additionalData : list (string * value)) : UpdateCommand :=
  let e := buildExpression auth0UserId status additionalData in
  {| TableName := UPLOADS_TABLE;
     Key := (auth0UserId, documentId);
     UpdateExpression := join ", " (updateExpression e);
     ExpressionAttributeNames := expressionAttributeNames e;
     ExpressionAttributeValues := expressionAttributeValues e |}.

Definition updateDocumentStatus (auth0UserId documentId : option string)
    (status : string) (additionalData : list (string * value)) : M (World S) unit :=
  match auth0UserId, documentId with
  | Some uid, Some did =>
      if isEmpty uid || isEmpty did
      then consoleWrite "❌ [document-tracker] auth0UserId o documentId faltante"
      else
        tryCatch
          (send (updateCommand uid did status additionalData) ;;
           consoleWrite ("✅ [document-tracker] Estado actualizado: " +:+ status))
          (fun error => consoleWrite "❌ [document-tracker] Error actualizando estado:")
  | _, _ => consoleWrite "❌ [document-tracker] auth0UserId o documentId faltante"
  end.

Definition markDocumentFailed (auth0UserId documentId : option string)
    (errorType errorMessage : value) : M (World S) unit :=
  updateDocumentStatus auth0UserId documentId DocumentStatus.FAILED
    [ ("errorType", errorType); ("errorMessage", errorMessage); ("failedAt", VStr now) ].

Definition markPasswordError (auth0UserId documentId : option string)
    (errorMessage : value) : M (World S) unit :=
  updateDocumentStatus auth0UserId documentId DocumentStatus.PASSWORD_ERROR
    [ ("errorType", VStr DocumentStatus.PASSWORD_INCORRECT);
      ("errorMessage", errorMessage);
      ("failedAt", VStr now);
      ("canRetry", VBool true) ].

Definition markDocumentCompleted (auth0UserId documentId : option string)
    (transactionsExtracted processingTimeMs : value) : M (World S) unit :=
  updateDocumentStatus auth0UserId documentId DocumentStatus.COMPLETED
    [ ("transactionsExtracted", transactionsExtracted);
      ("processingTimeMs", processingTimeMs) ].

End WithStore.

(** ** [getDocument] *)

Section WithLookup.

Context {S : Type}.
(** What the store does with the Get of a key: any state change, then the
    item, if there is one, or a thrown error. *)
Variable storeGet : string * string -> S -> (error + option (gmap string value)) * S.

(** [getDocument(auth0UserId, documentId)]: [result.Item || null], and
    [null] from the [catch].  ([sent] keeps the updates only.) *)
Definition getDocument (auth0UserId documentId : string)
  : M (World S) (option (gmap string value)) :=
  tryCatch
    (fun w =>
       let '(r, st) := storeGet (auth0UserId, documentId) (store w) in
       (r, {| store := st; sent := sent w; console := console w |}))
    (fun error =>
       fun w => (inr None,
                 {| store := store w; sent := sent w;
                    console := (console w
                                ++ ["❌ [document-tracker] Error obteniendo documento:"])%list |})).

End WithLookup.

End DocumentTracker.

(* ===================================================================== *)
(** * lambda/workers/pdf-processor.js *)
(* ===================================================================== *)

Module PdfProcessor.

Import TransactionParser.
Local Open Scope eff_scope.

(** ** Extraction stage of [processRecord] *)

Section ExtractionStage.

Context {S : Type}.
Variable UPLOADS_TABLE : option string.
Variable storeUpdate : DocumentTracker.UpdateCommand -> S -> (error + unit) * S.
Variable now : string.

(** The worker's world at this stage: [/tmp] and the tracker's world. *)
Definition Stage : Type := PdfTextExtractor.FS * DocumentTracker.World S.

Definition onFiles {A} (c : M PdfTextExtractor.FS A) : M Stage A :=
  fun w => let '(r, fs) := c (fst w) in (r, (fs, snd w)).

Definition onTracker {A} (c : M (DocumentTracker.World S) A) : M Stage A :=
  fun w => let '(r, t) := c (snd w) in (r, (fst w, t)).

(** The [try]/[catch] around the call of [extractTextFromPDF]: the error is
    recorded as a password error or as a failed extraction, by its message,
    and thrown again. *)
Definition extractText (env : PdfTextExtractor.Env) (auth0UserId documentId : option string)
    (password : value) : M Stage string :=
  tryCatch
    (onFiles (PdfTextExtractor.extractTextFromPDF env password))
    (fun extractError =>
       (if includes (message extractError) "password"
           || includes (message extractError) "contraseña"
        then onTracker (DocumentTracker.markPasswordError UPLOADS_TABLE storeUpdate now
                          auth0UserId documentId
                          (VStr ("Error de contraseña: " +:+ message extractError)))
        else onTracker (DocumentTracker.markDocumentFailed UPLOADS_TABLE storeUpdate now
                          auth0UserId documentId
                          (VStr DocumentStatus.EXTRACTION_FAILED)
                          (VStr (message extractError)))) ;;
       throw extractError).

End ExtractionStage.

(** ** [saveTransactions] *)

(** The primary key of the transactions table *)
Definition TxKey : Type := option string * string.

Definition keyOf (transaction : Transaction) : TxKey :=
  (auth0UserId transaction, transactionId transaction).

Inductive Command : Type :=
| GetCommand (key : TxKey)
(** always with [ConditionExpression: 'attribute_not_exists(transactionId)'] *)
| PutCommand (item : Transaction).

Record Counters : Type := {
  saved : nat;
  duplicates : nat;
  errors : nat
}.

Definition total (c : Counters) : nat := saved c + duplicates c + errors c.

(** The keys looked up by the Get commands of a trace, in order. *)
Definition getKeys (trace : list Command) : list TxKey :=
  flat_map (fun command => match command with
                           | GetCommand key => [key]
                           | PutCommand _ => []
                           end) trace.

Section WithTable.

Context {S : Type}.
(** What the store does with a command: any state change, then a response
    (of which the code reads [Item]) or a thrown error. *)
Variable storeSend : Command -> S -> (error + option Transaction) * S.

(** The table together with the commands sent so far, oldest first. *)
Definition Db : Type := S * list Command.

(** [await dynamo.send(command)] *)
Definition send (command : Command) : M Db (option Transaction) :=
  fun w =>
    let '(r, st) := storeSend command (fst w) in
    (r, (st, (snd w ++ [command])%list)).

(** The body of the [for] loop, from the counters before to the counters
    after. *)
Definition saveOne (transaction : Transaction) (c : Counters) : M Db Counters :=
  tryCatch
    (existing <- send (GetCommand (keyOf transaction)) ;;
     match existing with
     | Some _ =>
         ret {| saved := saved c; duplicates := Datatypes.S (duplicates c);
                errors := errors c |}
     | None =>
         send (PutCommand transaction) ;;
         ret {| saved := Datatypes.S (saved c); duplicates := duplicates c;
                errors := errors c |}
     end)
    (fun error =>
       if String.eqb (name error) "ConditionalCheckFailedException"
       then ret {| saved := saved c; duplicates := Datatypes.S (duplicates c);
                   errors := errors c |}
       else ret {| saved := saved c; duplicates := duplicates c;
                   errors := Datatypes.S (errors c) |}).

Fixpoint saveLoop (transactions : list Transaction) (c : Counters) : M Db Counters :=
  match transactions with
  | [] => ret c
  | transaction :: rest => c' <- saveOne transaction c ;; saveLoop rest c'
  end.

Definition saveTransactions (transactions : list Transaction) : M Db Counters :=
  saveLoop transactions {| saved := 0; duplicates := 0; errors := 0 |}.

End WithTable.

(** ** A reference table

    The transactions table as a finite map from primary key to item, with
    the two commands the worker sends and no failure of its own: a Get
    returns the item under the key, a conditional Put stores the item when
    the key is free and is refused otherwise. *)
Abbreviation Table := (gmap TxKey Transaction).

Definition ConditionalCheckFailedException : error :=
  Error "ConditionalCheckFailedException" "The conditional request failed".

Definition tableSend (command : Command) (table : Table)
  : (error + option Transaction) * Table :=
  match command with
  | GetCommand key => (inr (table !! key), table)
  | PutCommand item =>
      match table !! keyOf item with
      | Some _ => (inl ConditionalCheckFailedException, table)
      | None => (inr None, <[keyOf item := item]> table)
      end
  end.

(** ** [processRecord] and [handler] *)

(** [key.replace(/\+/g, ' ')] *)
Fixpoint plusToSpace (s : string) : string :=
  match s with
  | EmptyString => EmptyString
  | String c rest =>
      String (if (code c =? 43)%N then ascii_of_N 32 else c) (plusToSpace rest)
  end.

(** What the worker reads of the S3 event record in the SQS message. *)
Record S3Event : Type := {
  (** [s3.bucket.name] *)
  bucketName : string;
  (** [s3.object.key] *)
  objectKey : string;
  (** [s3.object.size] *)
  objectSize : value
}.

(** What the outside answers while one SQS record is handled. *)
Record Job : Type := {
  (** [JSON.parse(record.body).Records?.[0]]: a thrown error, no record, or
      the S3 event *)
  s3Event : error + option S3Event;
  (** [(await s3.send(getCommand)).Metadata || {}], or a thrown error *)
  objectMetadata : error + gmap string string;
  (** the answer of the passwords table to the Get of [auth0UserId] and
      [documentType]: a thrown error, no item, or the [password] of the
      item, which is whatever value was stored *)
  passwordItem : option string -> string -> error + option value;
  (** the download and the tools of [extractTextFromPDF] *)
  extraction : PdfTextExtractor.Env;
  (** the two readings of [Date.now()] *)
  processingStartTime : Z;
  processingEndTime : Z
}.

(** [{ statusCode: 200, body: 'OK' }] *)
Record Response : Type := {
  statusCode : Z;
  body : string
}.

(** What the status update of a command says: [:status] and [:errorType]. *)
Definition report (command : DocumentTracker.UpdateCommand) : option value * option value :=
  (DocumentTracker.ExpressionAttributeValues command !! ":status",
   DocumentTracker.ExpressionAttributeValues command !! ":errorType").

(** A status written without an error type, and one written with it. *)
Definition plain (status : string) : option value * option value :=
  (Some (VStr status), None).

Definition failure (status errorType : string) : option value * option value :=
  (Some (VStr status), Some (VStr errorType)).

Section Worker.

Context {SU ST : Type}.
Variable UPLOADS_TABLE : option string.
Variable storeUpdate : DocumentTracker.UpdateCommand -> SU -> (error + unit) * SU.
Variable storeSend : Command -> ST -> (error + option Transaction) * ST.
(** [decodeURIComponent], which throws a [URIError] on a malformed escape *)
Variable decodeURIComponent : string -> error + string.
Variable sha256_hex : string -> string.
Variable Number_toString : number -> string.
(** [new Date().toISOString()] in the worker and the tracker, and in the
    parser while line [i] is handled *)
Variable now : string.
Variable lineClock : nat -> string.

(** The state of the worker: [/tmp], the tracker's world and the
    transactions table.  The lines written through the logger are left
    out. *)
Definition WorkerState : Type := @Stage SU * @Db ST.

Definition tracker (w : WorkerState) : DocumentTracker.World SU := snd (fst w).

Definition onStage {A} (c : M (@Stage SU) A) : M WorkerState A :=
  fun w => let '(r, s) := c (fst w) in (r, (s, snd w)).

Definition onDb {A} (c : M (@Db ST) A) : M WorkerState A :=
  fun w => let '(r, d) := c (snd w) in (r, (fst w, d)).

(** A call that answers or throws and leaves the world as it is. *)
Definition answer {A} (r : error + A) : M WorkerState A := fun w => (r, w).

Definition updateStatus (auth0UserId documentId : option string) (status : string)
    (additionalData : list (string * value)) : M WorkerState unit :=
  onStage (onTracker (DocumentTracker.updateDocumentStatus UPLOADS_TABLE storeUpdate now
                        auth0UserId documentId status additionalData)).

Definition markFailed (auth0UserId documentId : option string)
    (errorType errorMessage : string) : M WorkerState unit :=
  onStage (onTracker (DocumentTracker.markDocumentFailed UPLOADS_TABLE storeUpdate now
                        auth0UserId documentId (VStr errorType) (VStr errorMessage))).

Definition markCompleted (auth0UserId documentId : option string)
    (transactionsExtracted processingTimeMs : number) : M WorkerState unit :=
  onStage (onTracker (DocumentTracker.markDocumentCompleted UPLOADS_TABLE storeUpdate now
                        auth0UserId documentId (VNum transactionsExtracted)
                        (VNum processingTimeMs))).

(** The lookup of the password: [password] stays [null] unless the metadata
    say ['true'] and the table has an item; an error of the lookup is logged
    and dropped. *)
Definition findPassword (job : Job) (auth0UserId : option string) (documentType : string)
    (hasPassword : bool) : M WorkerState value :=
  if hasPassword then
    tryCatch
      (passwordResult <- answer (passwordItem job auth0UserId documentType) ;;
       match passwordResult with
       | Some password => ret password
       | None => ret VNull
       end)
      (fun dbError => ret VNull)
  else ret VNull.

(** Step 2: the [try]/[catch] around [parseTransactions]. *)
Definition parseText (text : string) (auth0UserId documentId userEmail : option string)
    (documentType : string) : M WorkerState (list Transaction) :=
  tryCatch
    (let transactions :=
       parseTransactions sha256_hex Number_toString lineClock text
         {| md_sourceDocumentId := documentId;
            md_auth0UserId := auth0UserId;
            md_userEmail := userEmail;
            md_documentType := Some documentType |} in
     if (List.length transactions =? 0)%nat then
       markFailed auth0UserId documentId DocumentStatus.NO_TRANSACTIONS_FOUND
         "No se encontraron transacciones en el documento" ;;
       throw (Error "Error" "No se encontraron transacciones")
     else ret transactions)
    (fun parseError =>
       when (negb (String.eqb (message parseError) "No se encontraron transacciones"))
         (markFailed auth0UserId documentId DocumentStatus.PARSING_FAILED
            (message parseError)) ;;
       throw parseError).

(** Step 3: the [try]/[catch] around [saveTransactions]. *)
Definition saveParsed (transactions : list Transaction)
    (auth0UserId documentId : option string) : M WorkerState Counters :=
  tryCatch
    (onDb (saveTransactions storeSend transactions))
    (fun saveError =>
       markFailed auth0UserId documentId DocumentStatus.DYNAMODB_ERROR
         (message saveError) ;;
       throw saveError).

(** [processRecord(record)]; the outer [catch] logs and throws the error
    again. *)
Definition processRecord (job : Job) : M WorkerState unit :=
  tryCatch
    (s3Event <- answer (s3Event job) ;;
     match s3Event with
     | None => ret tt
     | Some s3Event =>
         key <- answer (decodeURIComponent (plusToSpace (objectKey s3Event))) ;;
         if negb (String.prefix "pdfs/" key) then ret tt
         else
           metadata <- answer (objectMetadata job) ;;
           let auth0UserId := metadata !! "auth0-user-id" in
           let userEmail := metadata !! "user-email" in
           let documentId := metadata !! "document-id" in
           let documentType :=
             match metadata !! "document-type" with
             | Some s => if isEmpty s then "default" else s
             | None => "default"
             end in
           let hasPassword :=
             match metadata !! "has-password" with
             | Some s => String.eqb s "true"
             | None => false
             end in
           let fileSize := objectSize s3Event in
           when (DocumentTracker.missing auth0UserId)
             (throw (Error "Error" "auth0UserId es requerido en metadata")) ;;
           when (DocumentTracker.missing documentId)
             (throw (Error "Error" "documentId es requerido en metadata")) ;;
           updateStatus auth0UserId documentId DocumentStatus.PROCESSING
             [("fileSize", fileSize); ("processingStartedAt", VStr now)] ;;
           password <- findPassword job auth0UserId documentType hasPassword ;;
           (if hasPassword && truthy password
            then updateStatus auth0UserId documentId DocumentStatus.DECRYPTING []
            else updateStatus auth0UserId documentId
                   DocumentStatus.EXTRACTING_TEXT []) ;;
           text <- onStage (extractText UPLOADS_TABLE storeUpdate now (extraction job)
                              auth0UserId documentId password) ;;
           updateStatus auth0UserId documentId DocumentStatus.PARSING [] ;;
           transactions <- parseText text auth0UserId documentId userEmail documentType ;;
           result <- saveParsed transactions auth0UserId documentId ;;
           markCompleted auth0UserId documentId
             (dec (Z.of_nat (List.length transactions)) 0)
             (dec (processingEndTime job - processingStartTime job) 0)
     end)
    (fun error => throw error).

(** The loop of [handler] over [event.Records] *)
Fixpoint processRecords (records : list Job) : M WorkerState unit :=
  match records with
  | [] => ret tt
  | record :: rest => processRecord record ;; processRecords rest
  end.

(** [handler(event)], with [event.Records] an array or missing; the [catch]
    logs and throws the error again. *)
Definition handler (records : option (list Job)) : M WorkerState Response :=
  tryCatch
    (match records with
     | Some records =>
         processRecords records ;;
         ret {| statusCode := 200; body := "OK" |}
     | None => throw (TypeError "Cannot read properties of undefined (reading 'length')")
     end)
    (fun error => throw error).

End Worker.

End PdfProcessor.

(* ===================================================================== *)
(** * Concrete inputs used in the statements below *)
(* ===================================================================== *)

Module Scenario.

Definition LF : string := String (ascii_of_N 10) EmptyString.

(** A section header, the line of the end-to-end scenario, an end marker. *)
Definition undated : string :=
  join LF ["Movimientos"; "123456SUPERMERCADO XYZ$50.000,00"; "Total a pagar"].

(** The same with the date a statement line carries. *)
Definition dated : string :=
  join LF ["Movimientos"; "15/01/2025 123456SUPERMERCADO XYZ$50.000,00"; "Total a pagar"].

Definition metadata : TransactionParser.Metadata :=
  {| TransactionParser.md_sourceDocumentId := Some "doc-1";
     TransactionParser.md_auth0UserId := Some "auth0|user-1";
     TransactionParser.md_userEmail := Some "user@example.com";
     TransactionParser.md_documentType := Some "default" |}.

(** Two statement lines, parsed with stand-ins for the hash (the hash input
    itself), the number printer and the clock. *)
Definition twoLines : string :=
  join LF ["Movimientos";
           "15/01/2025 123456SUPERMERCADO XYZ$50.000,00";
           "16/01/2025 654321PAGO TARJETA$1.200,50";
           "Total a pagar"].

Definition parsed : list TransactionParser.Transaction :=
  TransactionParser.parseTransactions (fun hashInput => hashInput)
    (fun _ => "n") (fun _ => "2025-01-20T10:00:00.000Z") twoLines metadata.

(** A password-protected upload whose decryption [qpdf] refuses with a
    diagnostic naming the password, after starting its output file. *)
Definition wrongPassword : PdfTextExtractor.Env :=
  {| PdfTextExtractor.download := inr "%PDF-1.7 (encrypted)";
     PdfTextExtractor.tInput := "1730000000001";
     PdfTextExtractor.tOutput := "1730000000001";
     PdfTextExtractor.tUnlocked := "1730000000002";
     PdfTextExtractor.tPassword := "1730000000002";
     PdfTextExtractor.refusedInput := None;
     PdfTextExtractor.refusedPassword := None;
     PdfTextExtractor.received := EmptyString;
     PdfTextExtractor.qpdf :=
       {| PdfTextExtractor.exitOk := false;
          PdfTextExtractor.stderr := "qpdf: /tmp/input_1730000000001.pdf: invalid password";
          PdfTextExtractor.written := None |};
     PdfTextExtractor.pdftotext :=
       {| PdfTextExtractor.exitOk := true;
          PdfTextExtractor.stderr := EmptyString;
          PdfTextExtractor.written := Some "text" |} |}.

(** The same upload with the right password and a damaged file: [qpdf]
    writes the unlocked file and exits with status 3 for its warnings. *)
Definition unlockedWithWarnings : PdfTextExtractor.Env :=
  {| PdfTextExtractor.download := inr "%PDF-1.7 (encrypted)";
     PdfTextExtractor.tInput := "1730000000001";
     PdfTextExtractor.tOutput := "1730000000001";
     PdfTextExtractor.tUnlocked := "1730000000002";
     PdfTextExtractor.tPassword := "1730000000002";
     PdfTextExtractor.refusedInput := None;
     PdfTextExtractor.refusedPassword := None;
     PdfTextExtractor.received := EmptyString;
     PdfTextExtractor.qpdf :=
       {| PdfTextExtractor.exitOk := false;
          PdfTextExtractor.stderr := "WARNING: /tmp/input_1730000000001.pdf: file is damaged";
          PdfTextExtractor.written := Some "%PDF-1.7" |};
     PdfTextExtractor.pdftotext :=
       {| PdfTextExtractor.exitOk := true;
          PdfTextExtractor.stderr := EmptyString;
          PdfTextExtractor.written := Some "text" |} |}.

(** A document store that accepts every update. *)
Definition acceptAll (command : DocumentTracker.UpdateCommand) (st : unit)
  : (error + unit) * unit := (inr tt, st).

Definition freshTracker : DocumentTracker.World unit :=
  {| DocumentTracker.store := tt; DocumentTracker.sent := []; DocumentTracker.console := [] |}.

(** An encrypted upload for which no password is stored: [pdftotext] is run
    on the encrypted file and refuses it. *)
Definition stillEncrypted : PdfTextExtractor.Env :=
  {| PdfTextExtractor.download := inr "%PDF-1.7 (encrypted)";
     PdfTextExtractor.tInput := "1730000000001";
     PdfTextExtractor.tOutput := "1730000000001";
     PdfTextExtractor.tUnlocked := "1730000000002";
     PdfTextExtractor.tPassword := "1730000000002";
     PdfTextExtractor.refusedInput := None;
     PdfTextExtractor.refusedPassword := None;
     PdfTextExtractor.received := EmptyString;
     PdfTextExtractor.qpdf :=
       {| PdfTextExtractor.exitOk := true;
          PdfTextExtractor.stderr := EmptyString;
          PdfTextExtractor.written := Some "%PDF-1.7" |};
     PdfTextExtractor.pdftotext :=
       {| PdfTextExtractor.exitOk := false;
          PdfTextExtractor.stderr := "Command Line Error: Incorrect password";
          PdfTextExtractor.written := None |} |}.

(** An upload that both tools handle: [qpdf] unlocks it, [pdftotext] reads
    the two statement lines. *)
Definition readable : PdfTextExtractor.Env :=
  {| PdfTextExtractor.download := inr "%PDF-1.7 (encrypted)";
     PdfTextExtractor.tInput := "1730000000001";
     PdfTextExtractor.tOutput := "1730000000001";
     PdfTextExtractor.tUnlocked := "1730000000002";
     PdfTextExtractor.tPassword := "1730000000002";
     PdfTextExtractor.refusedInput := None;
     PdfTextExtractor.refusedPassword := None;
     PdfTextExtractor.received := EmptyString;
     PdfTextExtractor.qpdf :=
       {| PdfTextExtractor.exitOk := true;
          PdfTextExtractor.stderr := EmptyString;
          PdfTextExtractor.written := Some "%PDF-1.7" |};
     PdfTextExtractor.pdftotext :=
       {| PdfTextExtractor.exitOk := true;
          PdfTextExtractor.stderr := EmptyString;
          PdfTextExtractor.written := Some twoLines |} |}.

(** A document store that refuses every update. *)
Definition rejectAll (command : DocumentTracker.UpdateCommand) (st : unit)
  : (error + unit) * unit :=
  (inl (Error "ProvisionedThroughputExceededException" "Rate exceeded"), st).

(** [decodeURIComponent] on a key that has no escape *)
Definition unescaped (s : string) : error + string := inr s.

Definition uploadMetadata : gmap string string :=
  <["auth0-user-id" := "auth0|user-1"]>
    (<["document-id" := "doc-1"]>
       (<["user-email" := "user@example.com"]> (<["has-password" := "true"]> ∅))).

(** The upload of a protected statement whose password is stored. *)
Definition upload : PdfProcessor.Job :=
  {| PdfProcessor.s3Event :=
       inr (Some {| PdfProcessor.bucketName := "finance-bot-uploads";
                    PdfProcessor.objectKey := "pdfs/doc-1.pdf";
                    PdfProcessor.objectSize := VNum (dec 20480 0) |});
     PdfProcessor.objectMetadata := inr uploadMetadata;
     PdfProcessor.passwordItem := fun _ _ => inr (Some (VStr "secret"));
     PdfProcessor.extraction := readable;
     PdfProcessor.processingStartTime := 1730000000000;
     PdfProcessor.processingEndTime := 1730000001500 |}.

(** An object put outside [pdfs/]. *)
Definition thumbnail : PdfProcessor.Job :=
  {| PdfProcessor.s3Event :=
       inr (Some {| PdfProcessor.bucketName := "finance-bot-uploads";
                    PdfProcessor.objectKey := "thumbnails/doc-1.png";
                    PdfProcessor.objectSize := VNum (dec 512 0) |});
     PdfProcessor.objectMetadata := inr ∅;
     PdfProcessor.passwordItem := fun _ _ => inr None;
     PdfProcessor.extraction := readable;
     PdfProcessor.processingStartTime := 1730000000000;
     PdfProcessor.processingEndTime := 1730000001500 |}.

(** The same upload as [upload], put without the metadata of its owner. *)
Definition unowned : PdfProcessor.Job :=
  {| PdfProcessor.s3Event := PdfProcessor.s3Event upload;
     PdfProcessor.objectMetadata := inr (delete "auth0-user-id" uploadMetadata);
     PdfProcessor.passwordItem := PdfProcessor.passwordItem upload;
     PdfProcessor.extraction := readable;
     PdfProcessor.processingStartTime := 1730000000000;
     PdfProcessor.processingEndTime := 1730000001500 |}.

(** The worker before the first record, on the reference table. *)
Definition freshOnTable
  : @PdfProcessor.WorkerState unit (gmap PdfProcessor.TxKey TransactionParser.Transaction) :=
  ((∅, freshTracker), (∅, [])).

(** [processRecord] with the stand-ins of [parsed], the store that accepts
    every update and the reference table. *)
Definition processOnTable (job : PdfProcessor.Job) :=
  PdfProcessor.processRecord (Some "document-uploads") acceptAll PdfProcessor.tableSend
    unescaped (fun hashInput => hashInput) (fun _ => "n") "2025-01-20T10:00:00.000Z"
    (fun _ => "2025-01-20T10:00:00.000Z") job.

(** The record of [upload] handled by the worker before any other. *)
Definition uploadRun := processOnTable upload freshOnTable.

(** The upload of [readable] with a password that was stored as the number
    1234. *)
Definition storedAsNumber : PdfTextExtractor.Env :=
  {| PdfTextExtractor.download := inr "%PDF-1.7 (encrypted)";
     PdfTextExtractor.tInput := "1730000000001";
     PdfTextExtractor.tOutput := "1730000000001";
     PdfTextExtractor.tUnlocked := "1730000000002";
     PdfTextExtractor.tPassword := "1730000000002";
     PdfTextExtractor.refusedInput := None;
     PdfTextExtractor.refusedPassword := None;
     PdfTextExtractor.received := " Received type number (1234)";
     PdfTextExtractor.qpdf := PdfTextExtractor.qpdf readable;
     PdfTextExtractor.pdftotext := PdfTextExtractor.pdftotext readable |}.

End Scenario.

(* ===================================================================== *)
(** * Properties *)
(* ===================================================================== *)

Import DocumentStatus.

(** ** Document status *)

Lemma arrayIncludes_In (xs : list string) (x : string) :
  arrayIncludes xs x = true <-> In x xs.
Proof.
  unfold arrayIncludes. rewrite existsb_exists. split.
  - intros (y & Hy & Heq). apply String.eqb_eq in Heq. now subst.
  - intros Hx. exists x. split; [assumption | apply String.eqb_refl].
Qed.

(** C8, as the code has it: [canRetry] holds exactly of FAILED,
    PASSWORD_ERROR and RETRY_PENDING; COMPLETED is not retryable. *)
Theorem canRetry_retryable_statuses :
  (forall status : string,
      canRetry status = true <->
      status = FAILED \/ status = PASSWORD_ERROR \/ status = RETRY_PENDING)
  /\ canRetry COMPLETED = false.
Proof.
  split; [| reflexivity].
  intros status. unfold canRetry. rewrite arrayIncludes_In. simpl.
  intuition congruence.
Qed.

(** C8 as stated fails: RETRY_PENDING is neither FAILED nor PASSWORD_ERROR
    and can be retried. *)
Lemma canRetry_not_only_failures :
  ~ (forall status : string,
        canRetry status = true <-> status = FAILED \/ status = PASSWORD_ERROR).
Proof.
  intros H. destruct (proj1 (H RETRY_PENDING) eq_refl) as [E | E]; discriminate E.
Qed.

(** ** Amount normalisation *)

Lemma Parser_parseAmount_never_NaN (v : value) : isNaN (Parser.parseAmount v) = false.
Proof.
  unfold Parser.parseAmount.
  destruct (truthy v); simpl; [| reflexivity].
  destruct v; try reflexivity.
  unfold Parser.parseAmountTry. cbv zeta.
  match goal with |- context [parseFloat ?c] => generalize (parseFloat c) end.
  intros amount. destruct (isNaN amount) eqn:E; [reflexivity | exact E].
Qed.

(** C1, as the code has it: the worker's [parseAmount] reads the Colombian
    format only, dots grouping thousands and the comma as decimal point, so
    "123.456,78" gives 123456.78 and "1,234.56" gives 1.23456; on every
    string its [try] block ends without an exception.  The table parser's
    [parseAmount] is the one that tells the two styles apart: it gives
    123456.78 and 1234.56, 0 for "abc", and never [NaN]. *)
Theorem parseAmount_normalization :
  TransactionParser.parseAmount (VStr "123.456,78") = dec 12345678 (-2)
  /\ TransactionParser.parseAmount (VStr "1,234.56") = dec 123456 (-5)
  /\ (forall s : string, exists n : number,
         TransactionParser.parseAmountTry (VStr s) = inr n)
  /\ Parser.parseAmount (VStr "123.456,78") = dec 12345678 (-2)
  /\ Parser.parseAmount (VStr "1,234.56") = dec 123456 (-2)
  /\ Parser.parseAmount (VStr "abc") = dec 0 0
  /\ (forall v : value, isNaN (Parser.parseAmount v) = false).
Proof.
  split; [vm_compute; reflexivity |].
  split; [vm_compute; reflexivity |].
  split; [intros s; eexists; reflexivity |].
  split; [vm_compute; reflexivity |].
  split; [vm_compute; reflexivity |].
  split; [vm_compute; reflexivity |].
  apply Parser_parseAmount_never_NaN.
Qed.

(** C1 as stated fails on the worker's [parseAmount]: "1,234.56" does not
    give 1234.56. *)
Lemma parseAmount_us_format_misread :
  TransactionParser.parseAmount (VStr "1,234.56") <> dec 123456 (-2).
Proof. vm_compute. discriminate. Qed.

(** Text with no number in it comes back from the worker's [parseAmount] as
    [NaN]: [parseFloat] does not throw, so the [catch] that returns 0 is not
    reached. *)
Lemma parseAmount_text_is_NaN :
  TransactionParser.parseAmount (VStr "abc") = NaN
  /\ TransactionParser.parseAmount (VStr ",") = NaN
  /\ TransactionParser.parseAmount VUndefined = dec 0 0.
Proof.
  split; [vm_compute; reflexivity |].
  split; vm_compute; reflexivity.
Qed.

(** ** The end-to-end scenario *)

Import TransactionParser.

(** C5, as the code has it: a line is a transaction only if it carries a
    date.  With the date in front, the scenario gives exactly one
    transaction, of amount 50000.00, type DEBIT, merchant "SUPERMERCADO XYZ"
    and category "SUPERMERCADOS", dated 2025-01-15. *)
Theorem scenario_with_date_one_transaction :
  forall (sha256_hex : string -> string) (Number_toString : number -> string)
         (now : nat -> string) (metadata : Metadata),
  exists t : Transaction,
    parseTransactions sha256_hex Number_toString now Scenario.dated metadata = [t]
    /\ amount t = dec 5000000 (-2)
    /\ type t = DEBIT
    /\ merchant t = "SUPERMERCADO XYZ"
    /\ category t = "SUPERMERCADOS"
    /\ date t = Some "2025-01-15"
    /\ authNumber t = Some "123456".
Proof.
  intros sha256_hex Number_toString now metadata.
  eexists. split; [vm_compute; reflexivity |].
  split; [vm_compute; reflexivity |].
  split; [reflexivity |]. split; [reflexivity |]. split; [reflexivity |].
  split; reflexivity.
Qed.

(** C5 as stated fails: the line of the scenario has no date, is skipped,
    and nothing is returned. *)
Lemma scenario_without_date_no_transaction :
  (forall (sha256_hex : string -> string) (Number_toString : number -> string)
          (now : nat -> string) (metadata : Metadata),
      parseTransactions sha256_hex Number_toString now Scenario.undated metadata = [])
  /\ ~ exists (sha256_hex : string -> string) (Number_toString : number -> string)
              (now : nat -> string) (metadata : Metadata) (t : Transaction),
         parseTransactions sha256_hex Number_toString now Scenario.undated metadata = [t].
Proof.
  split.
  - intros sha256_hex Number_toString now metadata. vm_compute. reflexivity.
  - intros (sha256_hex & Number_toString & now & metadata & t & H).
    vm_compute in H. discriminate H.
Qed.

(** ** Characters kept by the string operations *)

Section AllChars.

Variable p : ascii -> bool.

Lemma allChars_app (a b : string) :
  allChars p (a +:+ b) = allChars p a && allChars p b.
Proof.
  induction a as [| c a IH]; simpl; [reflexivity |].
  rewrite IH. apply andb_assoc.
Qed.

Lemma allChars_rev_app (a b : string) :
  allChars p a = true -> allChars p b = true ->
  allChars p (String.rev_app a b) = true.
Proof.
  revert b. induction a as [| c a IH]; simpl; intros b Ha Hb; [assumption |].
  apply andb_prop in Ha as [Hc Ha]. apply IH; [assumption |].
  simpl. now rewrite Hc.
Qed.

Lemma allChars_rev (s : string) :
  allChars p s = true -> allChars p (String.rev s) = true.
Proof. intros H. unfold String.rev. now apply allChars_rev_app. Qed.

Lemma allChars_dropS (n : nat) (s : string) :
  allChars p s = true -> allChars p (dropS n s) = true.
Proof.
  revert s. induction n as [| n IH]; intros [| c s]; simpl; auto.
  intros H. apply andb_prop in H as [_ H]. now apply IH.
Qed.

(** [trimStart] and its mirror return a suffix of their argument. *)
Lemma allChars_trimStart_le (n : nat) :
  forall s : string, String.length s <= n ->
    allChars p s = true ->
    allChars p (trimStart s) = true /\ allChars p (trimStartRev s) = true.
Proof.
  induction n as [| n IH]; intros s Hlen Hs.
  - destruct s; [split; reflexivity | simpl in Hlen; lia].
  - destruct s as [| a [| b [| c s3]]]; simpl in *.
    + split; reflexivity.
    + destruct (ws1 a); split; trivial.
    + apply andb_prop in Hs as [Ha Hs]. pose proof Hs as Hs1.
      apply andb_prop in Hs as [Hb _].
      assert (H1 : allChars p (String b "") = true) by (simpl; now rewrite Hb).
      destruct (IH (String b "") ltac:(simpl; lia) H1) as [I1 I2].
      simpl in I1, I2.
      split.
      * destruct (ws1 a); [exact I1 |].
        destruct (ws2 a b); [reflexivity |]. simpl. now rewrite Ha, Hb.
      * destruct (ws1 a); [exact I2 |].
        destruct (ws2 b a); [reflexivity |]. simpl. now rewrite Ha, Hb.
    + apply andb_prop in Hs as [Ha Hs1]. pose proof Hs1 as Hs1'.
      apply andb_prop in Hs1 as [Hb Hs2]. pose proof Hs2 as Hs2'.
      apply andb_prop in Hs2 as [Hc Hs3].
      destruct (IH (String b (String c s3)) ltac:(simpl; lia) Hs1') as [I1 I1'].
      destruct (IH (String c s3) ltac:(simpl; lia) Hs2') as [I2 I2'].
      destruct (IH s3 ltac:(lia) Hs3) as [I3 I3'].
      assert (Hall : allChars p (String a (String b (String c s3))) = true)
        by (simpl; now rewrite Ha, Hb, Hc, Hs3).
      split.
      * destruct (ws1 a); [exact I1 |].
        destruct (ws2 a b); [exact I2 |].
        destruct (ws3 a b c); [exact I3 | exact Hall].
      * destruct (ws1 a); [exact I1' |].
        destruct (ws2 b a); [exact I2' |].
        destruct (ws3 c b a); [exact I3' | exact Hall].
Qed.

Lemma allChars_trimStart (s : string) :
  allChars p s = true -> allChars p (trimStart s) = true.
Proof. intros H. now apply (allChars_trimStart_le (String.length s)). Qed.

Lemma allChars_trim (s : string) :
  allChars p s = true -> allChars p (trim s) = true.
Proof.
  intros H. unfold trim, trimEnd.
  apply allChars_rev.
  match goal with |- allChars p (trimStartRev ?r) = true =>
    apply (allChars_trimStart_le (String.length r)); [lia |] end.
  now apply allChars_rev, allChars_trimStart.
Qed.

Lemma allChars_replace (pat rep s : string) :
  allChars p rep = true -> allChars p s = true ->
  allChars p (replace pat rep s) = true.
Proof.
  intros Hrep. induction s as [| c s IH]; intros Hs.
  - cbn [replace]. destruct (String.prefix pat EmptyString); [| reflexivity].
    rewrite allChars_app, Hrep. simpl. now apply allChars_dropS.
  - cbn [replace]. destruct (String.prefix pat (String c s)).
    + rewrite allChars_app, Hrep. simpl. now apply allChars_dropS.
    + simpl in *. apply andb_prop in Hs as [Hc Hs]. rewrite Hc. now apply IH.
Qed.

Lemma allChars_removeAll (r : ascii -> bool) (s : string) :
  allChars p s = true -> allChars p (removeAll r s) = true.
Proof.
  induction s as [| c s IH]; simpl; [reflexivity |].
  intros H. apply andb_prop in H as [Hc Hs].
  destruct (r c); simpl; [| rewrite Hc]; now apply IH.
Qed.

Lemma allChars_takeWhile (s : string) : allChars p (takeWhile p s) = true.
Proof.
  induction s as [| c s IH]; simpl; [reflexivity |].
  destruct (p c) eqn:E; simpl; [now rewrite E | reflexivity].
Qed.

End AllChars.

Lemma allChars_impl (p q : ascii -> bool) (s : string) :
  (forall c, p c = true -> q c = true) ->
  allChars p s = true -> allChars q s = true.
Proof.
  intros Hpq. induction s as [| c s IH]; simpl; [reflexivity |].
  intros H. apply andb_prop in H as [Hc Hs]. now rewrite (Hpq c Hc), IH.
Qed.

(** ** Text that [trim] leaves as it is *)

Lemma digit_code (a : ascii) :
  isDigit a = true -> (48 <= code a)%N /\ (code a <= 57)%N.
Proof.
  unfold isDigit. intros H. apply andb_prop in H as (H1 & H2).
  apply N.leb_le in H1, H2. now split.
Qed.

Lemma low_not_space (a : ascii) :
  (code a < 128)%N ->
  (forall b, ws2 a b = false /\ ws2 b a = false)
  /\ (forall b c, ws3 a b c = false /\ ws3 c b a = false).
Proof.
  intros Ha. split.
  - intros b. unfold ws2.
    replace (code a =? 194)%N with false by (symmetry; apply N.eqb_neq; lia).
    replace (code a =? 160)%N with false by (symmetry; apply N.eqb_neq; lia).
    now rewrite andb_false_r.
  - intros b c. unfold ws3.
    replace (code a =? 225)%N with false by (symmetry; apply N.eqb_neq; lia).
    replace (code a =? 226)%N with false by (symmetry; apply N.eqb_neq; lia).
    replace (code a =? 227)%N with false by (symmetry; apply N.eqb_neq; lia).
    replace (code a =? 239)%N with false by (symmetry; apply N.eqb_neq; lia).
    replace (code a =? 128)%N with false by (symmetry; apply N.eqb_neq; lia).
    replace (code a =? 159)%N with false by (symmetry; apply N.eqb_neq; lia).
    replace (code a =? 191)%N with false by (symmetry; apply N.eqb_neq; lia).
    replace (code a =? 168)%N with false by (symmetry; apply N.eqb_neq; lia).
    replace (code a =? 169)%N with false by (symmetry; apply N.eqb_neq; lia).
    replace (code a =? 175)%N with false by (symmetry; apply N.eqb_neq; lia).
    replace (128 <=? code a)%N with false by (symmetry; apply N.leb_gt; lia).
    cbn. rewrite !andb_false_r. now split.
Qed.

Lemma trimStart_low (a : ascii) (rest : string) :
  (code a < 128)%N -> ws1 a = false -> trimStart (String a rest) = String a rest.
Proof.
  intros Ha Hw. destruct (low_not_space a Ha) as (H2 & H3).
  destruct rest as [| b [| c rest]]; cbn [trimStart]; rewrite Hw; try reflexivity.
  - now rewrite (proj1 (H2 b)).
  - now rewrite (proj1 (H2 b)), (proj1 (H3 b c)).
Qed.

Lemma trimStartRev_low (a : ascii) (rest : string) :
  (code a < 128)%N -> ws1 a = false -> trimStartRev (String a rest) = String a rest.
Proof.
  intros Ha Hw. destruct (low_not_space a Ha) as (H2 & H3).
  destruct rest as [| b [| c rest]]; cbn [trimStartRev]; rewrite Hw; try reflexivity.
  - now rewrite (proj2 (H2 b)).
  - now rewrite (proj2 (H2 b)), (proj2 (H3 b c)).
Qed.

Lemma rev_app_rev_app (s : string) :
  forall a b : string,
    String.rev_app (String.rev_app s a) b = String.rev_app a (s +:+ b).
Proof.
  induction s as [| c s IH]; intros a b; [reflexivity |].
  cbn [String.rev_app]. rewrite IH. reflexivity.
Qed.

Lemma append_empty_r (s : string) : s +:+ EmptyString = s.
Proof.
  induction s as [| c s IH]; [reflexivity |].
  change (String c s +:+ EmptyString) with (String c (s +:+ EmptyString)).
  now rewrite IH.
Qed.

Lemma rev_involutive (s : string) : String.rev (String.rev s) = s.
Proof.
  unfold String.rev. rewrite rev_app_rev_app. cbn [String.rev_app]. apply append_empty_r.
Qed.

(** A text of ASCII characters none of which is white space is its own
    [trim]. *)
Lemma trim_low (s : string) :
  allChars (fun c => (code c <? 128)%N && negb (ws1 c)) s = true -> trim s = s.
Proof.
  intros H. unfold trim, trimEnd.
  assert (Hstart : trimStart s = s).
  { destruct s as [| a s]; [reflexivity |].
    cbn [allChars] in H. apply andb_prop in H as (Ha & _).
    apply andb_prop in Ha as (Ha & Hw). apply N.ltb_lt in Ha.
    apply negb_true_iff in Hw. now apply trimStart_low. }
  rewrite Hstart.
  pose proof (allChars_rev _ s H) as Hrev.
  destruct (String.rev s) as [| z r] eqn:Hr.
  - rewrite <- (rev_involutive s), Hr. reflexivity.
  - cbn [allChars] in Hrev. apply andb_prop in Hrev as (Hz & _).
    apply andb_prop in Hz as (Hz & Hw). apply N.ltb_lt in Hz.
    apply negb_true_iff in Hw. rewrite (trimStartRev_low z r Hz Hw).
    rewrite <- Hr. apply rev_involutive.
Qed.

(** ** The sign of what [parseFloat] reads *)

Lemma digitsValue_nonneg (ds : string) :
  forall acc : Z, allChars isDigit ds = true -> (0 <= acc)%Z ->
    (0 <= digitsValue acc ds)%Z.
Proof.
  induction ds as [| c ds IH]; simpl; intros acc Hds Hacc; [assumption |].
  apply andb_prop in Hds as [Hc Hds]. apply IH; [assumption |].
  unfold isDigit in Hc. apply andb_prop in Hc as [Hlo _].
  apply N.leb_le in Hlo. unfold digitVal. lia.
Qed.

Lemma isNegative_Fin_nonneg (q : Q) : (0 <= q)%Q -> isNegative (Fin q) = false.
Proof.
  intros Hq. simpl. destruct (Qle_bool q 0) eqn:E; [| reflexivity].
  apply Qle_bool_iff in E.
  assert (Heq : (q == 0)%Q) by (apply Qle_antisym; assumption).
  apply Qeq_bool_iff in Heq. now rewrite Heq.
Qed.

(** A text with no minus sign in it is never read as a negative number. *)
Lemma parseFloat_not_negative (s : string) :
  allChars notMinus s = true -> isNegative (parseFloat s) = false.
Proof.
  intros Hs. apply allChars_trimStart in Hs.
  unfold parseFloat. set (t := trimStart s) in *. clearbody t.
  assert (Hsign :
    (match t with
     | String d r =>
         if (code d =? 43)%N then (false, r)
         else if (code d =? 45)%N then (true, r) else (false, t)
     | EmptyString => (false, t)
     end) = (false, snd (match t with
     | String d r =>
         if (code d =? 43)%N then (false, r)
         else if (code d =? 45)%N then (true, r) else (false, t)
     | EmptyString => (false, t)
     end))).
  { destruct t as [| d r]; [reflexivity |].
    simpl in Hs. apply andb_prop in Hs as [Hd _]. unfold notMinus in Hd.
    destruct (code d =? 43)%N; [reflexivity |].
    destruct (code d =? 45)%N; [discriminate Hd | reflexivity]. }
  rewrite Hsign. set (u := snd _). clearbody u. cbv beta iota zeta.
  destruct (String.prefix "Infinity" u); [reflexivity |].
  set (ip := takeWhile isDigit u).
  set (r1 := dropWhile isDigit u).
  assert (Hfp : exists fp r2,
    (match r1 with
     | String d r =>
         if (code d =? 46)%N then (takeWhile isDigit r, dropWhile isDigit r)
         else (EmptyString, r1)
     | EmptyString => (EmptyString, r1)
     end) = (fp, r2) /\ allChars isDigit fp = true).
  { destruct r1 as [| d r]; [now exists EmptyString, EmptyString |].
    destruct (code d =? 46)%N.
    - eexists _, _. split; [reflexivity | apply allChars_takeWhile].
    - now eexists _, _. }
  destruct Hfp as (fp & r2 & -> & Hfpd).
  destruct (isEmpty ip && isEmpty fp); [reflexivity |].
  apply isNegative_Fin_nonneg. rewrite Qred_correct.
  apply Qmult_le_0_compat.
  - change 0%Q with (inject_Z 0). rewrite <- Zle_Qle.
    apply digitsValue_nonneg; [| lia].
    rewrite allChars_app, Hfpd. unfold ip. now rewrite allChars_takeWhile.
  - apply Qpower_0_le. discriminate.
Qed.

Lemma isAmountChar_notMinus (c : ascii) : isAmountChar c = true -> notMinus c = true.
Proof.
  unfold isAmountChar, notMinus, isDigit. intros H.
  destruct (code c =? 45)%N eqn:E; [| reflexivity].
  apply N.eqb_eq in E. rewrite E in H. discriminate H.
Qed.

Lemma matchAllAmounts_chars (s : string) :
  Forall (fun a => allChars isAmountChar a = true) (matchAllAmounts s).
Proof.
  induction s as [| c s IH]; simpl; [constructor |].
  destruct (code c =? 36)%N; [| assumption].
  destruct (isEmpty _); [assumption |].
  constructor; [apply allChars_takeWhile | assumption].
Qed.

(** ** What holds of every transaction the scanner returns *)

Section ScanInvariant.

Variable sha256_hex : string -> string.
Variable Number_toString : number -> string.
Variable now : nat -> string.
Variable metadata : Metadata.
Variable P : Transaction -> Prop.

Hypothesis P_build : forall (i : nat) (line : string),
  P (buildTransaction sha256_hex Number_toString now metadata i line
       (matchAllAmounts line)).

Lemma scanLine_Forall (i : nat) (st : bool * list Transaction) (rawText : string) :
  Forall P (snd st) ->
  Forall P (snd (scanLine sha256_hex Number_toString now metadata i st rawText)).
Proof.
  destruct st as [inSection txs]. unfold scanLine. cbv zeta. simpl. intros H.
  destruct (isSectionStart _); simpl; [assumption |].
  destruct (inSection && _); simpl; [| assumption].
  destruct (_ && _); simpl; [| assumption].
  apply Forall_app. split; [assumption |]. constructor; [apply P_build | constructor].
Qed.

Lemma scanLines_Forall (lines : list string) :
  forall (i : nat) (st : bool * list Transaction),
    Forall P (snd st) ->
    Forall P (snd (scanLines sha256_hex Number_toString now metadata i st lines)).
Proof.
  induction lines as [| l rest IH]; simpl; intros i st H; [assumption |].
  apply IH. now apply scanLine_Forall.
Qed.

Lemma parseTransactions_Forall (text : string) :
  Forall P (parseTransactions sha256_hex Number_toString now text metadata).
Proof. unfold parseTransactions. apply scanLines_Forall. constructor. Qed.

End ScanInvariant.

(** ** Sign and type *)

Lemma amountStr_chars (amounts : list string) :
  Forall (fun a => allChars isAmountChar a = true) amounts ->
  allChars isAmountChar
    (match map trim amounts with
     | a :: _ => if isEmpty a then "0" else a
     | [] => "0"
     end) = true.
Proof.
  intros H. destruct H as [| a rest Ha _]; simpl; [reflexivity |].
  destruct (isEmpty (trim a)); [reflexivity |]. now apply allChars_trim.
Qed.

Lemma buildTransaction_amount_not_negative
    (sha256_hex : string -> string) (Number_toString : number -> string)
    (now : nat -> string) (metadata : Metadata) (i : nat) (line : string) :
  isNegative (amount (buildTransaction sha256_hex Number_toString now metadata i line
                        (matchAllAmounts line))) = false.
Proof.
  unfold buildTransaction. cbv zeta. simpl amount.
  unfold parseAmount, parseAmountTry.
  apply parseFloat_not_negative.
  apply allChars_impl with (p := isAmountChar); [apply isAmountChar_notMinus |].
  apply allChars_replace; [reflexivity |].
  apply allChars_removeAll, amountStr_chars, matchAllAmounts_chars.
Qed.

Lemma buildTransaction_type
    (sha256_hex : string -> string) (Number_toString : number -> string)
    (now : nat -> string) (metadata : Metadata) (i : nat) (line : string)
    (amounts : list string) :
  let t := buildTransaction sha256_hex Number_toString now metadata i line amounts in
  type t = if isCredit (merchant t) then CREDIT else DEBIT.
Proof.
  unfold buildTransaction. cbv zeta. simpl type. simpl merchant.
  match goal with |- context [isEmpty ?m] => generalize m end.
  intros m. destruct m as [| c m]; reflexivity.
Qed.

(** A token of [matchAllAmounts] is a run of digits, dots and commas that
    is not empty, so [trim] leaves it as it is. *)
Lemma matchAllAmounts_nonempty (s : string) :
  Forall (fun a => isEmpty a = false) (matchAllAmounts s).
Proof.
  induction s as [| c s IH]; simpl; [constructor |].
  destruct (code c =? 36)%N; [| assumption].
  destruct (isEmpty _) eqn:E; [assumption |].
  constructor; assumption.
Qed.

Lemma trim_amount (a : string) : allChars isAmountChar a = true -> trim a = a.
Proof.
  intros H. apply trim_low. revert H. apply allChars_impl.
  intros c Hc. unfold isAmountChar in Hc.
  assert (Hcode : (44 <= code c)%N /\ (code c <= 57)%N).
  { apply orb_prop in Hc as [Hc | Hc]; [apply orb_prop in Hc as [Hc | Hc] |].
    - apply digit_code in Hc. lia.
    - apply N.eqb_eq in Hc. lia.
    - apply N.eqb_eq in Hc. lia. }
  apply andb_true_intro. split; [apply N.ltb_lt; lia |].
  apply negb_true_iff. unfold ws1.
  replace (code c <=? 13)%N with false by (symmetry; apply N.leb_gt; lia).
  replace (code c =? 32)%N with false by (symmetry; apply N.eqb_neq; lia).
  now rewrite andb_false_r.
Qed.

(** What holds of every transaction built from a line that has an amount
    holds of every transaction the scanner returns: it builds none from
    another line. *)
Section ScanTaken.

Variable sha256_hex : string -> string.
Variable Number_toString : number -> string.
Variable now : nat -> string.
Variable metadata : Metadata.
Variable P : Transaction -> Prop.

Hypothesis P_taken : forall (i : nat) (line : string),
  matchAllAmounts line <> [] ->
  P (buildTransaction sha256_hex Number_toString now metadata i line
       (matchAllAmounts line)).

Lemma scanLine_Forall_taken (i : nat) (st : bool * list Transaction) (rawText : string) :
  Forall P (snd st) ->
  Forall P (snd (scanLine sha256_hex Number_toString now metadata i st rawText)).
Proof.
  destruct st as [inSection txs]. unfold scanLine. cbv zeta. simpl. intros H.
  destruct (isSectionStart _); simpl; [assumption |].
  destruct (inSection && _); simpl; [| assumption].
  destruct (matchAllAmounts (trim rawText)) as [| a amounts] eqn:Hamounts;
    [rewrite andb_false_r; assumption |].
  destruct (_ && _); simpl; [| assumption].
  apply Forall_app. split; [assumption |].
  constructor; [| constructor]. rewrite <- Hamounts. apply P_taken.
  rewrite Hamounts. discriminate.
Qed.

Lemma scanLines_Forall_taken (lines : list string) :
  forall (i : nat) (st : bool * list Transaction),
    Forall P (snd st) ->
    Forall P (snd (scanLines sha256_hex Number_toString now metadata i st lines)).
Proof.
  induction lines as [| l rest IH]; simpl; intros i st H; [assumption |].
  apply IH. now apply scanLine_Forall_taken.
Qed.

Lemma parseTransactions_Forall_taken (text : string) :
  Forall P (parseTransactions sha256_hex Number_toString now text metadata).
Proof. unfold parseTransactions. apply scanLines_Forall_taken. constructor. Qed.

End ScanTaken.

(** C6, what the code does: the scanner never signs an amount.  The
    amount of every transaction it returns is what [parseAmount] reads from
    the first token that follows a dollar sign in the line, a run of digits,
    dots and commas: a magnitude, never negative, whatever the type.  The
    direction is in [type] alone: CREDIT when the lower-cased merchant text
    contains "pago", "abono" or "reversion", DEBIT otherwise.  So a DEBIT
    never carries the negative amount that the documents of the repository
    show for it. *)
Theorem amount_unsigned_type_by_keywords :
  forall (sha256_hex : string -> string) (Number_toString : number -> string)
         (now : nat -> string) (text : string) (metadata : Metadata),
    Forall (fun t => (exists token rest : _,
                         matchAllAmounts (rawLine t) = token :: rest
                         /\ amountStr t = token
                         /\ amount t = parseAmount (VStr token))
                     /\ isNegative (amount t) = false
                     /\ type t = if isCredit (merchant t) then CREDIT else DEBIT)
           (parseTransactions sha256_hex Number_toString now text metadata).
Proof.
  intros. apply parseTransactions_Forall_taken. intros i line Htaken.
  split; [| split].
  - pose proof (matchAllAmounts_chars line) as Hchars.
    pose proof (matchAllAmounts_nonempty line) as Hnonempty.
    destruct (matchAllAmounts line) as [| token rest] eqn:Hamounts; [now elim Htaken |].
    inversion Hchars as [| ? ? Hc _]; subst.
    inversion Hnonempty as [| ? ? Hn _]; subst.
    exists token, rest. unfold buildTransaction. cbv zeta.
    cbn [rawLine amountStr amount map]. rewrite (trim_amount token Hc), Hn.
    rewrite Hamounts. auto.
  - apply buildTransaction_amount_not_negative.
  - apply buildTransaction_type.
Qed.

(** The failing input of C6: the dated line of the scenario is a DEBIT, and
    its amount is 50000, read from the token "50.000,00": positive, not
    -50000. *)
Lemma scenario_debit_amount_is_positive :
  exists t : Transaction,
    parseTransactions (fun hashInput => hashInput) (fun _ => "n")
      (fun _ => "2025-01-20T10:00:00.000Z") Scenario.dated Scenario.metadata = [t]
    /\ type t = DEBIT
    /\ amountStr t = "50.000,00"
    /\ amount t = dec 50000 0
    /\ isNegative (amount t) = false
    /\ isPositive (amount t) = true.
Proof.
  pose proof (amount_unsigned_type_by_keywords (fun hashInput => hashInput) (fun _ => "n")
                (fun _ => "2025-01-20T10:00:00.000Z") Scenario.dated Scenario.metadata)
    as H.
  destruct (parseTransactions (fun hashInput => hashInput) (fun _ => "n")
              (fun _ => "2025-01-20T10:00:00.000Z") Scenario.dated Scenario.metadata)
    as [| t [| t' rest]] eqn:Hparse;
    [vm_compute in Hparse; discriminate Hparse | | vm_compute in Hparse; discriminate Hparse].
  exists t. inversion H as [| ? ? (_ & Hneg & _) _]; subst.
  vm_compute in Hparse. injection Hparse as <-.
  split; [reflexivity |]. split; [reflexivity |]. split; [reflexivity |].
  split; [vm_compute; reflexivity |]. split; [exact Hneg | vm_compute; reflexivity].
Defined.

(** The signed reading does not hold of the code: the dated scenario line
    is a DEBIT whose amount, 50000, is not negative. *)
Lemma debit_amount_is_not_negative :
  ~ (forall (sha256_hex : string -> string) (Number_toString : number -> string)
            (now : nat -> string) (text : string) (metadata : Metadata),
        Forall (fun t => match type t with
                         | DEBIT => isNegative (amount t) = true
                         | CREDIT => isPositive (amount t) = true
                         end)
               (parseTransactions sha256_hex Number_toString now text metadata)).
Proof.
  intros H.
  specialize (H (fun s => s) (fun _ => EmptyString) (fun _ => EmptyString)
                Scenario.dated Scenario.metadata).
  vm_compute in H. inversion H as [| t rest Ht _]. discriminate Ht.
Qed.

(** X17: [determineSign] of the table parser is where a sign would come
    from: it turns the amount of everything but a payment into a negative
    number or zero.  No function of the repository calls it. *)
Lemma determineSign_debit_not_positive (amount : number) (description : string) :
  existsb (fun kw => includes (toLowerCase description) kw) Parser.creditKeywords = false ->
  isPositive (Parser.determineSign amount description) = false.
Proof.
  intros Hkw. unfold Parser.determineSign.
  destruct (isNegative amount) eqn:Hneg.
  - destruct amount as [| [|] | q]; simpl in *; try discriminate; try reflexivity.
    apply andb_prop in Hneg as [Hle Hne].
    destruct (Qle_bool 0 q) eqn:E; [| reflexivity].
    apply Qle_bool_iff in Hle, E.
    assert (Heq : (q == 0)%Q) by (apply Qle_antisym; assumption).
    apply Qeq_bool_iff in Heq. rewrite Heq in Hne. discriminate Hne.
  - rewrite Hkw. destruct amount as [| neg | q]; simpl; try reflexivity.
    destruct (Qle_bool 0 (Qred (- Qabs q))) eqn:E; [| reflexivity].
    apply Qle_bool_iff in E. rewrite Qred_correct in E.
    assert (Habs : (0 <= Qabs q)%Q) by apply Qabs_nonneg.
    assert (Heq : (Qred (- Qabs q) == 0)%Q).
    { rewrite Qred_correct. apply Qle_antisym; [| assumption].
      rewrite <- (Qopp_involutive 0). apply Qopp_le_compat. exact Habs. }
    apply Qeq_bool_iff in Heq. now rewrite Heq.
Qed.

(** ** Identity hashes *)

Lemma scanLine_clock
    (sha256_hex : string -> string) (Number_toString : number -> string)
    (now1 now2 : nat -> string) (metadata : Metadata) (i : nat)
    (st1 st2 : bool * list Transaction) (rawText : string) :
  fst st1 = fst st2 ->
  map transactionId (snd st1) = map transactionId (snd st2) ->
  let r1 := scanLine sha256_hex Number_toString now1 metadata i st1 rawText in
  let r2 := scanLine sha256_hex Number_toString now2 metadata i st2 rawText in
  fst r1 = fst r2 /\ map transactionId (snd r1) = map transactionId (snd r2).
Proof.
  destruct st1 as [b1 txs1], st2 as [b2 txs2]. simpl. intros <- Hids.
  unfold scanLine. cbv zeta.
  destruct (isSectionStart _); simpl; [now split |].
  split; [reflexivity |].
  destruct (b1 && _); simpl; [| assumption].
  destruct (_ && _); simpl; [| assumption].
  rewrite !map_app, Hids. reflexivity.
Qed.

Lemma scanLines_clock
    (sha256_hex : string -> string) (Number_toString : number -> string)
    (now1 now2 : nat -> string) (metadata : Metadata) (lines : list string) :
  forall (i : nat) (st1 st2 : bool * list Transaction),
    fst st1 = fst st2 ->
    map transactionId (snd st1) = map transactionId (snd st2) ->
    map transactionId (snd (scanLines sha256_hex Number_toString now1 metadata i st1 lines))
    = map transactionId (snd (scanLines sha256_hex Number_toString now2 metadata i st2 lines)).
Proof.
  induction lines as [| l rest IH]; simpl; intros i st1 st2 Hb Hids; [assumption |].
  destruct (scanLine_clock sha256_hex Number_toString now1 now2 metadata i st1 st2 l Hb Hids)
    as [Hb' Hids'].
  now apply IH.
Qed.

(** C3: the identity hashes do not depend on the clock.  Two runs on the same
    text and context, whatever the times read for [createdAt], return
    transactions with the same [transactionId] at every position; and each
    [transactionId] is the hash of the owner, the date, the amount, the
    merchant text as extracted (the record shows "DESCONOCIDO" when that text
    is empty), the authorization number and the source document. *)
Theorem transactionId_deterministic :
  forall (sha256_hex : string -> string) (Number_toString : number -> string)
         (now1 now2 : nat -> string) (text : string) (metadata : Metadata),
    map transactionId (parseTransactions sha256_hex Number_toString now1 text metadata)
    = map transactionId (parseTransactions sha256_hex Number_toString now2 text metadata)
    /\ Forall
         (fun t =>
            auth0UserId t = md_auth0UserId metadata
            /\ sourceDocumentId t = md_sourceDocumentId metadata
            /\ exists extracted : string,
                 merchant t = (if isEmpty extracted then "DESCONOCIDO" else extracted)
                 /\ transactionId t
                    = generateTransactionHash sha256_hex Number_toString
                        (auth0UserId t) (date t) (amount t) extracted (authNumber t)
                        (sourceDocumentId t))
         (parseTransactions sha256_hex Number_toString now1 text metadata).
Proof.
  intros. split.
  - unfold parseTransactions. now apply scanLines_clock.
  - apply parseTransactions_Forall. intros i line.
    unfold buildTransaction. cbv zeta. simpl.
    split; [reflexivity |]. split; [reflexivity |].
    eexists. split; reflexivity.
Qed.

(** ** The status tracker never throws *)

Import DocumentTracker.

Lemma updateDocumentStatus_returns {S : Type} (UPLOADS_TABLE : option string)
    (storeUpdate : UpdateCommand -> S -> (error + unit) * S) (now : string)
    (auth0UserId documentId : option string) (status : string)
    (additionalData : list (string * value)) (w : World S) :
  fst (updateDocumentStatus UPLOADS_TABLE storeUpdate now auth0UserId documentId status
         additionalData w) = inr tt.
Proof.
  unfold updateDocumentStatus.
  destruct auth0UserId as [uid |], documentId as [did |]; try reflexivity.
  destruct (isEmpty uid || isEmpty did); [reflexivity |].
  unfold tryCatch, bind, send. cbv zeta.
  destruct (storeUpdate _ (store w)) as [[e | []] st]; reflexivity.
Qed.

(** C7: [updateDocumentStatus], [markDocumentFailed], [markPasswordError] and
    [markDocumentCompleted] return normally on every input, whatever the
    store does with the update, a thrown error included, and also when the
    owner or the document id is missing. *)
Theorem tracker_never_throws :
  forall (S : Type) (UPLOADS_TABLE : option string)
         (storeUpdate : UpdateCommand -> S -> (error + unit) * S) (now : string)
         (auth0UserId documentId : option string) (status : string)
         (additionalData : list (string * value))
         (errorType errorMessage transactionsExtracted processingTimeMs : value)
         (w : World S),
    fst (updateDocumentStatus UPLOADS_TABLE storeUpdate now auth0UserId documentId status
           additionalData w) = inr tt
    /\ fst (markDocumentFailed UPLOADS_TABLE storeUpdate now auth0UserId documentId
              errorType errorMessage w) = inr tt
    /\ fst (markPasswordError UPLOADS_TABLE storeUpdate now auth0UserId documentId
              errorMessage w) = inr tt
    /\ fst (markDocumentCompleted UPLOADS_TABLE storeUpdate now auth0UserId documentId
              transactionsExtracted processingTimeMs w) = inr tt.
Proof.
  intros. repeat split; apply updateDocumentStatus_returns.
Qed.

(** X16: when the store throws, the command was sent, one line went to the
    console and the call still returns: the [catch] is what keeps the error
    in. *)
Lemma updateDocumentStatus_swallows {S : Type} (UPLOADS_TABLE : option string)
    (storeUpdate : UpdateCommand -> S -> (error + unit) * S) (now : string)
    (uid did status : string) (additionalData : list (string * value))
    (w : World S) (e : error) (st : S) :
  isEmpty uid = false -> isEmpty did = false ->
  (forall command, storeUpdate command (store w) = (inl e, st)) ->
  exists command,
    updateDocumentStatus UPLOADS_TABLE storeUpdate now (Some uid) (Some did) status
      additionalData w
    = (inr tt, {| store := st;
                  sent := (sent w ++ [command])%list;
                  console := (console w ++ ["❌ [document-tracker] Error actualizando estado:"])%list |}).
Proof.
  intros Hu Hd Hfail. unfold updateDocumentStatus. rewrite Hu, Hd. simpl.
  unfold tryCatch, bind, send. cbv zeta. rewrite Hfail. simpl.
  eexists. reflexivity.
Qed.

(** With owner and document id present, exactly one command goes to the
    store, and it is [updateCommand]. *)
Lemma updateDocumentStatus_sends {S : Type} (UPLOADS_TABLE : option string)
    (storeUpdate : UpdateCommand -> S -> (error + unit) * S) (now : string)
    (uid did status : string) (additionalData : list (string * value)) (w : World S) :
  isEmpty uid = false -> isEmpty did = false ->
  exists w' : World S,
    updateDocumentStatus UPLOADS_TABLE storeUpdate now (Some uid) (Some did) status
      additionalData w = (inr tt, w')
    /\ sent w' = (sent w ++ [updateCommand UPLOADS_TABLE now uid did status additionalData])%list.
Proof.
  intros Hu Hd. unfold updateDocumentStatus. rewrite Hu, Hd.
  change (false || false) with false. cbv iota.
  unfold tryCatch, bind, send, consoleWrite. cbv zeta.
  destruct (storeUpdate _ (store w)) as [[e | []] st]; cbv beta iota;
    eexists; split; reflexivity.
Qed.

(** ** Saving transactions *)

Import PdfProcessor.

Section AnyStore.

Context {S : Type}.
Variable storeSend : Command -> S -> (error + option Transaction) * S.

(** One turn of the loop ends without an exception, adds one to exactly one
    of the three counters, and has looked the key of its transaction up. *)
Lemma saveOne_counts (transaction : Transaction) (c : Counters) (db : Db) :
  exists (c' : Counters) (db' : Db) (trace : list Command),
    saveOne storeSend transaction c db = (inr c', db')
    /\ (c' = {| saved := Datatypes.S (saved c); duplicates := duplicates c;
                errors := errors c |}
        \/ c' = {| saved := saved c; duplicates := Datatypes.S (duplicates c);
                   errors := errors c |}
        \/ c' = {| saved := saved c; duplicates := duplicates c;
                   errors := Datatypes.S (errors c) |})
    /\ snd db' = (snd db ++ trace)%list
    /\ getKeys trace = [keyOf transaction].
Proof.
  unfold saveOne, tryCatch, bind, send, ret. cbv zeta.
  destruct (storeSend (GetCommand (keyOf transaction)) (fst db)) as [[e | [item |]] st];
    simpl.
  - destruct (String.eqb (name e) _); simpl;
      eexists _, _, [GetCommand (keyOf transaction)];
      (split; [reflexivity |]); (split; [auto |]); split; reflexivity.
  - eexists _, _, [GetCommand (keyOf transaction)]. simpl.
    split; [reflexivity |]. split; [auto |]. split; reflexivity.
  - destruct (storeSend (PutCommand transaction) st) as [[e | r] st'] eqn:Hput; simpl.
    + destruct (String.eqb (name e) _); simpl;
        eexists _, _, [GetCommand (keyOf transaction); PutCommand transaction];
        (split; [reflexivity |]); (split; [auto |]);
        (split; [now rewrite <- app_assoc | reflexivity]).
    + eexists _, _, [GetCommand (keyOf transaction); PutCommand transaction]. simpl.
      split; [reflexivity |]. split; [auto |].
      split; [now rewrite <- app_assoc | reflexivity].
Qed.

Lemma saveLoop_counts (transactions : list Transaction) :
  forall (c : Counters) (db : Db),
  exists (c' : Counters) (db' : Db) (trace : list Command),
    saveLoop storeSend transactions c db = (inr c', db')
    /\ total c' = total c + List.length transactions
    /\ snd db' = (snd db ++ trace)%list
    /\ getKeys trace = map keyOf transactions.
Proof.
  induction transactions as [| t rest IH]; intros c db.
  - exists c, db, []. simpl. unfold ret.
    split; [reflexivity |]. split; [lia |]. split; [now rewrite app_nil_r | reflexivity].
  - destruct (saveOne_counts t c db) as (c1 & db1 & tr1 & Hrun1 & Hone & Htr1 & Hk1).
    assert (Hsum1 : total c1 = Datatypes.S (total c))
      by (unfold total; destruct Hone as [-> | [-> | ->]]; simpl; lia).
    destruct (IH c1 db1) as (c2 & db2 & tr2 & Hrun2 & Hsum2 & Htr2 & Hk2).
    exists c2, db2, (tr1 ++ tr2)%list.
    split; [| split; [| split]].
    + simpl. unfold bind. now rewrite Hrun1.
    + simpl. lia.
    + rewrite Htr2, Htr1. now rewrite <- app_assoc.
    + unfold getKeys in *. rewrite flat_map_app, Hk1, Hk2. reflexivity.
Qed.

End AnyStore.

(** C10: whatever the store is and however it answers, errors included,
    [saveTransactions] returns counters that add up to the number of
    transactions given, and it has looked up the key of every one of them, in
    order: no failure on an item keeps the later items from being tried.
    Each turn of its loop adds one to exactly one counter. *)
Theorem saveTransactions_counts_every_item :
  forall (S : Type) (storeSend : Command -> S -> (error + option Transaction) * S),
    (forall (transactions : list Transaction) (db : S * list Command),
      exists (c : Counters) (db' : S * list Command) (trace : list Command),
        saveTransactions storeSend transactions db = (inr c, db')
        /\ saved c + duplicates c + errors c = List.length transactions
        /\ snd db' = (snd db ++ trace)%list
        /\ getKeys trace = map keyOf transactions)
    /\ (forall (transaction : Transaction) (c : Counters) (db : S * list Command),
         exists (c' : Counters) (db' : S * list Command),
           saveOne storeSend transaction c db = (inr c', db')
           /\ (c' = {| saved := Datatypes.S (saved c); duplicates := duplicates c;
                       errors := errors c |}
               \/ c' = {| saved := saved c; duplicates := Datatypes.S (duplicates c);
                          errors := errors c |}
               \/ c' = {| saved := saved c; duplicates := duplicates c;
                          errors := Datatypes.S (errors c) |})).
Proof.
  intros S storeSend. split.
  - intros transactions db.
    destruct (saveLoop_counts storeSend transactions
                {| saved := 0; duplicates := 0; errors := 0 |} db)
      as (c & db' & trace & Hrun & Hsum & Htr & Hk).
    exists c, db', trace. split; [exact Hrun |]. split; [exact Hsum |].
    split; assumption.
  - intros transaction c db.
    destruct (saveOne_counts storeSend transaction c db)
      as (c' & db' & trace & Hrun & Hone & _).
    exists c', db'. split; assumption.
Qed.

(** ** Saving twice into the reference table *)

Lemma saveLoop_fresh (transactions : list Transaction) :
  forall (s d e : nat) (table : Table) (trace : list Command),
    NoDup (map keyOf transactions) ->
    (forall t, In t transactions -> table !! keyOf t = None) ->
    exists (table' : Table) (trace' : list Command),
      saveLoop tableSend transactions {| saved := s; duplicates := d; errors := e |}
        (table, trace)
      = (inr {| saved := s + List.length transactions; duplicates := d; errors := e |},
         (table', trace'))
      /\ (forall t, In t transactions -> table' !! keyOf t = Some t)
      /\ (forall k, ~ In k (map keyOf transactions) -> table' !! k = table !! k).
Proof.
  induction transactions as [| t rest IH]; intros s d e table trace Hnd Hfree.
  - exists table, trace. simpl. unfold ret. rewrite Nat.add_0_r.
    split; [reflexivity |]. split; [intros t [] | reflexivity].
  - simpl in Hnd. apply NoDup_cons in Hnd as [Hnotin Hnd].
    assert (Ht : table !! keyOf t = None) by (apply Hfree; now left).
    destruct (IH (Datatypes.S s) d e (<[keyOf t := t]> table)
                ((trace ++ [GetCommand (keyOf t)]) ++ [PutCommand t])%list Hnd)
      as (table' & trace' & Hrun & Hin & Hout).
    { intros t' Ht'. rewrite lookup_insert_ne.
      - apply Hfree. now right.
      - intros Heq. apply Hnotin. rewrite Heq. apply list_elem_of_In.
        now apply in_map. }
    exists table', trace'. split; [| split].
    + simpl. unfold bind, saveOne, tryCatch, bind, send, ret. simpl.
      rewrite Ht. simpl. rewrite Ht. simpl.
      rewrite Hrun, Nat.add_succ_r. reflexivity.
    + intros t' [<- | Ht'].
      * rewrite Hout; [apply lookup_insert_eq |].
        intros Hk. apply Hnotin. now apply list_elem_of_In.
      * now apply Hin.
    + intros k Hk. rewrite Hout.
      * apply lookup_insert_ne. intros Heq. apply Hk. left. exact Heq.
      * intros Hk'. apply Hk. now right.
Qed.

Lemma saveLoop_present (transactions : list Transaction) :
  forall (s d e : nat) (table : Table) (trace : list Command),
    (forall t, In t transactions -> is_Some (table !! keyOf t)) ->
    exists trace' : list Command,
      saveLoop tableSend transactions {| saved := s; duplicates := d; errors := e |}
        (table, trace)
      = (inr {| saved := s; duplicates := d + List.length transactions; errors := e |},
         (table, trace')).
Proof.
  induction transactions as [| t rest IH]; intros s d e table trace Hall.
  - exists trace. simpl. unfold ret. now rewrite Nat.add_0_r.
  - destruct (Hall t (or_introl eq_refl)) as [item Hitem].
    destruct (IH s (Datatypes.S d) e table (trace ++ [GetCommand (keyOf t)])%list)
      as (trace' & Hrun).
    { intros t' Ht'. apply Hall. now right. }
    exists trace'. simpl. unfold bind, saveOne, tryCatch, bind, send, ret. simpl.
    rewrite Hitem. simpl. rewrite Hrun, Nat.add_succ_r. reflexivity.
Qed.

(** C4: on the reference table, empty at first, a list of N transactions
    with pairwise distinct keys is saved with [saved = N], [duplicates = 0];
    saving the same list again gives [saved = 0], [duplicates = N] and
    leaves the table as the first run left it, every transaction stored
    under its key. *)
Theorem save_twice_idempotent :
  forall transactions : list Transaction,
    NoDup (map keyOf transactions) ->
    exists (table : Table) (trace1 trace2 : list Command),
      saveTransactions tableSend transactions (∅, [])
      = (inr {| saved := List.length transactions; duplicates := 0; errors := 0 |},
         (table, trace1))
      /\ saveTransactions tableSend transactions (table, trace1)
         = (inr {| saved := 0; duplicates := List.length transactions; errors := 0 |},
            (table, trace2))
      /\ (forall t, In t transactions -> table !! keyOf t = Some t)
      /\ (forall k, ~ In k (map keyOf transactions) -> table !! k = None).
Proof.
  intros transactions Hnd.
  destruct (saveLoop_fresh transactions 0 0 0 ∅ [] Hnd) as (table & trace1 & Hrun1 & Hin & Hout).
  { intros t _. apply lookup_empty. }
  destruct (saveLoop_present transactions 0 0 0 table trace1) as (trace2 & Hrun2).
  { intros t Ht. rewrite (Hin t Ht). now eexists. }
  exists table, trace1, trace2. unfold saveTransactions.
  split; [exact Hrun1 |]. split; [exact Hrun2 |]. split; [exact Hin |].
  intros k Hk. rewrite (Hout k Hk). apply lookup_empty.
Qed.

(** The witness of C4: the two transactions parsed from [Scenario.twoLines]
    have distinct keys. *)
Lemma save_twice_parsed :
  NoDup (map keyOf Scenario.parsed)
  /\ exists (table : Table) (trace1 trace2 : list Command),
       saveTransactions tableSend Scenario.parsed (∅, [])
       = (inr {| saved := List.length Scenario.parsed; duplicates := 0; errors := 0 |},
          (table, trace1))
       /\ saveTransactions tableSend Scenario.parsed (table, trace1)
          = (inr {| saved := 0; duplicates := List.length Scenario.parsed; errors := 0 |},
             (table, trace2))
       /\ (forall t, In t Scenario.parsed -> table !! keyOf t = Some t)
       /\ (forall k, ~ In k (map keyOf Scenario.parsed) -> table !! k = None).
Proof.
  split; [| apply (save_twice_idempotent Scenario.parsed)];
    apply (@bool_decide_unpack _ (NoDup_dec (A:=option string * string) _));
    vm_compute; reflexivity.
Defined.

(** ** Decryption failures *)

Import PdfTextExtractor.

Lemma unlinkIfExists_delete (path : string) (fs : FS) :
  unlinkIfExists path fs = (inr tt, delete path fs).
Proof.
  unfold unlinkIfExists, bind, existsSync, when, unlinkSync, ret.
  destruct (fs !! path) as [data |] eqn:E.
  - rewrite bool_decide_eq_true_2 by (now exists data). now rewrite E.
  - rewrite bool_decide_eq_false_2 by (intros [x Hx]; discriminate Hx).
    f_equal. symmetry. now apply delete_id.
Qed.

Lemma truthy_VStr (s : string) : truthy (VStr s) = negb (isEmpty s).
Proof. now destruct s. Qed.

(** The file system a failed [qpdf] run leaves behind once the [catch] of
    the unlock step has cleaned up: the password file and the input are
    gone, whatever [qpdf] wrote stays. *)
Lemma unlockStep_qpdf_fails (env : Env) (pw : string) (fs : FS) :
  isEmpty pw = false ->
  refusedPassword env = None ->
  exitOk (qpdf env) = false ->
  unlockStep env (VStr pw) fs
  = (inl PDF_UNLOCK_FAILED,
     delete (inputFile env)
       (delete (passwordFile env)
          (match written (qpdf env) with
           | Some data => <[unlockedFile env := data]> (<[passwordFile env := pw]> fs)
           | None => <[passwordFile env := pw]> fs
           end))).
Proof.
  intros Hpw Hwrite Hexit. unfold unlockStep. rewrite truthy_VStr, Hpw. cbn [negb].
  unfold bind at 1. unfold writeFileSync at 1. rewrite Hwrite.
  unfold tryCatch. unfold bind at 1. unfold execAsync. rewrite Hexit. cbv zeta.
  unfold bind. rewrite !unlinkIfExists_delete. reflexivity.
Qed.

Lemma extractTextFromPDF_qpdf_fails (env : Env) (pw buffer : string) (fs : FS) :
  isEmpty pw = false ->
  download env = inr buffer ->
  refusedInput env = None -> refusedPassword env = None ->
  exitOk (qpdf env) = false ->
  extractTextFromPDF env (VStr pw) fs
  = (inl PDF_UNLOCK_FAILED,
     delete (inputFile env)
       (delete (passwordFile env)
          (match written (qpdf env) with
           | Some data =>
               <[unlockedFile env := data]>
                 (<[passwordFile env := pw]> (<[inputFile env := buffer]> fs))
           | None => <[passwordFile env := pw]> (<[inputFile env := buffer]> fs)
           end))).
Proof.
  intros Hpw Hdl Hinput Hwrite Hexit.
  unfold extractTextFromPDF, tryCatch. unfold bind at 1. unfold s3Download. rewrite Hdl.
  unfold bind at 1. unfold writeFileSync at 1. rewrite Hinput.
  unfold bind at 1. rewrite (unlockStep_qpdf_fails env pw _ Hpw Hwrite Hexit).
  reflexivity.
Qed.

(** C2, what the code does: when the two files are written and [qpdf]
    fails, whatever its diagnostic says, [extractTextFromPDF] throws the fixed
    message "PDF_UNLOCK_FAILED: No se pudo desbloquear el PDF", which names
    no password, and the worker records the document as FAILED with
    EXTRACTION_FAILED and throws the error again.  A diagnostic that names
    the password is no exception. *)
Theorem decrypt_failure_recorded_as_extraction_failed :
  forall (S : Type) (UPLOADS_TABLE : option string)
         (storeUpdate : UpdateCommand -> S -> (error + unit) * S) (now : string)
         (env : Env) (uid did pw buffer : string) (fs : FS) (w : World S),
    isEmpty uid = false -> isEmpty did = false -> isEmpty pw = false ->
    download env = inr buffer ->
    refusedInput env = None -> refusedPassword env = None ->
    exitOk (qpdf env) = false ->
    exists (fs' : FS) (w' : World S) (command : UpdateCommand),
      extractText UPLOADS_TABLE storeUpdate now env (Some uid) (Some did) (VStr pw) (fs, w)
      = (inl PDF_UNLOCK_FAILED, (fs', w'))
      /\ sent w' = (sent w ++ [command])%list
      /\ ExpressionAttributeValues command !! ":status" = Some (VStr FAILED)
      /\ ExpressionAttributeValues command !! ":errorType" = Some (VStr EXTRACTION_FAILED).
Proof.
  intros S UPLOADS_TABLE storeUpdate now env uid did pw buffer fs w Hu Hd Hpw Hdl
    Hinput Hwrite Hexit.
  unfold extractText, tryCatch, onFiles. simpl fst. simpl snd.
  rewrite (extractTextFromPDF_qpdf_fails env pw buffer fs Hpw Hdl Hinput Hwrite Hexit).
  change (includes (message PDF_UNLOCK_FAILED) "password"
          || includes (message PDF_UNLOCK_FAILED) "contraseña") with false.
  cbv iota. unfold bind, onTracker, throw. simpl fst. simpl snd.
  unfold markDocumentFailed.
  match goal with |- context [updateDocumentStatus ?t ?u ?n ?a ?b ?st ?data w] =>
    destruct (updateDocumentStatus_sends t u n uid did st data w Hu Hd) as (w' & Hrun & Hsent)
  end.
  rewrite Hrun. cbv beta iota.
  eexists _, w', _. split; [reflexivity |]. split; [exact Hsent |].
  unfold updateCommand. cbn [ExpressionAttributeValues].
  split; vm_compute; reflexivity.
Qed.

(** The failing input of C2: [qpdf] refuses the password and says so, and
    the document is still recorded as FAILED with EXTRACTION_FAILED. *)
Lemma wrong_password_recorded_as_extraction_failed :
  includes (stderr (qpdf Scenario.wrongPassword)) "password" = true
  /\ exists (fs' : FS) (w' : World unit) (command : UpdateCommand),
       extractText (Some "document-uploads") Scenario.acceptAll "2025-01-20T10:00:00.000Z"
         Scenario.wrongPassword (Some "auth0|user-1") (Some "doc-1") (VStr "secret")
         (∅, Scenario.freshTracker)
       = (inl PDF_UNLOCK_FAILED, (fs', w'))
       /\ sent w' = (sent Scenario.freshTracker ++ [command])%list
       /\ ExpressionAttributeValues command !! ":status" = Some (VStr FAILED)
       /\ ExpressionAttributeValues command !! ":errorType" = Some (VStr EXTRACTION_FAILED).
Proof.
  split; [vm_compute; reflexivity |].
  apply (decrypt_failure_recorded_as_extraction_failed unit (Some "document-uploads")
           Scenario.acceptAll "2025-01-20T10:00:00.000Z" Scenario.wrongPassword
           "auth0|user-1" "doc-1" "secret" "%PDF-1.7 (encrypted)" ∅ Scenario.freshTracker);
    reflexivity.
Defined.

(** ** Temporary files *)

Lemma unlockedFile_not_inputFile (env : Env) : unlockedFile env <> inputFile env.
Proof. unfold unlockedFile, inputFile. simpl. intros H. discriminate H. Qed.

Lemma unlockedFile_not_passwordFile (env : Env) : unlockedFile env <> passwordFile env.
Proof. unfold unlockedFile, passwordFile. simpl. intros H. discriminate H. Qed.

(** C9, where the code falls short: when the two files are written and
    [qpdf] exits with an error after writing its output, the [catch] of the
    unlock step removes the password file and the input but not the unlocked
    file, and the call throws with the unlocked file still in [/tmp]. *)
Theorem failed_unlock_leaves_unlocked_file :
  forall (env : Env) (pw buffer data : string) (fs : FS),
    isEmpty pw = false ->
    download env = inr buffer ->
    refusedInput env = None -> refusedPassword env = None ->
    exitOk (qpdf env) = false ->
    written (qpdf env) = Some data ->
    exists fs' : FS,
      extractTextFromPDF env (VStr pw) fs = (inl PDF_UNLOCK_FAILED, fs')
      /\ fs' !! unlockedFile env = Some data
      /\ fs' !! inputFile env = None
      /\ fs' !! passwordFile env = None.
Proof.
  intros env pw buffer data fs Hpw Hdl Hinput Hwrite Hexit Hwritten.
  eexists.
  split; [apply (extractTextFromPDF_qpdf_fails env pw buffer fs Hpw Hdl Hinput Hwrite Hexit) |].
  rewrite Hwritten. split; [| split].
  - rewrite lookup_delete_ne by (apply not_eq_sym, unlockedFile_not_inputFile).
    rewrite lookup_delete_ne by (apply not_eq_sym, unlockedFile_not_passwordFile).
    apply lookup_insert_eq.
  - apply lookup_delete_eq.
  - destruct (decide (inputFile env = passwordFile env)) as [E | E].
    + rewrite E. apply lookup_delete_eq.
    + rewrite lookup_delete_ne by exact E. apply lookup_delete_eq.
Qed.

(** The failing input of C9: a damaged file that [qpdf] unlocks with
    warnings, on an empty [/tmp]. *)
Lemma unlocked_file_left_behind :
  exists fs' : FS,
    extractTextFromPDF Scenario.unlockedWithWarnings (VStr "secret") ∅
    = (inl PDF_UNLOCK_FAILED, fs')
    /\ fs' !! unlockedFile Scenario.unlockedWithWarnings = Some "%PDF-1.7"
    /\ fs' !! inputFile Scenario.unlockedWithWarnings = None
    /\ fs' !! passwordFile Scenario.unlockedWithWarnings = None.
Proof.
  apply (failed_unlock_leaves_unlocked_file Scenario.unlockedWithWarnings
           "secret" "%PDF-1.7 (encrypted)" "%PDF-1.7" ∅); reflexivity.
Defined.

(** ** The exit paths that do clean up *)

Lemma tempFiles_distinct (env : Env) :
  inputFile env <> passwordFile env /\ inputFile env <> unlockedFile env
  /\ inputFile env <> outputFile env /\ passwordFile env <> unlockedFile env
  /\ passwordFile env <> outputFile env /\ unlockedFile env <> outputFile env.
Proof.
  unfold inputFile, passwordFile, unlockedFile, outputFile. simpl.
  repeat split; intros H; discriminate H.
Qed.



Lemma unlockStep_qpdf_ok (env : Env) (pw buffer : string) (fs : FS) :
  isEmpty pw = false ->
  refusedPassword env = None ->
  exitOk (qpdf env) = true ->
  fs !! inputFile env = Some buffer ->
  unlockStep env (VStr pw) fs
  = (inr (unlockedFile env),
     delete (inputFile env)
       (delete (passwordFile env)
          (match written (qpdf env) with
           | Some data => <[unlockedFile env := data]> (<[passwordFile env := pw]> fs)
           | None => <[passwordFile env := pw]> fs
           end))).
Proof.
  intros Hpw Hwrite Hexit Hin.
  destruct (tempFiles_distinct env) as (H1 & H2 & H3 & H4 & H5 & H6).
  unfold unlockStep. rewrite truthy_VStr, Hpw. cbn [negb].
  unfold bind at 1. unfold writeFileSync at 1. rewrite Hwrite.
  unfold tryCatch. unfold bind at 1. unfold execAsync. rewrite Hexit. cbv zeta.
  set (fs3 := match written (qpdf env) with
              | Some data => <[unlockedFile env := data]> (<[passwordFile env := pw]> fs)
              | None => <[passwordFile env := pw]> fs
              end).
  assert (Hp : fs3 !! passwordFile env = Some pw).
  { unfold fs3. destruct (written (qpdf env)).
    - rewrite lookup_insert_ne by congruence. apply lookup_insert_eq.
    - apply lookup_insert_eq. }
  assert (Hi : fs3 !! inputFile env = Some buffer).
  { unfold fs3. destruct (written (qpdf env)).
    - rewrite !lookup_insert_ne by congruence. exact Hin.
    - rewrite lookup_insert_ne by congruence. exact Hin. }
  clearbody fs3.
  unfold bind at 1. unfold unlinkSync at 1. rewrite Hp.
  unfold bind at 1. unfold unlinkSync at 1.
  rewrite lookup_delete_ne by congruence. rewrite Hi. reflexivity.
Qed.

(** Without a password, or with one that is falsy, nothing is unlocked. *)
Lemma unlockStep_no_password (env : Env) (password : value) (fs : FS) :
  truthy password = false -> unlockStep env password fs = (inr (inputFile env), fs).
Proof. intros H. unfold unlockStep. now rewrite H. Qed.

(** The write of the password throws when the password is no string, and
    when [/tmp] refuses it; the unlock step then throws that error and has
    touched nothing. *)
Lemma unlockStep_write_throws (env : Env) (password : value) (fs : FS) :
  truthy password = true ->
  (exists (pw : string) (e : error),
      password = VStr pw /\ refusedPassword env = Some e
      /\ unlockStep env password fs = (inl e, fs))
  \/ ((forall pw : string, password <> VStr pw)
      /\ unlockStep env password fs = (inl (ERR_INVALID_ARG_TYPE (received env)), fs))
  \/ (exists pw : string,
         password = VStr pw /\ isEmpty pw = false /\ refusedPassword env = None).
Proof.
  intros Ht. unfold unlockStep. rewrite Ht. unfold bind at 1.
  destruct password as [| | b | n | pw |]; cbn [writeFileSync].
  - discriminate Ht.
  - discriminate Ht.
  - right. left. split; [intros pw H; discriminate H | reflexivity].
  - right. left. split; [intros pw H; discriminate H | reflexivity].
  - destruct (refusedPassword env) as [e |] eqn:Hwrite.
    + left. exists pw, e. auto.
    + right. right. exists pw. rewrite truthy_VStr in Ht.
      apply negb_true_iff in Ht. auto.
  - right. left. split; [intros pw H; discriminate H | reflexivity].
Qed.

Lemma extractTextFromPDF_steps (env : Env) (password : value) (fs : FS) :
  extractTextFromPDF env password fs
  = match download env with
    | inl e => (inl e, fs)
    | inr buffer =>
        match refusedInput env with
        | Some e => (inl e, fs)
        | None =>
            match unlockStep env password (<[inputFile env := buffer]> fs) with
            | (inr fileToExtract, fs') => extractStep env fileToExtract fs'
            | (inl e, fs') => (inl e, fs')
            end
        end
    end.
Proof.
  unfold extractTextFromPDF, tryCatch, bind, s3Download, writeFileSync, throw.
  destruct (download env) as [e | buffer]; [reflexivity |].
  destruct (refusedInput env) as [e |]; [reflexivity |].
  destruct (unlockStep env password _) as [[e | f] fs']; [reflexivity |].
  destruct (extractStep env f fs') as [[e | text] fs'']; reflexivity.
Qed.


(** ** Where the password test of the worker does fire *)

Lemma includes_app_r (p s sub : string) :
  includes s sub = true -> includes (p +:+ s) sub = true.
Proof.
  intros H. induction p as [| c p IH]; [exact H |].
  change (String c p +:+ s) with (String c (p +:+ s)).
  cbn [includes]. rewrite IH. apply orb_true_r.
Qed.

Lemma extractStep_pdftotext_fails (env : Env) (fileToExtract : string) (fs : FS) :
  exitOk (pdftotext env) = false ->
  exists fs' : FS,
    extractStep env fileToExtract fs
    = (inl (Error "Error"
              ("TEXT_EXTRACTION_FAILED: "
               +:+ ("Command failed: " +:+ pdftotextCommand fileToExtract env
                    +:+ String (ascii_of_N 10) (stderr (pdftotext env))))), fs').
Proof.
  intros Hexit. unfold extractStep, tryCatch. unfold bind at 1. unfold execAsync.
  rewrite Hexit. cbv zeta. cbn [message].
  unfold bind. rewrite !unlinkIfExists_delete. unfold throw.
  eexists. reflexivity.
Qed.

(** X15: a failure of [pdftotext] keeps its diagnostic in the message.
    Whenever the call gets as far as [pdftotext], with or without a
    password, and [pdftotext] fails with a diagnostic that names the
    password, the error that [extractTextFromPDF] throws carries the
    diagnostic, the worker records the document as PASSWORD_ERROR with
    PASSWORD_INCORRECT and that message, and throws the same error again. *)
Lemma pdftotext_password_diagnostic_recorded
    {S : Type} (UPLOADS_TABLE : option string)
    (storeUpdate : UpdateCommand -> S -> (error + unit) * S) (now : string)
    (env : Env) (uid did buffer : string) (password : value) (fs : FS) (w : World S) :
  isEmpty uid = false -> isEmpty did = false ->
  download env = inr buffer ->
  refusedInput env = None ->
  (truthy password = true ->
   exists pw, password = VStr pw /\ refusedPassword env = None
              /\ exitOk (qpdf env) = true) ->
  exitOk (pdftotext env) = false ->
  includes (stderr (pdftotext env)) "password"
  || includes (stderr (pdftotext env)) "contraseña" = true ->
  exists (fs' : FS) (w' : World S) (command : UpdateCommand),
    let e :=
      Error "Error"
        ("TEXT_EXTRACTION_FAILED: "
         +:+ ("Command failed: "
              +:+ pdftotextCommand
                    (if truthy password then unlockedFile env else inputFile env) env
              +:+ String (ascii_of_N 10) (stderr (pdftotext env)))) in
    extractTextFromPDF env password fs = (inl e, fs')
    /\ extractText UPLOADS_TABLE storeUpdate now env (Some uid) (Some did) password (fs, w)
       = (inl e, (fs', w'))
    /\ sent w' = (sent w ++ [command])%list
    /\ ExpressionAttributeValues command !! ":status" = Some (VStr PASSWORD_ERROR)
    /\ ExpressionAttributeValues command !! ":errorType" = Some (VStr PASSWORD_INCORRECT)
    /\ ExpressionAttributeValues command !! ":errorMessage"
       = Some (VStr ("Error de contraseña: " +:+ message e)).
Proof.
  intros Hu Hd Hdl Hinput Hunlock Hexit Hdiag. cbv zeta.
  set (file := if truthy password then unlockedFile env else inputFile env).
  assert (Hrun : exists fs', extractTextFromPDF env password fs
                   = (inl (Error "Error"
                             ("TEXT_EXTRACTION_FAILED: "
                              +:+ ("Command failed: " +:+ pdftotextCommand file env
                                   +:+ String (ascii_of_N 10) (stderr (pdftotext env))))),
                      fs')).
  { rewrite extractTextFromPDF_steps, Hdl, Hinput. subst file.
    destruct (truthy password) eqn:Ht.
    - destruct (Hunlock eq_refl) as (pw & -> & Hwrite & Hqpdf).
      assert (Hpw : isEmpty pw = false)
        by (rewrite truthy_VStr in Ht; now apply negb_true_iff in Ht).
      rewrite (unlockStep_qpdf_ok env pw buffer _ Hpw Hwrite Hqpdf)
        by apply lookup_insert_eq.
      apply extractStep_pdftotext_fails, Hexit.
    - rewrite (unlockStep_no_password env password _ Ht).
      apply extractStep_pdftotext_fails, Hexit. }
  destruct Hrun as (fs' & Hrun).
  unfold extractText, tryCatch, onFiles. simpl fst. simpl snd.
  rewrite Hrun. cbn [message].
  match goal with |- context [includes ?m "password" || includes ?m "contraseña"] =>
    assert (Hm : includes m "password" || includes m "contraseña" = true)
  end.
  { apply orb_true_iff in Hdiag as [Hdiag | Hdiag]; apply orb_true_iff; [left | right];
      do 3 apply includes_app_r;
      apply (includes_app_r (String (ascii_of_N 10) EmptyString)), Hdiag. }
  rewrite Hm. unfold bind, onTracker, throw. simpl fst. simpl snd.
  unfold markPasswordError.
  match goal with |- context [updateDocumentStatus ?t ?u ?n ?a ?b ?st ?data w] =>
    destruct (updateDocumentStatus_sends t u n uid did st data w Hu Hd) as (w' & Hsend & Hsent)
  end.
  rewrite Hsend. cbv beta iota.
  eexists fs', w', _. split; [reflexivity |]. split; [reflexivity |].
  split; [exact Hsent |].
  unfold updateCommand. cbn [ExpressionAttributeValues].
  split; [vm_compute; reflexivity |]. split; vm_compute; reflexivity.
Qed.

(* ===================================================================== *)
(** * Further properties of the code *)
(* ===================================================================== *)

(** ** The three classes of statuses *)

(** X1: no status is both in progress and final, no status in progress can
    be retried, and COMPLETED is the only final status that cannot be
    retried. *)
Theorem status_classes :
  forall status : string,
    isProcessing status && isFinal status = false
    /\ isProcessing status && canRetry status = false
    /\ (isFinal status && negb (canRetry status) = true <-> status = COMPLETED).
Proof.
  intros status.
  assert (Hproc : isProcessing status = true ->
                  isFinal status = false /\ canRetry status = false).
  { intros H. apply arrayIncludes_In in H. simpl in H.
    destruct H as [<- | [<- | [<- | [<- | []]]]]; split; reflexivity. }
  split; [| split].
  - destruct (isProcessing status) eqn:E; [| reflexivity].
    now destruct (Hproc eq_refl) as [-> _].
  - destruct (isProcessing status) eqn:E; [| reflexivity].
    now destruct (Hproc eq_refl) as [_ ->].
  - split.
    + intros H. apply andb_prop in H as [Hf Hr].
      apply arrayIncludes_In in Hf. simpl in Hf.
      destruct Hf as [<- | [<- | [<- | []]]]; [reflexivity | discriminate Hr | discriminate Hr].
    + intros ->. reflexivity.
Qed.

(** ** Strings cut at a separator *)

Lemma code_eqb_true (c : ascii) (n : N) : (code c =? n)%N = true -> c = ascii_of_N n.
Proof.
  intros H. apply N.eqb_eq in H. unfold code in H. rewrite <- H.
  symmetry. apply ascii_N_embedding.
Qed.

Lemma split_no_sep (sep : ascii) (a : string) :
  allChars (fun c => negb (Ascii.eqb c sep)) a = true -> split sep a = [a].
Proof.
  induction a as [| c a IH]; simpl; [reflexivity |].
  intros H. apply andb_prop in H as [Hc Ha].
  apply negb_true_iff in Hc. rewrite Hc, (IH Ha). reflexivity.
Qed.

Lemma split_app_sep (sep : ascii) (a rest : string) :
  allChars (fun c => negb (Ascii.eqb c sep)) a = true ->
  split sep (a +:+ String sep rest) = a :: split sep rest.
Proof.
  induction a as [| c a IH]; simpl.
  - intros _. now rewrite Ascii.eqb_refl.
  - intros H. apply andb_prop in H as [Hc Ha].
    apply negb_true_iff in Hc. rewrite Hc, (IH Ha). reflexivity.
Qed.

Lemma isDigit_not_slash (c : ascii) : isDigit c = true -> negb (Ascii.eqb c "/") = true.
Proof.
  intros H. apply negb_true_iff. apply Ascii.eqb_neq. intros ->. discriminate H.
Qed.

(** ** Dates of the line scanner *)

(** What [datePattern] captures: two digits, a slash, two digits, a slash,
    four digits. *)
Lemma dateAt_shape (s d : string) :
  dateAt s = Some d ->
  exists d1 d2 m1 m2 y1 y2 y3 y4 : ascii,
    d = String d1 (String d2 (String "/" (String m1 (String m2 (String "/"
          (String y1 (String y2 (String y3 (String y4 EmptyString)))))))))
    /\ isDigit d1 = true /\ isDigit d2 = true /\ isDigit m1 = true /\ isDigit m2 = true
    /\ isDigit y1 = true /\ isDigit y2 = true /\ isDigit y3 = true /\ isDigit y4 = true.
Proof.
  unfold dateAt.
  destruct s as [| d1 [| d2 [| p [| m1 [| m2 [| q [| y1 [| y2 [| y3 [| y4 s]]]]]]]]]];
    try discriminate.
  destruct (isDigit d1) eqn:E1; [| discriminate].
  destruct (isDigit d2) eqn:E2; [| discriminate].
  destruct (code p =? 47)%N eqn:Ep; [| discriminate].
  destruct (isDigit m1) eqn:E3; [| discriminate].
  destruct (isDigit m2) eqn:E4; [| discriminate].
  destruct (code q =? 47)%N eqn:Eq; [| discriminate].
  destruct (isDigit y1) eqn:E5; [| discriminate].
  destruct (isDigit y2) eqn:E6; [| discriminate].
  destruct (isDigit y3) eqn:E7; [| discriminate].
  destruct (isDigit y4) eqn:E8; [| discriminate].
  simpl. intros H. injection H as <-.
  apply code_eqb_true in Ep, Eq. subst p q.
  exists d1, d2, m1, m2, y1, y2, y3, y4. repeat split; assumption.
Qed.

Lemma matchDate_shape (s d : string) :
  matchDate s = Some d ->
  exists d1 d2 m1 m2 y1 y2 y3 y4 : ascii,
    d = String d1 (String d2 (String "/" (String m1 (String m2 (String "/"
          (String y1 (String y2 (String y3 (String y4 EmptyString)))))))))
    /\ isDigit d1 = true /\ isDigit d2 = true /\ isDigit m1 = true /\ isDigit m2 = true
    /\ isDigit y1 = true /\ isDigit y2 = true /\ isDigit y3 = true /\ isDigit y4 = true.
Proof.
  induction s as [| c s IH]; cbn [matchDate].
  - destruct (dateAt EmptyString) eqn:E; [| discriminate].
    intros H. injection H as <-. now apply dateAt_shape in E.
  - destruct (dateAt (String c s)) eqn:E.
    + intros H. injection H as <-. now apply dateAt_shape in E.
    + exact IH.
Qed.

(** On a date of that shape [convertToISODate] puts the year first. *)
Lemma convertToISODate_shape (d1 d2 m1 m2 y1 y2 y3 y4 : ascii) :
  isDigit d1 = true -> isDigit d2 = true -> isDigit m1 = true -> isDigit m2 = true ->
  isDigit y1 = true -> isDigit y2 = true -> isDigit y3 = true -> isDigit y4 = true ->
  convertToISODate
    (String d1 (String d2 (String "/" (String m1 (String m2 (String "/"
       (String y1 (String y2 (String y3 (String y4 EmptyString))))))))))
  = String y1 (String y2 (String y3 (String y4 (String "-" (String m1 (String m2
      (String "-" (String d1 (String d2 EmptyString))))))))).
Proof.
  intros D1 D2 M1 M2 Y1 Y2 Y3 Y4. unfold convertToISODate.
  change (String d1 (String d2 (String "/" (String m1 (String m2 (String "/"
            (String y1 (String y2 (String y3 (String y4 EmptyString))))))))))
    with (String d1 (String d2 EmptyString)
          +:+ String "/" (String m1 (String m2 EmptyString)
                          +:+ String "/" (String y1 (String y2 (String y3 (String y4 EmptyString)))))).
  rewrite split_app_sep
    by (simpl; now rewrite (isDigit_not_slash _ D1), (isDigit_not_slash _ D2)).
  rewrite split_app_sep
    by (simpl; now rewrite (isDigit_not_slash _ M1), (isDigit_not_slash _ M2)).
  rewrite split_no_sep
    by (simpl; now rewrite (isDigit_not_slash _ Y1), (isDigit_not_slash _ Y2),
                           (isDigit_not_slash _ Y3), (isDigit_not_slash _ Y4)).
  reflexivity.
Qed.

(** X2: every transaction the scanner returns carries a date, and that date
    has the shape YYYY-MM-DD. *)
Theorem transaction_dates_are_iso :
  forall (sha256_hex : string -> string) (Number_toString : number -> string)
         (now : nat -> string) (text : string) (metadata : Metadata),
    Forall (fun t => exists d : string, date t = Some d /\ isIsoDate d = true)
           (parseTransactions sha256_hex Number_toString now text metadata).
Proof.
  intros sha256_hex Number_toString now text metadata.
  unfold parseTransactions.
  cut (forall lines i st,
         Forall (fun t => exists d : string, date t = Some d /\ isIsoDate d = true) (snd st) ->
         Forall (fun t => exists d : string, date t = Some d /\ isIsoDate d = true)
           (snd (scanLines sha256_hex Number_toString now metadata i st lines))).
  { intros H. apply H. constructor. }
  induction lines as [| l rest IH]; intros i st Hst; [exact Hst |].
  cbn [scanLines]. apply IH. destruct st as [inSection txs]. unfold scanLine. cbv zeta.
  destruct (isSectionStart _); [exact Hst |]. cbn [snd].
  destruct (inSection && _); [| exact Hst].
  destruct (matchDate (trim l)) as [d |] eqn:Hd; [| exact Hst].
  destruct (true && _); [| exact Hst].
  apply Forall_app. split; [exact Hst |]. constructor; [| constructor].
  unfold buildTransaction. cbv zeta. cbn [date]. rewrite Hd. cbn [option_map].
  destruct (matchDate_shape _ _ Hd)
    as (d1 & d2 & m1 & m2 & y1 & y2 & y3 & y4 & -> & D1 & D2 & M1 & M2 & Y1 & Y2 & Y3 & Y4).
  eexists. split; [reflexivity |].
  rewrite (convertToISODate_shape d1 d2 m1 m2 y1 y2 y3 y4) by assumption.
  cbn [isIsoDate]. rewrite D1, D2, M1, M2, Y1, Y2, Y3, Y4. reflexivity.
Qed.

(** ** Where the transactions of the scanner come from *)

Section ScanProvenance.

Variable sha256_hex : string -> string.
Variable Number_toString : number -> string.
Variable now : nat -> string.
Variable metadata : Metadata.

Lemma scanLine_step (i : nat) (st : bool * list Transaction) (rawText : string) :
  exists step : list Transaction,
    snd (scanLine sha256_hex Number_toString now metadata i st rawText)
    = (snd st ++ step)%list
    /\ (step = []
        \/ (step = [buildTransaction sha256_hex Number_toString now metadata i
                      (trim rawText) (matchAllAmounts (trim rawText))]
            /\ isSectionStart (trim rawText) = false /\ isEmpty (trim rawText) = false
            /\ matchDate (trim rawText) <> None
            /\ matchAllAmounts (trim rawText) <> [])).
Proof.
  destruct st as [inSection txs]. unfold scanLine. cbv zeta. cbn [snd].
  destruct (isSectionStart (trim rawText)) eqn:Hstart; cbn [snd].
  { exists []. split; [now rewrite app_nil_r | now left]. }
  destruct inSection; cbn [andb];
    [| exists []; split; [now rewrite app_nil_r | now left]].
  destruct (isEmpty (trim rawText)) eqn:Hempty; cbn [negb];
    [exists []; split; [now rewrite app_nil_r | now left] |].
  destruct (matchDate (trim rawText)) as [d |] eqn:Hdate; cbn [andb];
    [| exists []; split; [now rewrite app_nil_r | now left]].
  destruct (matchAllAmounts (trim rawText)) as [| a amounts] eqn:Hamounts; cbn [negb];
    [exists []; split; [now rewrite app_nil_r | now left] |].
  eexists. split; [reflexivity |]. right. split; [reflexivity |].
  split; [assumption || reflexivity |]. split; [assumption || reflexivity |].
  split; intros H; discriminate H.
Qed.

Lemma scanLines_steps (lines : list string) :
  forall (i : nat) (st : bool * list Transaction),
  exists new : list Transaction,
    snd (scanLines sha256_hex Number_toString now metadata i st lines)
    = (snd st ++ new)%list
    /\ map rawLine new `sublist_of` map trim lines
    /\ Forall (fun t => isSectionStart (rawLine t) = false
                        /\ isEmpty (rawLine t) = false
                        /\ matchDate (rawLine t) <> None
                        /\ matchAllAmounts (rawLine t) <> []) new.
Proof.
  induction lines as [| l rest IH]; intros i st.
  - exists []. cbn. split; [now rewrite app_nil_r |]. split; constructor.
  - cbn [scanLines].
    destruct (scanLine_step i st l) as (step & Hstep & Hcase).
    destruct (IH (Datatypes.S i) (scanLine sha256_hex Number_toString now metadata i st l))
      as (new & Hnew & Hsub & Hall).
    exists (step ++ new)%list. split; [| split].
    + rewrite Hnew, Hstep. now rewrite app_assoc.
    + destruct Hcase as [-> | [-> _]]; cbn.
      * now apply sublist_cons.
      * now apply sublist_skip.
    + destruct Hcase as [-> | [-> Htaken]]; cbn; [exact Hall |].
      constructor; [exact Htaken | exact Hall].
Qed.

(** Outside a section nothing is read: while no line starts a section the
    state does not change. *)
Lemma scanLines_no_section (lines : list string) :
  Forall (fun rawText => isSectionStart (trim rawText) = false) lines ->
  forall (i : nat) (txs : list Transaction),
    scanLines sha256_hex Number_toString now metadata i (false, txs) lines = (false, txs).
Proof.
  induction 1 as [| l rest Hl _ IH]; intros i txs; [reflexivity |].
  cbn [scanLines]. unfold scanLine at 1. cbv zeta. rewrite Hl. cbn [andb].
  destruct (isSectionEnd (trim l)); apply IH.
Qed.

End ScanProvenance.

(** X3: the transactions are read off lines of the text, in order and at
    most one per line: their [rawLine]s are a sublist of the trimmed lines.
    Each such line is not empty, carries a date and an amount, and is not a
    line that opens a section, which is never read as a transaction. *)
Theorem transactions_come_from_lines :
  forall (sha256_hex : string -> string) (Number_toString : number -> string)
         (now : nat -> string) (text : string) (metadata : Metadata),
    map rawLine (parseTransactions sha256_hex Number_toString now text metadata)
      `sublist_of` map trim (split (ascii_of_N 10) text)
    /\ Forall (fun t => isSectionStart (rawLine t) = false
                        /\ isEmpty (rawLine t) = false
                        /\ matchDate (rawLine t) <> None
                        /\ matchAllAmounts (rawLine t) <> [])
         (parseTransactions sha256_hex Number_toString now text metadata).
Proof.
  intros. unfold parseTransactions.
  destruct (scanLines_steps sha256_hex Number_toString now metadata
              (split (ascii_of_N 10) text) 0 (false, []))
    as (new & -> & Hsub & Hall).
  cbn [snd app]. split; assumption.
Qed.

(** X4: a text in which no line opens a section gives no transaction,
    whatever dates and amounts its lines carry. *)
Theorem no_section_no_transactions :
  forall (sha256_hex : string -> string) (Number_toString : number -> string)
         (now : nat -> string) (text : string) (metadata : Metadata),
    Forall (fun rawText => isSectionStart (trim rawText) = false)
           (split (ascii_of_N 10) text) ->
    parseTransactions sha256_hex Number_toString now text metadata = [].
Proof.
  intros sha256_hex Number_toString now text metadata H. unfold parseTransactions.
  now rewrite scanLines_no_section.
Qed.

(** The dated line of the scenario without its header line. *)
Lemma no_section_no_transactions_dated_line :
  Forall (fun rawText => isSectionStart (trim rawText) = false)
         (split (ascii_of_N 10) "15/01/2025 123456SUPERMERCADO XYZ$50.000,00")
  /\ parseTransactions (fun hashInput => hashInput) (fun _ => "n")
       (fun _ => "2025-01-20T10:00:00.000Z")
       "15/01/2025 123456SUPERMERCADO XYZ$50.000,00" Scenario.metadata = [].
Proof.
  split; [| apply no_section_no_transactions];
    (match goal with |- Forall _ ?l =>
       let l' := eval vm_compute in l in change l with l' end);
    (constructor; [vm_compute; reflexivity | constructor]).
Defined.

(** ** Categories *)

Lemma firstCategory_default (lower : string) (table : list (string * list string)) :
  Forall (fun bucket => fst bucket <> "SIN_CATEGORIA") table ->
  (firstCategory lower table = "SIN_CATEGORIA"
   <-> forall category keywords keyword,
         In (category, keywords) table -> In keyword keywords ->
         includes lower keyword = false).
Proof.
  induction 1 as [| [category keywords] rest Hname _ IH]; cbn [firstCategory].
  - split; [intros _ c k w [] | reflexivity].
  - cbn [fst] in Hname.
    destruct (existsb (fun keyword => includes lower keyword) keywords) eqn:E.
    + split; [intros H; now elim Hname |].
      intros H. apply existsb_exists in E as (w & Hw & Hinc).
      rewrite (H category keywords w (or_introl eq_refl) Hw) in Hinc. discriminate Hinc.
    + rewrite IH. split.
      * intros H c k w [Heq | Hin] Hw.
        -- injection Heq as <- <-.
           destruct (includes lower w) eqn:Ew; [| reflexivity].
           assert (existsb (fun keyword => includes lower keyword) keywords = true)
             by (apply existsb_exists; eauto).
           congruence.
        -- now apply (H c k w).
      * intros H c k w Hin. apply (H c k w). now right.
Qed.

Lemma firstCategory_in_table (lower : string) (table : list (string * list string)) :
  firstCategory lower table = "SIN_CATEGORIA"
  \/ In (firstCategory lower table) (map fst table).
Proof.
  induction table as [| [category keywords] rest IH]; cbn [firstCategory]; [now left |].
  destruct (existsb _ keywords).
  - right. now left.
  - destruct IH as [IH | IH]; [now left | right; now right].
Qed.

(** X5: [autoCategory] answers with the name of a bucket of its table or
    with SIN_CATEGORIA, and with SIN_CATEGORIA exactly when no keyword of any
    bucket occurs in the lower-cased merchant text. *)
Theorem autoCategory_default :
  forall merchant : string,
    (autoCategory merchant = "SIN_CATEGORIA"
     <-> forall category keywords keyword,
           In (category, keywords) categories -> In keyword keywords ->
           includes (toLowerCase merchant) keyword = false)
    /\ (autoCategory merchant = "SIN_CATEGORIA"
        \/ In (autoCategory merchant) (map fst categories)).
Proof.
  intros merchant. unfold autoCategory. split.
  - apply firstCategory_default.
    unfold categories. repeat constructor; cbn [fst]; discriminate.
  - apply firstCategory_in_table.
Qed.

(** ** Hash inputs of different documents *)

Lemma append_inv_head (p a b : string) : p +:+ a = p +:+ b -> a = b.
Proof.
  induction p as [| c p IH]; cbn; [trivial |].
  intros H. injection H as H. now apply IH.
Qed.

(** X6: the source document is part of the hash input: two transactions
    that agree on owner, date, amount, merchant and authorization number but
    come from different documents have different hash inputs, hence
    different identifiers under any hash that does not collide on them. *)
Theorem hashInput_separates_documents :
  forall (Number_toString : number -> string) (auth0UserId date : option string)
         (amount : number) (merchant : string) (authNumber : option string)
         (document1 document2 : string),
    document1 <> document2 ->
    hashInput Number_toString auth0UserId date amount merchant authNumber (Some document1)
    <> hashInput Number_toString auth0UserId date amount merchant authNumber (Some document2)
    /\ forall sha256_hex : string -> string,
         (forall x y, sha256_hex x = sha256_hex y -> x = y) ->
         generateTransactionHash sha256_hex Number_toString auth0UserId date amount
           merchant authNumber (Some document1)
         <> generateTransactionHash sha256_hex Number_toString auth0UserId date amount
              merchant authNumber (Some document2).
Proof.
  intros Number_toString auth0UserId date amount merchant authNumber d1 d2 Hne.
  assert (Hin : hashInput Number_toString auth0UserId date amount merchant authNumber (Some d1)
                <> hashInput Number_toString auth0UserId date amount merchant authNumber
                     (Some d2)).
  { unfold hashInput, join. cbn [String.concat orEmpty]. intros H.
    repeat (apply append_inv_head in H). now elim Hne. }
  split; [exact Hin |].
  intros sha256_hex Hinj H. unfold generateTransactionHash in H. now apply Hinj in H.
Qed.

Lemma hashInput_separates_two_documents :
  "doc-1" <> "doc-2"
  /\ hashInput (fun _ => "50000") (Some "auth0|user-1") (Some "2025-01-15") (dec 50000 0)
       "SUPERMERCADO XYZ" (Some "123456") (Some "doc-1")
     <> hashInput (fun _ => "50000") (Some "auth0|user-1") (Some "2025-01-15") (dec 50000 0)
          "SUPERMERCADO XYZ" (Some "123456") (Some "doc-2").
Proof.
  split; [discriminate |].
  apply (hashInput_separates_documents (fun _ => "50000") (Some "auth0|user-1")
           (Some "2025-01-15") (dec 50000 0) "SUPERMERCADO XYZ" (Some "123456")
           "doc-1" "doc-2").
  discriminate.
Defined.

(** ** What a call of [extractTextFromPDF] returns and leaves *)

(** The run of [pdftotext] and what follows, in closed form: on [/tmp] as
    the run leaves it, the text is returned when the run exited with status
    0 and both its output and its input are there; every other case throws
    TEXT_EXTRACTION_FAILED.  Either way input and output are removed. *)
Lemma extractStep_result (env : Env) (fileToExtract : string) (fs : FS) :
  fileToExtract <> outputFile env ->
  let fs1 := match written (pdftotext env) with
             | Some data => <[outputFile env := data]> fs
             | None => fs
             end in
  let fs2 := delete (outputFile env) (delete fileToExtract fs1) in
  (exists text : string,
      extractStep env fileToExtract fs = (inr text, fs2)
      /\ exitOk (pdftotext env) = true
      /\ fs1 !! outputFile env = Some text
      /\ is_Some (fs1 !! fileToExtract))
  \/ (exists msg : string,
         extractStep env fileToExtract fs
         = (inl (Error "Error" ("TEXT_EXTRACTION_FAILED: " +:+ msg)), fs2)
         /\ (exitOk (pdftotext env) = false
             \/ fs1 !! outputFile env = None
             \/ fs1 !! fileToExtract = None)).
Proof.
  intros Hne fs1 fs2.
  destruct (extractStep env fileToExtract fs) as [r fs'] eqn:Hrun.
  revert Hrun. unfold extractStep, tryCatch.
  unfold bind at 1. unfold execAsync. fold fs1.
  destruct (exitOk (pdftotext env)).
  - unfold bind at 1. unfold existsSync at 1.
    destruct (fs1 !! outputFile env) as [text |] eqn:Hout.
    + rewrite bool_decide_eq_true_2 by (now exists text).
      unfold bind at 1. unfold readFileSync. rewrite Hout.
      unfold bind at 1. unfold unlinkSync at 1.
      destruct (fs1 !! fileToExtract) as [d |] eqn:Hin.
      * unfold bind at 1. unfold unlinkSync.
        rewrite lookup_delete_ne by congruence. rewrite Hout. unfold ret.
        intros H; injection H as <- <-.
        left. exists text.
        split; [reflexivity |]. split; [reflexivity |]. split; [reflexivity |].
        now exists d.
      * unfold bind. rewrite !unlinkIfExists_delete. unfold throw.
        intros H; injection H as <- <-.
        right. eexists. split; [reflexivity | auto].
    + rewrite bool_decide_eq_false_2 by (intros [x Hx]; discriminate Hx).
      unfold throw at 1. unfold bind. rewrite !unlinkIfExists_delete. unfold throw.
      intros H; injection H as <- <-.
      right. eexists. split; [reflexivity | auto].
  - unfold bind. rewrite !unlinkIfExists_delete. unfold throw.
    intros H; injection H as <- <-.
    right. eexists. split; [reflexivity | auto].
Qed.



(** A password stored as a number: the write of the password throws the
    [TypeError] of Node, no tool runs, and the input stays in [/tmp]. *)
Lemma numeric_password_leaves_input :
  extractTextFromPDF Scenario.storedAsNumber (VNum (dec 1234 0)) ∅
  = (inl (ERR_INVALID_ARG_TYPE " Received type number (1234)"),
     <[inputFile Scenario.storedAsNumber := "%PDF-1.7 (encrypted)"]> ∅).
Proof. reflexivity. Qed.



(** X8: on a [/tmp] where the four names are free, a call returns a text
    exactly when the download succeeded, the input was written,
    [pdftotext] exited with status 0 and wrote that text, and, if a password
    was given, it is a string, it was written, and [qpdf] exited with status
    0 and wrote the unlocked file. *)
Theorem extractTextFromPDF_returns_text :
  forall (env : Env) (password : value) (fs : FS) (text : string),
    (forall p, In p (tempFiles env) -> fs !! p = None) ->
    (fst (extractTextFromPDF env password fs) = inr text
     <-> (exists buffer, download env = inr buffer)
         /\ refusedInput env = None
         /\ exitOk (pdftotext env) = true
         /\ written (pdftotext env) = Some text
         /\ (truthy password = true ->
             (exists pw, password = VStr pw) /\ refusedPassword env = None
             /\ exitOk (qpdf env) = true /\ written (qpdf env) <> None)).
Proof.
  intros env password fs text Hfresh.
  destruct (tempFiles_distinct env) as (H1 & H2 & H3 & H4 & H5 & H6).
  assert (Hi : fs !! inputFile env = None) by (apply Hfresh; simpl; auto).
  assert (Hp : fs !! passwordFile env = None) by (apply Hfresh; simpl; auto).
  assert (Hu : fs !! unlockedFile env = None) by (apply Hfresh; simpl; auto).
  assert (Ho : fs !! outputFile env = None) by (apply Hfresh; simpl; auto).
  clear Hfresh. rewrite extractTextFromPDF_steps.
  destruct (download env) as [e | buffer].
  { split; [discriminate | intros ([b Hb] & _); discriminate Hb]. }
  destruct (refusedInput env) as [e |].
  { split; [discriminate | intros (_ & Hb & _); discriminate Hb]. }
  set (fs1 := <[inputFile env := buffer]> fs).
  assert (Hi1 : fs1 !! inputFile env = Some buffer) by apply lookup_insert_eq.
  assert (Hu1 : fs1 !! unlockedFile env = None)
    by (unfold fs1; now rewrite lookup_insert_ne by congruence).
  assert (Ho1 : fs1 !! outputFile env = None)
    by (unfold fs1; now rewrite lookup_insert_ne by congruence).
  clearbody fs1.
  (* the step that runs pdftotext, on a file system where the output name is free *)
  assert (Hstep : forall (f : string) (w : FS),
            f <> outputFile env -> w !! outputFile env = None ->
            (fst (extractStep env f w) = inr text
             <-> exitOk (pdftotext env) = true /\ written (pdftotext env) = Some text
                 /\ is_Some (w !! f))).
  { intros f w Hf Hw.
    destruct (extractStep_result env f w Hf) as [(t & -> & Hok & Hout & Hin) | (msg & -> & Hbad)];
      cbn [fst].
    - destruct (written (pdftotext env)) as [data |] eqn:Hwr.
      + rewrite lookup_insert_eq in Hout. rewrite lookup_insert_ne in Hin by congruence.
        injection Hout as ->. split.
        * intros H. injection H as ->. auto.
        * intros (_ & H & _). now injection H as ->.
      + rewrite Hw in Hout. discriminate Hout.
    - split; [discriminate |]. intros (Hok & Hwr & Hin). rewrite Hwr in Hbad.
      rewrite lookup_insert_eq, lookup_insert_ne in Hbad by congruence.
      destruct Hbad as [Hb | [Hb | Hb]]; [congruence | discriminate Hb |].
      rewrite Hb in Hin. now destruct Hin. }
  assert (Hplain : fst (extractStep env (inputFile env) fs1) = inr text
                   <-> exitOk (pdftotext env) = true /\ written (pdftotext env) = Some text).
  { rewrite (Hstep _ _ H3 Ho1). rewrite Hi1. split; [tauto | intros []; eauto]. }
  destruct (truthy password) eqn:Ht.
  2: { rewrite (unlockStep_no_password env password fs1 Ht). rewrite Hplain.
       split; [intros [A B] | tauto].
       split; [eauto |]. split; [reflexivity |]. split; [exact A |]. split; [exact B |].
       discriminate. }
  destruct (unlockStep_write_throws env password fs1 Ht)
    as [(pw & e & -> & Hwrite & ->) | [(Hno & ->) | (pw & -> & Hpw & Hwrite)]].
  - cbn [fst]. split; [discriminate |].
    intros (_ & _ & _ & _ & C). destruct (C eq_refl) as (_ & D & _). congruence.
  - cbn [fst]. split; [discriminate |].
    intros (_ & _ & _ & _ & C). destruct (C eq_refl) as ((pw & D) & _).
    now elim (Hno pw).
  - destruct (exitOk (qpdf env)) eqn:Hexit.
    + rewrite (unlockStep_qpdf_ok env pw buffer fs1 Hpw Hwrite Hexit Hi1).
      rewrite Hstep; [| exact H6 |].
      2:{ rewrite !lookup_delete_ne by congruence.
          destruct (written (qpdf env));
            rewrite ?lookup_insert_ne by congruence; exact Ho1. }
      rewrite !lookup_delete_ne by congruence.
      destruct (written (qpdf env)) as [data |].
      * rewrite lookup_insert_eq. split.
        -- intros (A & B & _). split; [eauto |]. split; [reflexivity |].
           split; [exact A |]. split; [exact B |].
           intros _. split; [eauto |]. split; [exact Hwrite |].
           split; [reflexivity | discriminate].
        -- intros (_ & _ & A & B & _). eauto.
      * rewrite lookup_insert_ne by congruence. rewrite Hu1. split.
        -- intros (_ & _ & [x Hx]). discriminate Hx.
        -- intros (_ & _ & _ & _ & C). destruct (C eq_refl) as (_ & _ & _ & D). now elim D.
    + rewrite (unlockStep_qpdf_fails env pw fs1 Hpw Hwrite Hexit). cbn [fst].
      split; [discriminate |].
      intros (_ & _ & _ & _ & C). destruct (C eq_refl) as (_ & _ & D & _). discriminate D.
Qed.

Lemma readable_upload_returns_its_text :
  (forall p, In p (tempFiles Scenario.readable) -> (∅ : FS) !! p = None)
  /\ (fst (extractTextFromPDF Scenario.readable (VStr "secret") ∅) = inr Scenario.twoLines
      <-> (exists buffer, download Scenario.readable = inr buffer)
          /\ refusedInput Scenario.readable = None
          /\ exitOk (pdftotext Scenario.readable) = true
          /\ written (pdftotext Scenario.readable) = Some Scenario.twoLines
          /\ (truthy (VStr "secret") = true ->
              (exists pw, VStr "secret" = VStr pw)
              /\ refusedPassword Scenario.readable = None
              /\ exitOk (qpdf Scenario.readable) = true
              /\ written (qpdf Scenario.readable) <> None)).
Proof.
  split; [intros p _; apply lookup_empty |].
  apply (extractTextFromPDF_returns_text Scenario.readable (VStr "secret") ∅
           Scenario.twoLines).
  intros p _. apply lookup_empty.
Defined.

(** ** What the tracker sends *)

(** X10: when the owner or the document id is missing or empty, nothing
    goes to the store: the call writes one line to the console and returns,
    store and sent commands unchanged. *)
Theorem updateDocumentStatus_missing_ids :
  forall (S : Type) (UPLOADS_TABLE : option string)
         (storeUpdate : UpdateCommand -> S -> (error + unit) * S) (now : string)
         (auth0UserId documentId : option string) (status : string)
         (additionalData : list (string * value)) (w : World S),
    missing auth0UserId || missing documentId = true ->
    updateDocumentStatus UPLOADS_TABLE storeUpdate now auth0UserId documentId status
      additionalData w
    = (inr tt,
       {| store := store w;
          sent := sent w;
          console := (console w
                      ++ ["❌ [document-tracker] auth0UserId o documentId faltante"])%list |}).
Proof.
  intros S UPLOADS_TABLE storeUpdate now auth0UserId documentId status additionalData w H.
  unfold updateDocumentStatus.
  destruct auth0UserId as [uid |], documentId as [did |]; try reflexivity.
  cbn [missing] in H. now rewrite H.
Qed.

Lemma updateDocumentStatus_without_owner :
  missing None || missing (Some "doc-1") = true
  /\ updateDocumentStatus (Some "document-uploads") Scenario.acceptAll
       "2025-01-20T10:00:00.000Z" None (Some "doc-1") PROCESSING [] Scenario.freshTracker
     = (inr tt,
        {| store := store Scenario.freshTracker;
           sent := sent Scenario.freshTracker;
           console := (console Scenario.freshTracker
                       ++ ["❌ [document-tracker] auth0UserId o documentId faltante"])%list |}).
Proof.
  split; [reflexivity |].
  apply (updateDocumentStatus_missing_ids unit (Some "document-uploads") Scenario.acceptAll
           "2025-01-20T10:00:00.000Z" None (Some "doc-1") PROCESSING [] Scenario.freshTracker).
  reflexivity.
Defined.

Lemma fold_setField_other (data : list (string * value)) :
  forall (e : Expression) (key : string),
    ~ In key (map (fun kv => ":" +:+ fst kv) data) ->
    expressionAttributeValues (fold_left (fun e kv => setField e (fst kv) (snd kv)) data e)
      !! key
    = expressionAttributeValues e !! key.
Proof.
  induction data as [| [k v] rest IH]; intros e key Hkey; [reflexivity |].
  cbn [fold_left]. rewrite IH by (intros H; apply Hkey; now right).
  cbn [setField expressionAttributeValues fst snd].
  apply lookup_insert_ne. intros Heq. apply Hkey. now left.
Qed.

Lemma fold_setField_in (data : list (string * value)) :
  forall (e : Expression) (k : string) (v : value),
    NoDup (map fst data) -> In (k, v) data ->
    expressionAttributeValues (fold_left (fun e kv => setField e (fst kv) (snd kv)) data e)
      !! (":" +:+ k) = Some v.
Proof.
  induction data as [| [k0 v0] rest IH]; intros e k v Hnd Hin; [destruct Hin |].
  cbn [map fst] in Hnd. apply NoDup_cons in Hnd as [Hnotin Hnd].
  cbn [fold_left]. destruct Hin as [Heq | Hin].
  - injection Heq as -> ->. rewrite fold_setField_other.
    + cbn [setField expressionAttributeValues fst snd]. apply lookup_insert_eq.
    + intros H. apply in_map_iff in H as ([k' v'] & Hk & Hin').
      change (String ":" k' = String ":" k) in Hk. injection Hk as ->.
      apply Hnotin, list_elem_of_In. now apply (in_map fst) in Hin'.
  - now apply IH.
Qed.

(** The three fields every update carries, in the accumulator before the
    additional data is added. *)
Lemma buildExpression_base (now auth0UserId status : string)
    (additionalData : list (string * value)) :
  (forall k, In k (map fst additionalData) ->
             k <> "status" /\ k <> "statusComposite" /\ k <> "updatedAt") ->
  let values := expressionAttributeValues
                  (buildExpression now auth0UserId status additionalData) in
  values !! ":status" = Some (VStr status)
  /\ values !! ":statusComposite" = Some (VStr (auth0UserId +:+ "#" +:+ status))
  /\ values !! ":updatedAt" = Some (VStr now).
Proof.
  intros Hkeys values. subst values. unfold buildExpression. cbv zeta.
  assert (Hno : forall key, In key [":status"; ":statusComposite"; ":updatedAt"] ->
                  ~ In key (map (fun kv => ":" +:+ fst kv) additionalData)).
  { intros key Hkey H. apply in_map_iff in H as ([k v] & Hk & Hin).
    change (String ":" k = key) in Hk. subst key. apply (in_map fst) in Hin. cbn in Hin.
    destruct (Hkeys k Hin) as (A & B & C).
    cbn in Hkey. destruct Hkey as [E | [E | [E | []]]]; injection E as E; congruence. }
  rewrite !fold_setField_other by (apply Hno; cbn; auto).
  destruct (String.eqb status PROCESSING && _);
    destruct (String.eqb status COMPLETED && _);
    cbn [setField expressionAttributeValues];
    repeat split; vm_compute; reflexivity.
Qed.

(** X11: the command of an update names the document by owner and id and
    sets [status], [statusComposite] (owner, [#], status) and [updatedAt];
    every field of the additional data reaches the store under its own name
    and with its own value.  (The additional data has distinct names, none
    of them one of the three.) *)
Theorem updateCommand_fields :
  forall (UPLOADS_TABLE : option string) (now auth0UserId documentId status : string)
         (additionalData : list (string * value)),
    NoDup (map fst additionalData) ->
    (forall k, In k (map fst additionalData) ->
               k <> "status" /\ k <> "statusComposite" /\ k <> "updatedAt") ->
    Key (updateCommand UPLOADS_TABLE now auth0UserId documentId status additionalData)
    = (auth0UserId, documentId)
    /\ ExpressionAttributeValues
         (updateCommand UPLOADS_TABLE now auth0UserId documentId status additionalData)
         !! ":status" = Some (VStr status)
    /\ ExpressionAttributeValues
         (updateCommand UPLOADS_TABLE now auth0UserId documentId status additionalData)
         !! ":statusComposite" = Some (VStr (auth0UserId +:+ "#" +:+ status))
    /\ ExpressionAttributeValues
         (updateCommand UPLOADS_TABLE now auth0UserId documentId status additionalData)
         !! ":updatedAt" = Some (VStr now)
    /\ forall k v, In (k, v) additionalData ->
         ExpressionAttributeValues
           (updateCommand UPLOADS_TABLE now auth0UserId documentId status additionalData)
           !! (":" +:+ k) = Some v.
Proof.
  intros UPLOADS_TABLE now auth0UserId documentId status additionalData Hnd Hkeys.
  unfold updateCommand. cbv zeta. cbn [Key ExpressionAttributeValues].
  destruct (buildExpression_base now auth0UserId status additionalData Hkeys) as (A & B & C).
  split; [reflexivity |]. split; [exact A |]. split; [exact B |]. split; [exact C |].
  intros k v Hin. unfold buildExpression. cbv zeta. now apply fold_setField_in.
Qed.

Lemma updateCommand_fields_failed :
  NoDup (map fst [("errorType", VStr EXTRACTION_FAILED); ("errorMessage", VStr "boom")])
  /\ ExpressionAttributeValues
       (updateCommand (Some "document-uploads") "2025-01-20T10:00:00.000Z" "auth0|user-1"
          "doc-1" FAILED [("errorType", VStr EXTRACTION_FAILED); ("errorMessage", VStr "boom")])
       !! ":statusComposite" = Some (VStr ("auth0|user-1" +:+ "#" +:+ FAILED)).
Proof.
  assert (Hnd : NoDup (map fst [("errorType", VStr EXTRACTION_FAILED);
                                ("errorMessage", VStr "boom")])).
  { cbn. apply NoDup_cons. split.
    - intros H. apply list_elem_of_In in H. cbn in H. destruct H as [H | []]. discriminate H.
    - apply NoDup_cons. split; [intros H; apply list_elem_of_In in H; destruct H | constructor]. }
  split; [exact Hnd |].
  refine (proj1 (proj2 (proj2
            (updateCommand_fields (Some "document-uploads") "2025-01-20T10:00:00.000Z"
               "auth0|user-1" "doc-1" FAILED
               [("errorType", VStr EXTRACTION_FAILED); ("errorMessage", VStr "boom")]
               Hnd _)))).
  intros k Hk. cbn in Hk.
  destruct Hk as [<- | [<- | []]]; (split; [| split]); discriminate.
Defined.

(** X12: the stamps.  An update to PROCESSING that brings no
    [processingStartedAt] is stamped with the current time, and so is
    [completedAt] on an update to COMPLETED.  An update to any other status
    sets the three fields and the additional data and nothing else: by
    itself [updateDocumentStatus] stamps no [failedAt]. *)
Theorem updateCommand_stamps :
  forall (UPLOADS_TABLE : option string) (now auth0UserId documentId status : string)
         (additionalData : list (string * value)),
    (status = PROCESSING -> ~ In "processingStartedAt" (map fst additionalData) ->
     ExpressionAttributeValues
       (updateCommand UPLOADS_TABLE now auth0UserId documentId status additionalData)
       !! ":processingStartedAt" = Some (VStr now))
    /\ (status = COMPLETED -> ~ In "completedAt" (map fst additionalData) ->
        ExpressionAttributeValues
          (updateCommand UPLOADS_TABLE now auth0UserId documentId status additionalData)
          !! ":completedAt" = Some (VStr now))
    /\ (status <> PROCESSING -> status <> COMPLETED ->
        forall key,
          ~ In key [":status"; ":statusComposite"; ":updatedAt"] ->
          ~ In key (map (fun kv => ":" +:+ fst kv) additionalData) ->
          ExpressionAttributeValues
            (updateCommand UPLOADS_TABLE now auth0UserId documentId status additionalData)
            !! key = None).
Proof.
  intros UPLOADS_TABLE now auth0UserId documentId status additionalData.
  unfold updateCommand. cbv zeta. cbn [ExpressionAttributeValues].
  assert (Hundef : forall key, ~ In key (map fst additionalData) ->
                     property additionalData key = VUndefined).
  { intros key. induction additionalData as [| [k v] rest IH]; [reflexivity |].
    cbn. intros H. destruct (String.eqb k key) eqn:E.
    - apply String.eqb_eq in E. elim H. now left.
    - apply IH. intros Hin. apply H. now right. }
  assert (Hcolon : forall key, ~ In key (map fst additionalData) ->
                     ~ In (":" +:+ key) (map (fun kv => ":" +:+ fst kv) additionalData)).
  { intros key H Hin. apply in_map_iff in Hin as ([k v] & Hk & Hin).
    change (String ":" k = String ":" key) in Hk. injection Hk as ->.
    apply H. now apply (in_map fst) in Hin. }
  split; [| split].
  - intros -> Hno. unfold buildExpression. cbv zeta.
    rewrite (fold_setField_other _ _ ":processingStartedAt") by (now apply (Hcolon "processingStartedAt")).
    rewrite (Hundef _ Hno). vm_compute. reflexivity.
  - intros -> Hno. unfold buildExpression. cbv zeta.
    rewrite (fold_setField_other _ _ ":completedAt") by (now apply (Hcolon "completedAt")).
    rewrite (Hundef _ Hno). vm_compute. reflexivity.
  - intros Hp Hc key Hbase Hdata. unfold buildExpression. cbv zeta.
    rewrite fold_setField_other by exact Hdata.
    apply String.eqb_neq in Hp, Hc. rewrite Hp, Hc. cbn [andb expressionAttributeValues].
    rewrite !lookup_insert_ne; [apply lookup_empty | | |];
      intros <-; apply Hbase; cbn; auto.
Qed.

(** ** The composite of owner and status *)





(** ** Inputs on which the properties above hold *)


Lemma still_encrypted_recorded_as_password_error :
  includes (stderr (pdftotext Scenario.stillEncrypted)) "password"
  || includes (stderr (pdftotext Scenario.stillEncrypted)) "contraseña" = true
  /\ exists (fs' : FS) (w' : World unit) (command : UpdateCommand),
       let e :=
         Error "Error"
           ("TEXT_EXTRACTION_FAILED: "
            +:+ ("Command failed: "
                 +:+ pdftotextCommand (inputFile Scenario.stillEncrypted)
                       Scenario.stillEncrypted
                 +:+ String (ascii_of_N 10) (stderr (pdftotext Scenario.stillEncrypted)))) in
       extractTextFromPDF Scenario.stillEncrypted VNull ∅ = (inl e, fs')
       /\ extractText (Some "document-uploads") Scenario.acceptAll
            "2025-01-20T10:00:00.000Z" Scenario.stillEncrypted (Some "auth0|user-1")
            (Some "doc-1") VNull (∅, Scenario.freshTracker)
          = (inl e, (fs', w'))
       /\ sent w' = (sent Scenario.freshTracker ++ [command])%list
       /\ ExpressionAttributeValues command !! ":status" = Some (VStr PASSWORD_ERROR)
       /\ ExpressionAttributeValues command !! ":errorType" = Some (VStr PASSWORD_INCORRECT)
       /\ ExpressionAttributeValues command !! ":errorMessage"
          = Some (VStr ("Error de contraseña: " +:+ message e)).
Proof.
  split; [vm_compute; reflexivity |].
  apply (pdftotext_password_diagnostic_recorded (Some "document-uploads") Scenario.acceptAll
           "2025-01-20T10:00:00.000Z" Scenario.stillEncrypted "auth0|user-1" "doc-1"
           "%PDF-1.7 (encrypted)" VNull ∅ Scenario.freshTracker);
    try (vm_compute; reflexivity).
  intros H. discriminate H.
Defined.

Lemma rejected_update_is_swallowed :
  isEmpty "auth0|user-1" = false /\ isEmpty "doc-1" = false
  /\ (forall command,
         Scenario.rejectAll command (store Scenario.freshTracker)
         = (inl (Error "ProvisionedThroughputExceededException" "Rate exceeded"), tt))
  /\ exists command,
       updateDocumentStatus (Some "document-uploads") Scenario.rejectAll
         "2025-01-20T10:00:00.000Z" (Some "auth0|user-1") (Some "doc-1") PARSING []
         Scenario.freshTracker
       = (inr tt,
          {| store := tt;
             sent := (sent Scenario.freshTracker ++ [command])%list;
             console := (console Scenario.freshTracker
                         ++ ["❌ [document-tracker] Error actualizando estado:"])%list |}).
Proof.
  split; [reflexivity |]. split; [reflexivity |]. split; [reflexivity |].
  apply (updateDocumentStatus_swallows (Some "document-uploads") Scenario.rejectAll
           "2025-01-20T10:00:00.000Z" "auth0|user-1" "doc-1" PARSING []
           Scenario.freshTracker
           (Error "ProvisionedThroughputExceededException" "Rate exceeded") tt);
    reflexivity.
Defined.

Lemma determineSign_of_a_purchase :
  existsb (fun kw => includes (toLowerCase "SUPERMERCADO XYZ") kw) Parser.creditKeywords
  = false
  /\ isPositive (Parser.determineSign (dec 50000 0) "SUPERMERCADO XYZ") = false.
Proof.
  split; [vm_compute; reflexivity |].
  apply (determineSign_debit_not_positive (dec 50000 0) "SUPERMERCADO XYZ").
  vm_compute. reflexivity.
Defined.

(** ** The worker: [processRecord] and [handler] *)

Lemma bind_inr {W A B : Type} (c : M W A) (k : A -> M W B) (w w' : W) (a : A) :
  c w = (inr a, w') -> bind c k w = k a w'.
Proof. intros H. unfold bind. now rewrite H. Qed.

Lemma bind_inl {W A B : Type} (c : M W A) (k : A -> M W B) (w w' : W) (e : error) :
  c w = (inl e, w') -> bind c k w = (inl e, w').
Proof. intros H. unfold bind. now rewrite H. Qed.

Lemma tryCatch_rethrow {W A : Type} (body : M W A) (w : W) :
  tryCatch body (fun error => throw error) w = body w.
Proof. unfold tryCatch, throw. now destruct (body w) as [[e | a] w']. Qed.

Section WorkerFacts.

Context {SU ST : Type}.
Variable UPLOADS_TABLE : option string.
Variable storeUpdate : UpdateCommand -> SU -> (error + unit) * SU.
Variable storeSend : Command -> ST -> (error + option Transaction) * ST.
Variable decodeURIComponent : string -> error + string.
Variable sha256_hex : string -> string.
Variable Number_toString : number -> string.
Variable now : string.
Variable lineClock : nat -> string.

Lemma bind_answer {A B : Type} (r : error + A) (k : A -> M (@WorkerState SU ST) B)
    (w : @WorkerState SU ST) :
  bind (answer r) k w = match r with inl e => (inl e, w) | inr a => k a w end.
Proof. unfold bind, answer. now destruct r. Qed.

Lemma extractText_outcome (env : Env) (u d : string) (password : value)
    (fs : FS) (t : World SU) :
  isEmpty u = false -> isEmpty d = false ->
  (exists (text : string) (fs' : FS),
      extractText UPLOADS_TABLE storeUpdate now env (Some u) (Some d) password (fs, t)
      = (inr text, (fs', t)))
  \/ (exists (e : error) (fs' : FS) (t' : World SU) (command : UpdateCommand),
         extractText UPLOADS_TABLE storeUpdate now env (Some u) (Some d) password (fs, t)
         = (inl e, (fs', t'))
         /\ sent t' = (sent t ++ [command])%list
         /\ (report command = failure FAILED EXTRACTION_FAILED
             \/ report command = failure PASSWORD_ERROR PASSWORD_INCORRECT)).
Proof.
  intros Hu Hd. unfold extractText, tryCatch, onFiles. cbn [fst snd].
  destruct (extractTextFromPDF env password fs) as [[e | text] fs'].
  2: { left. now exists text, fs'. }
  right.
  destruct (includes (message e) "password" || includes (message e) "contraseña").
  - unfold bind, onTracker, throw, markPasswordError. cbn [fst snd].
    match goal with |- context [updateDocumentStatus ?a ?b ?c ?x ?y ?st ?data t] =>
      destruct (updateDocumentStatus_sends a b c u d st data t Hu Hd) as (t' & Hrun & Hsent)
    end.
    rewrite Hrun. eexists e, fs', t', _. split; [reflexivity |]. split; [exact Hsent |].
    right. vm_compute. reflexivity.
  - unfold bind, onTracker, throw, markDocumentFailed. cbn [fst snd].
    match goal with |- context [updateDocumentStatus ?a ?b ?c ?x ?y ?st ?data t] =>
      destruct (updateDocumentStatus_sends a b c u d st data t Hu Hd) as (t' & Hrun & Hsent)
    end.
    rewrite Hrun. eexists e, fs', t', _. split; [reflexivity |]. split; [exact Hsent |].
    left. vm_compute. reflexivity.
Qed.

Lemma updateStatus_run (auth0UserId documentId : option string) (status : string)
    (data : list (string * value)) (fs : FS) (t : World SU) (db : @Db ST) :
  updateStatus UPLOADS_TABLE storeUpdate now auth0UserId documentId status data (fs, t, db)
  = (inr tt,
     (fs, snd (updateDocumentStatus UPLOADS_TABLE storeUpdate now auth0UserId documentId
                 status data t), db)).
Proof.
  unfold updateStatus, onStage, onTracker. cbn [fst snd].
  pose proof (updateDocumentStatus_returns UPLOADS_TABLE storeUpdate now auth0UserId
                documentId status data t) as H.
  destruct (updateDocumentStatus _ _ _ _ _ _ _ t) as [r t']. cbn [fst snd] in *. now subst r.
Qed.

Lemma saveTransactions_run (transactions : list Transaction) (db : @Db ST) :
  exists c : Counters,
    saveTransactions storeSend transactions db
    = (inr c, snd (saveTransactions storeSend transactions db)).
Proof.
  unfold saveTransactions.
  destruct (saveLoop_counts storeSend transactions
              {| saved := 0; duplicates := 0; errors := 0 |} db)
    as (c & db' & trace & Hrun & _).
  rewrite Hrun. now exists c.
Qed.

Lemma markFailed_run (auth0UserId documentId : option string)
    (errorType errorMessage : string) (fs : FS) (t : World SU) (db : @Db ST) :
  markFailed UPLOADS_TABLE storeUpdate now auth0UserId documentId errorType errorMessage
    (fs, t, db)
  = (inr tt,
     (fs, snd (markDocumentFailed UPLOADS_TABLE storeUpdate now auth0UserId documentId
                 (VStr errorType) (VStr errorMessage) t), db)).
Proof. apply updateStatus_run. Qed.

Lemma markCompleted_run (auth0UserId documentId : option string)
    (transactionsExtracted processingTimeMs : number)
    (fs : FS) (t : World SU) (db : @Db ST) :
  markCompleted UPLOADS_TABLE storeUpdate now auth0UserId documentId transactionsExtracted
    processingTimeMs (fs, t, db)
  = (inr tt,
     (fs, snd (markDocumentCompleted UPLOADS_TABLE storeUpdate now auth0UserId documentId
                 (VNum transactionsExtracted) (VNum processingTimeMs) t), db)).
Proof. apply updateStatus_run. Qed.

Lemma findPassword_run (job : Job) (auth0UserId : option string) (documentType : string)
    (hasPassword : bool) (w : @WorkerState SU ST) :
  findPassword job auth0UserId documentType hasPassword w
  = (inr (if hasPassword then
            match passwordItem job auth0UserId documentType with
            | inr (Some password) => password
            | _ => VNull
            end
          else VNull), w).
Proof.
  unfold findPassword. destruct hasPassword; [| reflexivity].
  unfold tryCatch. rewrite bind_answer.
  now destruct (passwordItem job auth0UserId documentType) as [e | [password |]].
Qed.

Lemma parseText_run (text : string) (auth0UserId documentId userEmail : option string)
    (documentType : string) (fs : FS) (t : World SU) (db : @Db ST) :
  parseText UPLOADS_TABLE storeUpdate sha256_hex Number_toString now lineClock text
    auth0UserId documentId userEmail documentType (fs, t, db)
  = match parseTransactions sha256_hex Number_toString lineClock text
            {| md_sourceDocumentId := documentId; md_auth0UserId := auth0UserId;
               md_userEmail := userEmail; md_documentType := Some documentType |} with
    | [] =>
        (inl (Error "Error" "No se encontraron transacciones"),
         (fs, snd (markDocumentFailed UPLOADS_TABLE storeUpdate now auth0UserId documentId
                     (VStr NO_TRANSACTIONS_FOUND)
                     (VStr "No se encontraron transacciones en el documento") t), db))
    | transaction :: rest => (inr (transaction :: rest), (fs, t, db))
    end.
Proof.
  unfold parseText, tryCatch. cbv zeta.
  destruct (parseTransactions _ _ _ _ _) as [| transaction rest]; [| reflexivity].
  cbn [length Nat.eqb].
  rewrite (bind_inr _ _ _ _ _ (markFailed_run _ _ _ _ _ _ _)).
  unfold throw at 1. cbv iota. cbn [message].
  change (negb (_ =? _)%string) with false. reflexivity.
Qed.

Lemma saveParsed_run (transactions : list Transaction)
    (auth0UserId documentId : option string) (fs : FS) (t : World SU) (db : @Db ST) :
  exists c : Counters,
    saveParsed UPLOADS_TABLE storeUpdate storeSend now transactions auth0UserId documentId
      (fs, t, db)
    = (inr c, (fs, t, snd (saveTransactions storeSend transactions db))).
Proof.
  unfold saveParsed, tryCatch, onDb. cbn [fst snd].
  destruct (saveTransactions_run transactions db) as (c & ->). now exists c.
Qed.

(** [processRecord], step by step: what it returns and what it leaves, from
    the answers of the outside. *)
Lemma processRecord_steps (job : Job) (fs : FS) (t : World SU) (db : @Db ST) :
  processRecord UPLOADS_TABLE storeUpdate storeSend decodeURIComponent sha256_hex
    Number_toString now lineClock job (fs, t, db)
  = match s3Event job with
    | inl e => (inl e, (fs, t, db))
    | inr None => (inr tt, (fs, t, db))
    | inr (Some event) =>
        match decodeURIComponent (plusToSpace (objectKey event)) with
        | inl e => (inl e, (fs, t, db))
        | inr key =>
            if negb (String.prefix "pdfs/" key) then (inr tt, (fs, t, db))
            else
              match objectMetadata job with
              | inl e => (inl e, (fs, t, db))
              | inr metadata =>
                  let auth0UserId := metadata !! "auth0-user-id" in
                  let userEmail := metadata !! "user-email" in
                  let documentId := metadata !! "document-id" in
                  let documentType :=
                    match metadata !! "document-type" with
                    | Some s => if isEmpty s then "default" else s
                    | None => "default"
                    end in
                  let hasPassword :=
                    match metadata !! "has-password" with
                    | Some s => String.eqb s "true"
                    | None => false
                    end in
                  if missing auth0UserId
                  then (inl (Error "Error" "auth0UserId es requerido en metadata"),
                        (fs, t, db))
                  else if missing documentId
                  then (inl (Error "Error" "documentId es requerido en metadata"),
                        (fs, t, db))
                  else
                    let t1 :=
                      snd (updateDocumentStatus UPLOADS_TABLE storeUpdate now auth0UserId
                             documentId PROCESSING
                             [("fileSize", objectSize event);
                              ("processingStartedAt", VStr now)] t) in
                    let password :=
                      if hasPassword then
                        match passwordItem job auth0UserId documentType with
                        | inr (Some password) => password
                        | _ => VNull
                        end
                      else VNull in
                    let t2 :=
                      snd (updateDocumentStatus UPLOADS_TABLE storeUpdate now auth0UserId
                             documentId
                             (if hasPassword && truthy password
                              then DECRYPTING else EXTRACTING_TEXT) [] t1) in
                    match extractText UPLOADS_TABLE storeUpdate now (extraction job)
                            auth0UserId documentId password (fs, t2) with
                    | (inl e, (fs', t3)) => (inl e, (fs', t3, db))
                    | (inr text, (fs', t3)) =>
                        let t4 :=
                          snd (updateDocumentStatus UPLOADS_TABLE storeUpdate now
                                 auth0UserId documentId PARSING [] t3) in
                        let transactions :=
                          parseTransactions sha256_hex Number_toString lineClock text
                            {| md_sourceDocumentId := documentId;
                               md_auth0UserId := auth0UserId;
                               md_userEmail := userEmail;
                               md_documentType := Some documentType |} in
                        match transactions with
                        | [] =>
                            (inl (Error "Error" "No se encontraron transacciones"),
                             (fs',
                              snd (markDocumentFailed UPLOADS_TABLE storeUpdate now
                                     auth0UserId documentId (VStr NO_TRANSACTIONS_FOUND)
                                     (VStr "No se encontraron transacciones en el documento")
                                     t4),
                              db))
                        | _ :: _ =>
                            (inr tt,
                             (fs',
                              snd (markDocumentCompleted UPLOADS_TABLE storeUpdate now
                                     auth0UserId documentId
                                     (VNum (dec (Z.of_nat (List.length transactions)) 0))
                                     (VNum (dec (processingEndTime job
                                                 - processingStartTime job) 0))
                                     t4),
                              snd (saveTransactions storeSend transactions db)))
                        end
                    end
              end
        end
    end.
Proof.
  unfold processRecord. rewrite tryCatch_rethrow. rewrite bind_answer.
  destruct (s3Event job) as [e | [event |]]; [reflexivity | | reflexivity].
  rewrite bind_answer.
  destruct (decodeURIComponent _) as [e | key]; [reflexivity |].
  destruct (negb (String.prefix "pdfs/" key)); [reflexivity |].
  rewrite bind_answer.
  destruct (objectMetadata job) as [e | metadata]; [reflexivity |].
  cbv zeta.
  destruct (missing (metadata !! "auth0-user-id")); [reflexivity |].
  destruct (missing (metadata !! "document-id")); [reflexivity |].
  unfold when at 1 2. unfold bind at 1. unfold ret at 1. unfold bind at 1. unfold ret at 1.
  cbv beta iota.
  rewrite (bind_inr _ _ _ _ _ (updateStatus_run _ _ _ _ _ _ _)).
  rewrite (bind_inr _ _ _ _ _ (findPassword_run _ _ _ _ _)).
  match goal with |- context [_ && truthy ?p] => generalize p end.
  intros password.
  match goal with |- context [updateDocumentStatus _ _ _ _ _ PROCESSING ?data t] =>
    generalize (snd (updateDocumentStatus UPLOADS_TABLE storeUpdate now
                       (metadata !! "auth0-user-id") (metadata !! "document-id")
                       PROCESSING data t))
  end.
  intros t1.
  assert (Hnext : forall (A : Type) (k : unit -> M (@WorkerState SU ST) A) (cond : bool),
             bind (if cond
                   then updateStatus UPLOADS_TABLE storeUpdate now
                          (metadata !! "auth0-user-id") (metadata !! "document-id")
                          DECRYPTING []
                   else updateStatus UPLOADS_TABLE storeUpdate now
                          (metadata !! "auth0-user-id") (metadata !! "document-id")
                          EXTRACTING_TEXT []) k (fs, t1, db)
             = k tt (fs,
                     snd (updateDocumentStatus UPLOADS_TABLE storeUpdate now
                            (metadata !! "auth0-user-id") (metadata !! "document-id")
                            (if cond then DECRYPTING else EXTRACTING_TEXT) [] t1), db)).
  { intros A k [|]; apply bind_inr, updateStatus_run. }
  rewrite Hnext. clear Hnext.
  match goal with |- context [extractText _ _ _ _ _ _ _ (fs, ?t2)] => generalize t2 end.
  intros t2.
  unfold bind at 1. unfold onStage at 1. cbn [fst snd].
  destruct (extractText _ _ _ _ _ _ _ (fs, t2)) as [[e | text] [fs' t3]]; [reflexivity |].
  rewrite (bind_inr _ _ _ _ _ (updateStatus_run _ _ _ _ _ _ _)).
  match goal with |- context [markDocumentCompleted _ _ _ _ _ _ _ ?t4] => generalize t4 end.
  intros t4.
  unfold bind at 1. rewrite parseText_run. cbv zeta.
  destruct (parseTransactions _ _ _ _ _) as [| transaction rest]; [reflexivity |].
  destruct (saveParsed_run (transaction :: rest) (metadata !! "auth0-user-id")
              (metadata !! "document-id") fs' t4 db) as (c & Hsave).
  rewrite (bind_inr _ _ _ _ _ Hsave).
  apply markCompleted_run.
Qed.
Lemma updateDocumentStatus_sent (u d status : string) (data : list (string * value))
    (t : World SU) :
  isEmpty u = false -> isEmpty d = false ->
  sent (snd (updateDocumentStatus UPLOADS_TABLE storeUpdate now (Some u) (Some d) status
               data t))
  = (sent t ++ [updateCommand UPLOADS_TABLE now u d status data])%list.
Proof.
  intros Hu Hd.
  destruct (updateDocumentStatus_sends UPLOADS_TABLE storeUpdate now u d status data t Hu Hd)
    as (t' & -> & Hsent).
  exact Hsent.
Qed.

(** X20: what [processRecord] writes to the document of a record is one of
    five trails: nothing; PROCESSING, then DECRYPTING or EXTRACTING_TEXT,
    then a failed extraction (FAILED with EXTRACTION_FAILED, or
    PASSWORD_ERROR); the same two, then PARSING and FAILED with
    NO_TRANSACTIONS_FOUND; or the same two, then PARSING and COMPLETED.  It
    returns normally on the last one and when it writes nothing, and only
    then: PARSING_FAILED and DYNAMODB_ERROR are never written, whatever the
    stores do. *)
Theorem processRecord_status_trail :
  forall (job : Job) (fs : FS) (t : World SU) (db : @Db ST),
    let run :=
      processRecord UPLOADS_TABLE storeUpdate storeSend decodeURIComponent sha256_hex
        Number_toString now lineClock job (fs, t, db) in
    exists trail : list UpdateCommand,
      sent (tracker (snd run)) = (sent t ++ trail)%list
      /\ (trail = []
          \/ exists step : string,
               (step = DECRYPTING \/ step = EXTRACTING_TEXT)
               /\ ((exists e : error,
                       fst run = inl e
                       /\ (map report trail
                           = [plain PROCESSING; plain step;
                              failure FAILED EXTRACTION_FAILED]
                           \/ map report trail
                              = [plain PROCESSING; plain step;
                                 failure PASSWORD_ERROR PASSWORD_INCORRECT]))
                   \/ (fst run = inl (Error "Error" "No se encontraron transacciones")
                       /\ map report trail
                          = [plain PROCESSING; plain step; plain PARSING;
                             failure FAILED NO_TRANSACTIONS_FOUND])
                   \/ (fst run = inr tt
                       /\ map report trail
                          = [plain PROCESSING; plain step; plain PARSING;
                             plain COMPLETED]))).
Proof.
  intros job fs t db run. subst run. rewrite processRecord_steps.
  assert (Hnone : forall r : error + unit,
             exists trail : list UpdateCommand,
               sent (tracker (r, (fs, t, db)).2) = (sent t ++ trail)%list
               /\ (trail = [] \/ False)).
  { intros r. exists []. split; [now rewrite app_nil_r | now left]. }
  destruct (s3Event job) as [e | [event |]];
    [destruct (Hnone (inl e)) as (tr & H1 & [H2 | []]); exists tr; now auto
    | | destruct (Hnone (inr tt)) as (tr & H1 & [H2 | []]); exists tr; now auto].
  destruct (decodeURIComponent _) as [e | key];
    [destruct (Hnone (inl e)) as (tr & H1 & [H2 | []]); exists tr; now auto |].
  destruct (negb (String.prefix "pdfs/" key));
    [destruct (Hnone (inr tt)) as (tr & H1 & [H2 | []]); exists tr; now auto |].
  destruct (objectMetadata job) as [e | metadata];
    [destruct (Hnone (inl e)) as (tr & H1 & [H2 | []]); exists tr; now auto |].
  cbv zeta.
  destruct (metadata !! "auth0-user-id") as [u |]; cbn [missing];
    [| exists []; split; [now rewrite app_nil_r | now left]].
  destruct (isEmpty u) eqn:Hu;
    [exists []; split; [now rewrite app_nil_r | now left] |].
  destruct (metadata !! "document-id") as [d |]; cbn [missing];
    [| exists []; split; [now rewrite app_nil_r | now left]].
  destruct (isEmpty d) eqn:Hd;
    [exists []; split; [now rewrite app_nil_r | now left] |].
  clear Hnone.
  match goal with |- context [_ && truthy ?p] => generalize p end.
  intros password.
  match goal with |- context [if ?c && truthy password then _ else _] =>
    generalize (c && truthy password)
  end.
  intros decrypting.
  match goal with |- context [_ !! "document-type"] =>
    generalize (match metadata !! "document-type" with
                | Some s => if isEmpty s then "default" else s
                | None => "default"
                end)
  end.
  intros documentType.
  pose (step := if decrypting then DECRYPTING else EXTRACTING_TEXT).
  assert (Hstep : step = DECRYPTING \/ step = EXTRACTING_TEXT)
    by (subst step; destruct decrypting; auto).
  fold step. clearbody step.
  pose proof (updateDocumentStatus_sent u d PROCESSING
                [("fileSize", objectSize event); ("processingStartedAt", VStr now)] t Hu Hd)
    as H1.
  set (t1 := snd (updateDocumentStatus _ _ _ _ _ PROCESSING _ t)) in *.
  pose proof (updateDocumentStatus_sent u d step [] t1 Hu Hd) as H2.
  set (t2 := snd (updateDocumentStatus _ _ _ _ _ step _ t1)) in *.
  assert (Hr1 : report (updateCommand UPLOADS_TABLE now u d PROCESSING
                          [("fileSize", objectSize event);
                           ("processingStartedAt", VStr now)])
                = plain PROCESSING)
    by (generalize now; intros [| c n]; vm_compute; reflexivity).
  assert (Hr2 : report (updateCommand UPLOADS_TABLE now u d step []) = plain step)
    by (destruct Hstep as [-> | ->]; vm_compute; reflexivity).
  destruct (extractText_outcome (extraction job) u d password fs t2 Hu Hd)
    as [(text & fs' & ->) | (e & fs' & t3 & command & -> & H3 & Hr3)].
  2: { eexists [_; _; command]. cbn [snd tracker fst].
       split; [rewrite H3, H2, H1, <- !app_assoc; reflexivity |].
       right. exists step. split; [exact Hstep |]. left. exists e.
       split; [reflexivity |]. cbn [map]. rewrite Hr1, Hr2.
       destruct Hr3 as [-> | ->]; auto. }
  pose proof (updateDocumentStatus_sent u d PARSING [] t2 Hu Hd) as H3.
  set (t3 := snd (updateDocumentStatus _ _ _ _ _ PARSING _ t2)) in *.
  assert (Hr3 : report (updateCommand UPLOADS_TABLE now u d PARSING []) = plain PARSING)
    by (vm_compute; reflexivity).
  cbv zeta.
  destruct (parseTransactions _ _ _ _ _) as [| transaction rest].
  - unfold markDocumentFailed. cbn [snd tracker fst].
    match goal with |- context [updateDocumentStatus _ _ _ _ _ FAILED ?data t3] =>
      pose proof (updateDocumentStatus_sent u d FAILED data t3 Hu Hd) as H4;
      assert (Hr4 : report (updateCommand UPLOADS_TABLE now u d FAILED data)
                    = failure FAILED NO_TRANSACTIONS_FOUND) by (vm_compute; reflexivity)
    end.
    eexists [_; _; _; _].
    split; [rewrite H4, H3, H2, H1, <- !app_assoc; reflexivity |].
    right. exists step. split; [exact Hstep |]. right. left.
    split; [reflexivity |]. cbn [map]. now rewrite Hr1, Hr2, Hr3, Hr4.
  - unfold markDocumentCompleted. cbn [snd tracker fst].
    match goal with |- context [updateDocumentStatus _ _ _ _ _ COMPLETED ?data t3] =>
      pose proof (updateDocumentStatus_sent u d COMPLETED data t3 Hu Hd) as H4;
      assert (Hr4 : report (updateCommand UPLOADS_TABLE now u d COMPLETED data)
                    = plain COMPLETED) by (vm_compute; reflexivity)
    end.
    eexists [_; _; _; _].
    split; [rewrite H4, H3, H2, H1, <- !app_assoc; reflexivity |].
    right. exists step. split; [exact Hstep |]. right. right.
    split; [reflexivity |]. cbn [map]. now rewrite Hr1, Hr2, Hr3, Hr4.
Qed.

(** X18: a message without an S3 record, and an object whose key is not
    under [pdfs/], are dropped: the call returns and nothing has changed,
    the document's status included. *)
Theorem processRecord_ignores_other_keys :
  forall (job : Job) (w : @WorkerState SU ST),
    s3Event job = inr None
    \/ (exists (event : S3Event) (key : string),
           s3Event job = inr (Some event)
           /\ decodeURIComponent (plusToSpace (objectKey event)) = inr key
           /\ String.prefix "pdfs/" key = false) ->
    processRecord UPLOADS_TABLE storeUpdate storeSend decodeURIComponent sha256_hex
      Number_toString now lineClock job w
    = (inr tt, w).
Proof.
  intros job [[fs t] db] H. rewrite processRecord_steps.
  destruct H as [-> | (event & key & -> & -> & ->)]; reflexivity.
Qed.

(** X19: an object under [pdfs/] whose metadata lack the owner or the
    document id makes [processRecord] throw before anything is written: no
    status, no file, no transaction. *)
Theorem processRecord_requires_ids :
  forall (job : Job) (w : @WorkerState SU ST) (event : S3Event) (key : string)
         (metadata : gmap string string),
    s3Event job = inr (Some event) ->
    decodeURIComponent (plusToSpace (objectKey event)) = inr key ->
    String.prefix "pdfs/" key = true ->
    objectMetadata job = inr metadata ->
    missing (metadata !! "auth0-user-id") || missing (metadata !! "document-id") = true ->
    exists field : string,
      (field = "auth0UserId" \/ field = "documentId")
      /\ processRecord UPLOADS_TABLE storeUpdate storeSend decodeURIComponent sha256_hex
           Number_toString now lineClock job w
         = (inl (Error "Error" (field +:+ " es requerido en metadata")), w).
Proof.
  intros job [[fs t] db] event key metadata Hev Hkey Hpre Hmd Hmiss.
  rewrite processRecord_steps, Hev, Hkey, Hpre, Hmd. cbv zeta. cbn [negb].
  destruct (missing (metadata !! "auth0-user-id")).
  - exists "auth0UserId". split; [now left | reflexivity].
  - cbn [orb] in Hmiss. rewrite Hmiss.
    exists "documentId". split; [now right | reflexivity].
Qed.

(** X22: when [processRecord] returns normally, either it has changed
    nothing, or the last update it sent marks the document COMPLETED with
    [transactionsExtracted] the number of transactions looked up in the
    table, which is not zero; how many of them were saved plays no part. *)
Theorem processRecord_completed_count :
  forall (job : Job) (fs fs' : FS) (t t' : World SU) (db db' : @Db ST),
    processRecord UPLOADS_TABLE storeUpdate storeSend decodeURIComponent sha256_hex
      Number_toString now lineClock job (fs, t, db)
    = (inr tt, (fs', t', db')) ->
    (fs', t', db') = (fs, t, db)
    \/ exists (previous : list UpdateCommand) (command : UpdateCommand)
              (trace : list Command),
         sent t' = (previous ++ [command])%list
         /\ report command = plain COMPLETED
         /\ snd db' = (snd db ++ trace)%list
         /\ getKeys trace <> []
         /\ ExpressionAttributeValues command !! ":transactionsExtracted"
            = Some (VNum (dec (Z.of_nat (List.length (getKeys trace))) 0)).
Proof.
  intros job fs fs' t t' db db'. rewrite processRecord_steps.
  destruct (s3Event job) as [e | [event |]];
    [discriminate | | intros H; left; now injection H as <- <- <-].
  destruct (decodeURIComponent _) as [e | key]; [discriminate |].
  destruct (negb (String.prefix "pdfs/" key));
    [intros H; left; now injection H as <- <- <- |].
  destruct (objectMetadata job) as [e | metadata]; [discriminate |].
  cbv zeta.
  destruct (metadata !! "auth0-user-id") as [u |]; cbn [missing]; [| discriminate].
  destruct (isEmpty u) eqn:Hu; [discriminate |].
  destruct (metadata !! "document-id") as [d |]; cbn [missing]; [| discriminate].
  destruct (isEmpty d) eqn:Hd; [discriminate |].
  destruct (extractText _ _ _ _ _ _ _ _) as [[e | text] [fs1 t3]]; [discriminate |].
  destruct (parseTransactions _ _ _ _ _) as [| transaction rest] eqn:Hparse;
    [discriminate |].
  unfold markDocumentCompleted.
  match goal with |- context [updateDocumentStatus _ _ _ _ _ COMPLETED ?data ?t4] =>
    pose proof (updateDocumentStatus_sent u d COMPLETED data t4 Hu Hd) as Hsent;
    remember (snd (updateDocumentStatus UPLOADS_TABLE storeUpdate now (Some u) (Some d)
                     COMPLETED data t4)) as tEnd eqn:HtEnd
  end.
  destruct (saveLoop_counts storeSend (transaction :: rest)
              {| saved := 0; duplicates := 0; errors := 0 |} db)
    as (c & db1 & trace & Hrun & _ & Htrace & Hkeys).
  unfold saveTransactions. rewrite Hrun. cbn [snd].
  clear HtEnd. intros H. injection H as <- <- <-. right.
  eexists _, _, trace. split; [exact Hsent |].
  split; [vm_compute; reflexivity |].
  split; [exact Htrace |].
  split; [rewrite Hkeys; discriminate |].
  rewrite Hkeys, length_map. vm_compute. reflexivity.
Qed.

Lemma processRecords_app (before after : list Job) (w w1 : @WorkerState SU ST) :
  processRecords UPLOADS_TABLE storeUpdate storeSend decodeURIComponent sha256_hex
    Number_toString now lineClock before w = (inr tt, w1) ->
  processRecords UPLOADS_TABLE storeUpdate storeSend decodeURIComponent sha256_hex
    Number_toString now lineClock (before ++ after)%list w
  = processRecords UPLOADS_TABLE storeUpdate storeSend decodeURIComponent sha256_hex
      Number_toString now lineClock after w1.
Proof.
  revert w. induction before as [| job before IH]; intros w H.
  - cbn in H. unfold ret in H. now injection H as <-.
  - cbn [processRecords app] in *. unfold bind in *.
    destruct (processRecord _ _ _ _ _ _ _ _ job w) as [[e | []] w0]; [discriminate |].
    now apply IH.
Qed.

(** X23: [handler] takes the records of a batch in order and stops at the
    first one that fails: it throws the error of that record, and the
    records after it are not touched. *)
Theorem handler_stops_at_first_failure :
  forall (before after : list Job) (job : Job) (w w1 w2 : @WorkerState SU ST)
         (e : error),
    processRecords UPLOADS_TABLE storeUpdate storeSend decodeURIComponent sha256_hex
      Number_toString now lineClock before w = (inr tt, w1) ->
    processRecord UPLOADS_TABLE storeUpdate storeSend decodeURIComponent sha256_hex
      Number_toString now lineClock job w1 = (inl e, w2) ->
    handler UPLOADS_TABLE storeUpdate storeSend decodeURIComponent sha256_hex
      Number_toString now lineClock (Some (before ++ job :: after)%list) w
    = (inl e, w2).
Proof.
  intros before after job w w1 w2 e Hbefore Hjob.
  unfold handler. rewrite tryCatch_rethrow.
  apply bind_inl. rewrite (processRecords_app before (job :: after) w w1 Hbefore).
  cbn [processRecords]. now apply bind_inl.
Qed.

End WorkerFacts.

(** X21: what [processRecord] returns, what it leaves in [/tmp] and what it
    writes to the document do not depend on the transactions table: two
    tables of any kind, in any state and answering in any way, failures
    included, give the same. *)
Theorem processRecord_outcome_ignores_table :
  forall (SU ST1 ST2 : Type) (UPLOADS_TABLE : option string)
         (storeUpdate : UpdateCommand -> SU -> (error + unit) * SU)
         (storeSend1 : Command -> ST1 -> (error + option Transaction) * ST1)
         (storeSend2 : Command -> ST2 -> (error + option Transaction) * ST2)
         (decodeURIComponent : string -> error + string)
         (sha256_hex : string -> string) (Number_toString : number -> string)
         (now : string) (lineClock : nat -> string)
         (job : Job) (fs : FS) (t : World SU) (db1 : @Db ST1) (db2 : @Db ST2),
    let run1 :=
      processRecord UPLOADS_TABLE storeUpdate storeSend1 decodeURIComponent sha256_hex
        Number_toString now lineClock job (fs, t, db1) in
    let run2 :=
      processRecord UPLOADS_TABLE storeUpdate storeSend2 decodeURIComponent sha256_hex
        Number_toString now lineClock job (fs, t, db2) in
    fst run1 = fst run2 /\ fst (snd run1) = fst (snd run2).
Proof.
  intros. subst run1 run2. rewrite !processRecord_steps.
  destruct (s3Event job) as [e | [event |]]; [now split | | now split].
  destruct (decodeURIComponent _) as [e | key]; [now split |].
  destruct (negb (String.prefix "pdfs/" key)); [now split |].
  destruct (objectMetadata job) as [e | metadata]; [now split |].
  cbv zeta.
  destruct (missing (metadata !! "auth0-user-id")); [now split |].
  destruct (missing (metadata !! "document-id")); [now split |].
  destruct (extractText _ _ _ _ _ _ _ _) as [[e | text] [fs1 t3]]; [now split |].
  destruct (parseTransactions _ _ _ _ _) as [| transaction rest]; now split.
Qed.

Lemma thumbnail_is_dropped :
  (PdfProcessor.s3Event Scenario.thumbnail = inr None
   \/ exists (event : S3Event) (key : string),
        PdfProcessor.s3Event Scenario.thumbnail = inr (Some event)
        /\ Scenario.unescaped (plusToSpace (objectKey event)) = inr key
        /\ String.prefix "pdfs/" key = false)
  /\ Scenario.processOnTable Scenario.thumbnail Scenario.freshOnTable
     = (inr tt, Scenario.freshOnTable).
Proof.
  assert (H : PdfProcessor.s3Event Scenario.thumbnail = inr None
              \/ exists (event : S3Event) (key : string),
                   PdfProcessor.s3Event Scenario.thumbnail = inr (Some event)
                   /\ Scenario.unescaped (plusToSpace (objectKey event)) = inr key
                   /\ String.prefix "pdfs/" key = false).
  { right. eexists _, _. split; [reflexivity |]. split; reflexivity. }
  split; [exact H |].
  exact (processRecord_ignores_other_keys (Some "document-uploads") Scenario.acceptAll
           tableSend Scenario.unescaped (fun hashInput => hashInput) (fun _ => "n")
           "2025-01-20T10:00:00.000Z" (fun _ => "2025-01-20T10:00:00.000Z")
           Scenario.thumbnail Scenario.freshOnTable H).
Defined.

Lemma unowned_upload_is_rejected :
  missing (delete "auth0-user-id" Scenario.uploadMetadata !! "auth0-user-id")
  || missing (delete "auth0-user-id" Scenario.uploadMetadata !! "document-id") = true
  /\ exists field : string,
       (field = "auth0UserId" \/ field = "documentId")
       /\ Scenario.processOnTable Scenario.unowned Scenario.freshOnTable
          = (inl (Error "Error" (field +:+ " es requerido en metadata")),
             Scenario.freshOnTable).
Proof.
  split; [vm_compute; reflexivity |].
  refine (processRecord_requires_ids (Some "document-uploads") Scenario.acceptAll
            tableSend Scenario.unescaped (fun hashInput => hashInput) (fun _ => "n")
            "2025-01-20T10:00:00.000Z" (fun _ => "2025-01-20T10:00:00.000Z")
            Scenario.unowned Scenario.freshOnTable _ _ _ eq_refl eq_refl _ eq_refl _);
    vm_compute; reflexivity.
Defined.

Lemma run_eta {A B C D : Type} (run : A * (B * C * D)) (r : A) :
  fst run = r ->
  run = (r, (fst (fst (snd run)), snd (fst (snd run)), snd (snd run))).
Proof. destruct run as [r' [[b c] d]]. cbn. now intros ->. Qed.

Lemma upload_completed_with_two_transactions :
  Scenario.uploadRun
  = (inr tt, (fst (fst (snd Scenario.uploadRun)), snd (fst (snd Scenario.uploadRun)),
              snd (snd Scenario.uploadRun)))
  /\ ((fst (fst (snd Scenario.uploadRun)), snd (fst (snd Scenario.uploadRun)),
       snd (snd Scenario.uploadRun))
      = (∅, Scenario.freshTracker, (∅, []))
      \/ exists (previous : list UpdateCommand) (command : UpdateCommand)
                (trace : list Command),
           sent (snd (fst (snd Scenario.uploadRun))) = (previous ++ [command])%list
           /\ report command = plain COMPLETED
           /\ snd (snd (snd Scenario.uploadRun)) = ([] ++ trace)%list
           /\ getKeys trace <> []
           /\ ExpressionAttributeValues command !! ":transactionsExtracted"
              = Some (VNum (dec (Z.of_nat (List.length (getKeys trace))) 0))).
Proof.
  assert (Hr : fst Scenario.uploadRun = inr tt) by (vm_compute; reflexivity).
  pose proof (run_eta Scenario.uploadRun (inr tt) Hr) as H.
  split; [exact H |].
  exact (processRecord_completed_count (Some "document-uploads") Scenario.acceptAll
           tableSend Scenario.unescaped (fun hashInput => hashInput) (fun _ => "n")
           "2025-01-20T10:00:00.000Z" (fun _ => "2025-01-20T10:00:00.000Z")
           Scenario.upload ∅ (fst (fst (snd Scenario.uploadRun))) Scenario.freshTracker
           (snd (fst (snd Scenario.uploadRun))) (∅, []) (snd (snd Scenario.uploadRun)) H).
Defined.

Lemma batch_stops_at_unowned_upload :
  exists w : @WorkerState unit (gmap TxKey Transaction),
    handler (Some "document-uploads") Scenario.acceptAll tableSend Scenario.unescaped
      (fun hashInput => hashInput) (fun _ => "n") "2025-01-20T10:00:00.000Z"
      (fun _ => "2025-01-20T10:00:00.000Z")
      (Some ([Scenario.thumbnail] ++ Scenario.unowned :: [Scenario.upload])%list)
      Scenario.freshOnTable
    = (inl (Error "Error" "auth0UserId es requerido en metadata"), w)
    /\ sent (tracker w) = [].
Proof.
  exists Scenario.freshOnTable. split; [| reflexivity].
  apply (handler_stops_at_first_failure (Some "document-uploads") Scenario.acceptAll
           tableSend Scenario.unescaped (fun hashInput => hashInput) (fun _ => "n")
           "2025-01-20T10:00:00.000Z" (fun _ => "2025-01-20T10:00:00.000Z")
           [Scenario.thumbnail] [Scenario.upload] Scenario.unowned
           Scenario.freshOnTable Scenario.freshOnTable Scenario.freshOnTable);
    vm_compute; reflexivity.
Defined.

(** ** [getDocument] *)

(** X24: [getDocument] never throws and sends no update: it returns the
    item the store answers with, and [null] both when there is none and when
    the store throws, so a failed lookup reads as a document that does not
    exist. *)
Theorem getDocument_reads_failure_as_absent :
  forall (S : Type)
         (storeGet : string * string -> S -> (error + option (gmap string value)) * S)
         (auth0UserId documentId : string) (w : World S),
    let run := getDocument storeGet auth0UserId documentId w in
    fst run = inr match fst (storeGet (auth0UserId, documentId) (store w)) with
                  | inr item => item
                  | inl _ => None
                  end
    /\ store (snd run) = snd (storeGet (auth0UserId, documentId) (store w))
    /\ sent (snd run) = sent w.
Proof.
  intros S storeGet auth0UserId documentId w run. subst run.
  unfold getDocument, tryCatch.
  destruct (storeGet (auth0UserId, documentId) (store w)) as [[e | item] st];
    cbn; auto.
Qed.

(** ** The table parser: dates *)

Lemma firstMatch_some {A B : Type} (f : A -> option B) (alternatives : list A) (b : B) :
  Parser.firstMatch f alternatives = Some b ->
  exists a, In a alternatives /\ f a = Some b.
Proof.
  induction alternatives as [| a rest IH]; cbn; [discriminate |].
  destruct (f a) as [b' |] eqn:Hfa.
  - intros H. injection H as <-. exists a. auto.
  - intros H. destruct (IH H) as (a' & Hin & Ha'). exists a'. auto.
Qed.

Lemma matchFirst_some {A : Type} (at_ : string -> option A) (s : string) (groups : A) :
  Parser.matchFirst at_ s = Some groups -> exists s', at_ s' = Some groups.
Proof.
  induction s as [| c s IH]; cbn.
  - destruct (at_ EmptyString) eqn:H; [| discriminate]. intros <-. eauto.
  - destruct (at_ (String c s)) eqn:H; [intros <-; eauto | exact IH].
Qed.

Lemma digits12_shape (s ds rest : string) :
  In (ds, rest) (Parser.digits12 s) ->
  exists a : ascii,
    isDigit a = true
    /\ (ds = String a EmptyString
        \/ exists b : ascii, isDigit b = true /\ ds = String a (String b EmptyString)).
Proof.
  destruct s as [| a [| b s]]; cbn; [intros [] | |].
  - destruct (isDigit a) eqn:Ha; cbn; [| intros []].
    intros [H | []]. injection H as <- <-. exists a. auto.
  - destruct (isDigit a) eqn:Ha; cbn; [| intros []].
    destruct (isDigit b) eqn:Hb; cbn.
    + intros [H | [H | []]]; injection H as <- <-; exists a; eauto.
    + intros [H | []]. injection H as <- <-. exists a. auto.
Qed.

Lemma digitsN_shape (n : nat) :
  forall s ds rest : string,
    Parser.digitsN n s = Some (ds, rest) ->
    allChars isDigit ds = true /\ String.length ds = n.
Proof.
  induction n as [| n IH]; intros s ds rest; cbn.
  - intros H. injection H as <- <-. now split.
  - destruct s as [| a s]; [discriminate |].
    destruct (isDigit a) eqn:Ha; [| discriminate].
    destruct (Parser.digitsN n s) as [[ds' rest'] |] eqn:Hn; [| discriminate].
    intros H. injection H as <- <-.
    destruct (IH s ds' rest' Hn) as (Hall & Hlen).
    cbn. rewrite Ha, Hall, Hlen. now split.
Qed.

Lemma padStart2_digits (ds : string) :
  (exists a : ascii,
      isDigit a = true
      /\ (ds = String a EmptyString
          \/ exists b : ascii, isDigit b = true /\ ds = String a (String b EmptyString))) ->
  exists a b : ascii,
    isDigit a = true /\ isDigit b = true /\ padStart2 ds = String a (String b EmptyString).
Proof.
  intros (a & Ha & [-> | (b & Hb & ->)]).
  - exists "0"%char, a. cbn. auto.
  - exists a, b. cbn. auto.
Qed.

Lemma digits4 (ds : string) :
  allChars isDigit ds = true -> String.length ds = 4 ->
  exists a b c d : ascii,
    (isDigit a = true /\ isDigit b = true /\ isDigit c = true /\ isDigit d = true)
    /\ ds = String a (String b (String c (String d EmptyString))).
Proof.
  destruct ds as [| a [| b [| c [| d [| e ds]]]]]; cbn; try discriminate.
  intros H _. apply andb_prop in H as (Ha & H). apply andb_prop in H as (Hb & H).
  apply andb_prop in H as (Hc & H). apply andb_prop in H as (Hd & _).
  exists a, b, c, d. auto.
Qed.

Lemma digits2 (ds : string) :
  allChars isDigit ds = true -> String.length ds = 2 ->
  exists a b : ascii,
    (isDigit a = true /\ isDigit b = true) /\ ds = String a (String b EmptyString).
Proof.
  destruct ds as [| a [| b [| c ds]]]; cbn; try discriminate.
  intros H _. apply andb_prop in H as (Ha & H). apply andb_prop in H as (Hb & _).
  exists a, b. auto.
Qed.

Lemma isIsoDate_parts (y1 y2 y3 y4 : ascii) (month day : string) :
  isDigit y1 = true -> isDigit y2 = true -> isDigit y3 = true -> isDigit y4 = true ->
  (exists a b : ascii,
      isDigit a = true /\ isDigit b = true /\ month = String a (String b EmptyString)) ->
  (exists a b : ascii,
      isDigit a = true /\ isDigit b = true /\ day = String a (String b EmptyString)) ->
  isIsoDate (String y1 (String y2 (String y3 (String y4 EmptyString)))
             +:+ "-" +:+ month +:+ "-" +:+ day) = true.
Proof.
  intros H1 H2 H3 H4 (m1 & m2 & Hm1 & Hm2 & ->) (d1 & d2 & Hd1 & Hd2 & ->).
  cbv [String.append isIsoDate]. rewrite H1, H2, H3, H4, Hm1, Hm2, Hd1, Hd2. reflexivity.
Qed.

Lemma dayFirstAt_shape (n : nat) (s day month year : string) :
  Parser.dayFirstAt n s = Some (day, month, year) ->
  (exists a b : ascii,
      isDigit a = true /\ isDigit b = true
      /\ padStart2 month = String a (String b EmptyString))
  /\ (exists a b : ascii,
         isDigit a = true /\ isDigit b = true
         /\ padStart2 day = String a (String b EmptyString))
  /\ allChars isDigit year = true /\ String.length year = n.
Proof.
  unfold Parser.dayFirstAt. intros H.
  apply firstMatch_some in H as ([day' s1] & Hday & H).
  destruct (Parser.charAt Parser.isSeparator s1) as [s2 |]; [| discriminate].
  apply firstMatch_some in H as ([month' s3] & Hmonth & H).
  destruct (Parser.charAt Parser.isSeparator s3) as [s4 |]; [| discriminate].
  destruct (Parser.digitsN n s4) as [[year' rest] |] eqn:Hyear; [| discriminate].
  injection H as <- <- <-.
  apply digits12_shape, padStart2_digits in Hday.
  apply digits12_shape, padStart2_digits in Hmonth.
  apply digitsN_shape in Hyear. tauto.
Qed.

Lemma yearFirstAt_shape (s day month year : string) :
  Parser.yearFirstAt s = Some (year, month, day) ->
  (exists a b : ascii,
      isDigit a = true /\ isDigit b = true
      /\ padStart2 month = String a (String b EmptyString))
  /\ (exists a b : ascii,
         isDigit a = true /\ isDigit b = true
         /\ padStart2 day = String a (String b EmptyString))
  /\ allChars isDigit year = true /\ String.length year = 4.
Proof.
  unfold Parser.yearFirstAt.
  destruct (Parser.digitsN 4 s) as [[year' s1] |] eqn:Hyear; [| discriminate].
  destruct (Parser.charAt Parser.isHyphen s1) as [s2 |]; [| discriminate].
  intros H. apply firstMatch_some in H as ([month' s3] & Hmonth & H).
  destruct (Parser.charAt Parser.isHyphen s3) as [s4 |]; [| discriminate].
  destruct (Parser.digits12 s4) as [| [day' rest] others] eqn:Hday; [discriminate |].
  injection H as <- <- <-.
  assert (Hin : In (day', rest) (Parser.digits12 s4)) by (rewrite Hday; now left).
  apply digits12_shape, padStart2_digits in Hin.
  apply digits12_shape, padStart2_digits in Hmonth.
  apply digitsN_shape in Hyear. tauto.
Qed.

(** X25: whatever [normalizeDate] returns as a date has the shape
    [YYYY-MM-DD], four digits, two and two, whichever of its three formats
    it read. *)
Theorem normalizeDate_iso_shape :
  forall (dateStr : value) (d : string),
    Parser.normalizeDate dateStr = inr (Some d) -> isIsoDate d = true.
Proof.
  intros dateStr d. unfold Parser.normalizeDate.
  destruct (negb (truthy dateStr)); [discriminate |].
  destruct dateStr as [| | b | n | s |]; try discriminate.
  destruct (Parser.matchFirst (Parser.dayFirstAt 4) _) as [[[day month] year] |] eqn:H1.
  { intros H. injection H as <-.
    apply matchFirst_some in H1 as (s' & H1).
    apply dayFirstAt_shape in H1 as (Hm & Hd & Hy & Hlen).
    destruct (digits4 year Hy Hlen) as (a & b & c & e & (Ha & Hb & Hc & He) & ->).
    now apply isIsoDate_parts. }
  destruct (Parser.matchFirst (Parser.dayFirstAt 2) _) as [[[day month] year] |] eqn:H2.
  { intros H. injection H as <-.
    apply matchFirst_some in H2 as (s' & H2).
    apply dayFirstAt_shape in H2 as (Hm & Hd & Hy & Hlen).
    destruct (digits2 year Hy Hlen) as (a & b & (Ha & Hb) & ->).
    destruct (50 <=? _)%Z;
      [change (isIsoDate (String "1" (String "9" (String a (String b EmptyString)))
                          +:+ "-" +:+ padStart2 month +:+ "-" +:+ padStart2 day) = true)
      | change (isIsoDate (String "2" (String "0" (String a (String b EmptyString)))
                           +:+ "-" +:+ padStart2 month +:+ "-" +:+ padStart2 day) = true)];
      now apply isIsoDate_parts. }
  destruct (Parser.matchFirst Parser.yearFirstAt _) as [[[year month] day] |] eqn:H3;
    [| discriminate].
  intros H. injection H as <-.
  apply matchFirst_some in H3 as (s' & H3).
  apply yearFirstAt_shape in H3 as (Hm & Hd & Hy & Hlen).
  destruct (digits4 year Hy Hlen) as (a & b & c & e & (Ha & Hb & Hc & He) & ->).
  now apply isIsoDate_parts.
Qed.

Lemma normalizeDate_short_year :
  Parser.normalizeDate (VStr " 5/3/24  ") = inr (Some "2024-03-05")
  /\ isIsoDate "2024-03-05" = true.
Proof.
  assert (H : Parser.normalizeDate (VStr " 5/3/24  ") = inr (Some "2024-03-05"))
    by (vm_compute; reflexivity).
  split; [exact H |].
  exact (normalizeDate_iso_shape (VStr " 5/3/24  ") "2024-03-05" H).
Defined.

Lemma collapseSpaces_low (s : string) :
  allChars (fun c => (code c <? 128)%N && negb (ws1 c)) s = true ->
  Parser.collapseSpaces false s = s.
Proof.
  induction s as [| a s IH]; [reflexivity |].
  cbn [allChars]. intros H. apply andb_prop in H as (Ha & Hs).
  apply andb_prop in Ha as (Ha & Hw). apply N.ltb_lt in Ha.
  apply negb_true_iff in Hw. specialize (IH Hs).
  destruct (low_not_space a Ha) as (H2 & H3).
  destruct s as [| b [| c s]]; cbn [Parser.collapseSpaces] in IH |- *; rewrite Hw.
  - reflexivity.
  - rewrite (proj1 (H2 b)). now rewrite IH.
  - rewrite (proj1 (H2 b)), (proj1 (H3 b c)). now rewrite IH.
Qed.

(** X26: the third format of [normalizeDate], "ya normalizado", is not
    reached by a date that is normalized: on [YYYY-MM-DD] with digits in all
    eight places the second format matches first, from the third digit of
    the year on, and the date comes back with the last two digits of the
    year as its day and the day as its year. *)
Theorem normalizeDate_rereads_iso_dates :
  forall y1 y2 y3 y4 m1 m2 d1 d2 : ascii,
    isDigit y1 = true -> isDigit y2 = true -> isDigit y3 = true -> isDigit y4 = true ->
    isDigit m1 = true -> isDigit m2 = true -> isDigit d1 = true -> isDigit d2 = true ->
    Parser.normalizeDate
      (VStr (String y1 (String y2 (String y3 (String y4 (String "-" (String m1
               (String m2 (String "-" (String d1 (String d2 EmptyString)))))))))))
    = inr (Some ((if (50 <=? digitsValue 0 (String d1 (String d2 EmptyString)))%Z
                  then "19" else "20")
                 +:+ String d1 (String d2 (String "-" (String m1 (String m2 (String "-"
                       (String y3 (String y4 EmptyString))))))))).
Proof.
  intros y1 y2 y3 y4 m1 m2 d1 d2 Hy1 Hy2 Hy3 Hy4 Hm1 Hm2 Hd1 Hd2.
  assert (Hlow : forall a, isDigit a = true -> (code a < 128)%N /\ ws1 a = false
                                               /\ Parser.isSeparator a = false).
  { intros a Ha. apply digit_code in Ha as (Hlo & Hhi). split; [lia |].
    unfold ws1, Parser.isSeparator.
    replace (code a <=? 13)%N with false by (symmetry; apply N.leb_gt; lia).
    replace (code a =? 32)%N with false by (symmetry; apply N.eqb_neq; lia).
    replace (code a =? 47)%N with false by (symmetry; apply N.eqb_neq; lia).
    replace (code a =? 45)%N with false by (symmetry; apply N.eqb_neq; lia).
    now rewrite andb_false_r. }
  destruct (Hlow y1 Hy1) as (Ly1 & Wy1 & Sy1). destruct (Hlow y2 Hy2) as (Ly2 & Wy2 & Sy2).
  destruct (Hlow y3 Hy3) as (Ly3 & Wy3 & Sy3). destruct (Hlow y4 Hy4) as (Ly4 & Wy4 & Sy4).
  destruct (Hlow m1 Hm1) as (Lm1 & Wm1 & Sm1). destruct (Hlow m2 Hm2) as (Lm2 & Wm2 & Sm2).
  destruct (Hlow d1 Hd1) as (Ld1 & Wd1 & Sd1). destruct (Hlow d2 Hd2) as (Ld2 & Wd2 & Sd2).
  clear Hlow.
  set (iso := String y1 (String y2 (String y3 (String y4 (String "-" (String m1
                (String m2 (String "-" (String d1 (String d2 EmptyString)))))))))).
  assert (Htrim : trim iso = iso).
  { unfold trim, trimEnd. subst iso. rewrite trimStart_low by assumption.
    change (String.rev (String y1 (String y2 (String y3 (String y4 (String "-" (String m1
              (String m2 (String "-" (String d1 (String d2 EmptyString)))))))))))
      with (String d2 (String d1 (String "-" (String m2 (String m1 (String "-"
              (String y4 (String y3 (String y2 (String y1 EmptyString)))))))))).
    rewrite trimStartRev_low by assumption. reflexivity. }
  assert (Hclean : Parser.collapseSpaces false iso = iso).
  { apply collapseSpaces_low. subst iso. cbn [allChars].
    apply N.ltb_lt in Ly1, Ly2, Ly3, Ly4, Lm1, Lm2, Ld1, Ld2.
    rewrite Ly1, Ly2, Ly3, Ly4, Lm1, Lm2, Ld1, Ld2, Wy1, Wy2, Wy3, Wy4, Wm1, Wm2, Wd1, Wd2.
    reflexivity. }
  unfold Parser.normalizeDate. cbn [truthy].
  change (iso =? "")%string with false. cbn [negb].
  rewrite Htrim, Hclean. subst iso.
  assert (Hh : isDigit "-" = false) by reflexivity.
  assert (Sh : Parser.isSeparator "-" = true) by reflexivity.
  assert (H4 : Parser.matchFirst (Parser.dayFirstAt 4)
                 (String y1 (String y2 (String y3 (String y4 (String "-" (String m1
                    (String m2 (String "-" (String d1 (String d2 EmptyString))))))))))
               = None).
  { repeat (progress (cbn [Parser.matchFirst Parser.dayFirstAt Parser.digits12
                           Parser.firstMatch Parser.charAt Parser.digitsN];
                      rewrite ?Hy1, ?Hy2, ?Hy3, ?Hy4, ?Hm1, ?Hm2, ?Hd1, ?Hd2, ?Hh, ?Sh,
                        ?Sy1, ?Sy2, ?Sy3, ?Sy4, ?Sm1, ?Sm2, ?Sd1, ?Sd2)).
    reflexivity. }
  rewrite H4. clear H4.
  assert (H2 : Parser.matchFirst (Parser.dayFirstAt 2)
                 (String y1 (String y2 (String y3 (String y4 (String "-" (String m1
                    (String m2 (String "-" (String d1 (String d2 EmptyString))))))))))
               = Some (String y3 (String y4 EmptyString), String m1 (String m2 EmptyString),
                       String d1 (String d2 EmptyString))).
  { repeat (progress (cbn [Parser.matchFirst Parser.dayFirstAt Parser.digits12
                           Parser.firstMatch Parser.charAt Parser.digitsN];
                      rewrite ?Hy1, ?Hy2, ?Hy3, ?Hy4, ?Hm1, ?Hm2, ?Hd1, ?Hd2, ?Hh, ?Sh,
                        ?Sy1, ?Sy2, ?Sy3, ?Sy4, ?Sm1, ?Sm2, ?Sd1, ?Sd2)).
    reflexivity. }
  rewrite H2. clear H2. cbn [padStart2].
  destruct (50 <=? _)%Z; reflexivity.
Qed.

Lemma normalizeDate_rereads_2025_01_15 :
  (isDigit "2" = true /\ isDigit "0" = true /\ isDigit "5" = true /\ isDigit "1" = true)
  /\ Parser.normalizeDate (VStr "2025-01-15") = inr (Some "2015-01-25").
Proof.
  split; [repeat split |].
  exact (normalizeDate_rereads_iso_dates "2" "0" "2" "5" "0" "1" "1" "5"
           eq_refl eq_refl eq_refl eq_refl eq_refl eq_refl eq_refl eq_refl).
Defined.

(** ** The table parser: the date column *)

Lemma detectAt_date (i : nat) (header : string) (indices : Parser.Indices) :
  Parser.date (Parser.detectAt i header indices)
  = if Parser.includesAny header ["fecha"; "date"] then Some i else Parser.date indices.
Proof.
  unfold Parser.detectAt. cbv zeta.
  destruct (Parser.includesAny header ["fecha"; "date"]);
    destruct (Parser.includesAny header
                ["descripción"; "descripcion"; "comercio"; "merchant"; "detail"]);
    destruct (Parser.includesAny header ["monto"; "valor"; "amount"; "importe"]);
    destruct (Parser.includesAny header ["categoría"; "categoria"; "category"]);
    reflexivity.
Qed.

Lemma detectFrom_no_date (headers : list string) :
  forall (i : nat) (indices : Parser.Indices),
    Forall (fun header => Parser.includesAny header ["fecha"; "date"] = false) headers ->
    Parser.date (Parser.detectFrom i headers indices) = Parser.date indices.
Proof.
  induction headers as [| header rest IH]; intros i indices H; [reflexivity |].
  inversion H as [| ? ? Hheader Hrest]; subst.
  cbn [Parser.detectFrom]. rewrite (IH _ _ Hrest), detectAt_date. now rewrite Hheader.
Qed.

(** X27: [parseTable] looks for the date in every column but the first:
    index 0 reads as no index, so a table in which no header after the
    first names the date gives no transaction, whatever its rows hold and
    whatever the first header says. *)
Theorem parseTable_skips_date_in_first_column :
  forall (Cell : Type) (text : Cell -> string) (lower : string -> string)
         (Row : Type) (parseRow : list Cell -> Parser.Indices -> error + Row)
         (hasDate : Row -> bool)
         (first : Cell) (others : list Cell) (data : list (list Cell)),
    Forall (fun cell =>
              Parser.includesAny (trim (lower (text cell))) ["fecha"; "date"] = false)
      others ->
    Parser.parseTable Cell text lower Row parseRow hasDate (Some ((first :: others) :: data))
    = [].
Proof.
  intros Cell text lower Row parseRow hasDate first others data Hothers.
  unfold Parser.parseTable.
  destruct (List.length ((first :: others) :: data) <? 2)%nat; [reflexivity |].
  cbv zeta. unfold Parser.detectColumnIndices. cbn [map Parser.detectFrom].
  rewrite detectFrom_no_date.
  - rewrite detectAt_date.
    now destruct (Parser.includesAny (trim (lower (text first))) ["fecha"; "date"]).
  - clear first. induction Hothers as [| cell rest Hcell Hrest IH]; cbn [map]; now constructor.
Qed.

Lemma parseTable_skips_fecha_descripcion_valor :
  Forall (fun cell =>
            Parser.includesAny (trim (toLowerCase cell)) ["fecha"; "date"] = false)
    ["Descripción"; "Valor"]
  /\ Parser.parseTable string (fun cell => cell) toLowerCase string
       (fun row indices => inr (nth 0 row "")) (fun transaction => true)
       (Some [["Fecha"; "Descripción"; "Valor"];
              ["15/01/2025"; "SUPERMERCADO XYZ"; "$50.000,00"];
              ["16/01/2025"; "PAGO TARJETA"; "$1.200,50"]])
     = [].
Proof.
  assert (H : Forall (fun cell =>
                        Parser.includesAny (trim (toLowerCase cell)) ["fecha"; "date"] = false)
                ["Descripción"; "Valor"]).
  { constructor; [vm_compute; reflexivity |]. constructor; [vm_compute; reflexivity |].
    constructor. }
  split; [exact H |].
  exact (parseTable_skips_date_in_first_column string (fun cell => cell) toLowerCase string
           (fun row indices => inr (nth 0 row "")) (fun transaction => true)
           "Fecha" ["Descripción"; "Valor"]
           [["15/01/2025"; "SUPERMERCADO XYZ"; "$50.000,00"];
            ["16/01/2025"; "PAGO TARJETA"; "$1.200,50"]] H).
Defined.

(** ** The two readers of dates *)

(** X29: the two readers of dates agree on the format of the statements:
    on [DD/MM/YYYY] with digits in all eight places [normalizeDate] of the
    table parser returns what [convertToISODate] of the text parser
    returns. *)
Theorem normalizeDate_agrees_with_convertToISODate :
  forall d1 d2 m1 m2 y1 y2 y3 y4 : ascii,
    isDigit d1 = true -> isDigit d2 = true -> isDigit m1 = true -> isDigit m2 = true ->
    isDigit y1 = true -> isDigit y2 = true -> isDigit y3 = true -> isDigit y4 = true ->
    Parser.normalizeDate
      (VStr (String d1 (String d2 (String "/" (String m1 (String m2 (String "/"
               (String y1 (String y2 (String y3 (String y4 EmptyString)))))))))))
    = inr (Some (convertToISODate
                   (String d1 (String d2 (String "/" (String m1 (String m2 (String "/"
                      (String y1 (String y2 (String y3 (String y4 EmptyString)))))))))))).
Proof.
  intros d1 d2 m1 m2 y1 y2 y3 y4 Hd1 Hd2 Hm1 Hm2 Hy1 Hy2 Hy3 Hy4.
  rewrite convertToISODate_shape by assumption.
  assert (Hlow : forall a, isDigit a = true -> (code a < 128)%N /\ ws1 a = false).
  { intros a Ha. apply digit_code in Ha as (Hlo & Hhi). split; [lia |].
    unfold ws1.
    replace (code a <=? 13)%N with false by (symmetry; apply N.leb_gt; lia).
    replace (code a =? 32)%N with false by (symmetry; apply N.eqb_neq; lia).
    now rewrite andb_false_r. }
  destruct (Hlow d1 Hd1) as (Ld1 & Wd1). destruct (Hlow d2 Hd2) as (Ld2 & Wd2).
  destruct (Hlow m1 Hm1) as (Lm1 & Wm1). destruct (Hlow m2 Hm2) as (Lm2 & Wm2).
  destruct (Hlow y1 Hy1) as (Ly1 & Wy1). destruct (Hlow y2 Hy2) as (Ly2 & Wy2).
  destruct (Hlow y3 Hy3) as (Ly3 & Wy3). destruct (Hlow y4 Hy4) as (Ly4 & Wy4).
  clear Hlow.
  set (dmy := String d1 (String d2 (String "/" (String m1 (String m2 (String "/"
                (String y1 (String y2 (String y3 (String y4 EmptyString)))))))))).
  assert (Htrim : trim dmy = dmy).
  { unfold trim, trimEnd. subst dmy. rewrite trimStart_low by assumption.
    change (String.rev (String d1 (String d2 (String "/" (String m1 (String m2 (String "/"
              (String y1 (String y2 (String y3 (String y4 EmptyString)))))))))))
      with (String y4 (String y3 (String y2 (String y1 (String "/" (String m2
              (String m1 (String "/" (String d2 (String d1 EmptyString)))))))))).
    rewrite trimStartRev_low by assumption. reflexivity. }
  assert (Hclean : Parser.collapseSpaces false dmy = dmy).
  { apply collapseSpaces_low. subst dmy. cbn [allChars].
    apply N.ltb_lt in Ly1, Ly2, Ly3, Ly4, Lm1, Lm2, Ld1, Ld2.
    rewrite Ly1, Ly2, Ly3, Ly4, Lm1, Lm2, Ld1, Ld2, Wy1, Wy2, Wy3, Wy4, Wm1, Wm2, Wd1, Wd2.
    reflexivity. }
  unfold Parser.normalizeDate. cbn [truthy].
  change (dmy =? "")%string with false. cbn [negb].
  rewrite Htrim, Hclean. subst dmy.
  assert (Sh : Parser.isSeparator "/" = true) by reflexivity.
  cbn [Parser.matchFirst Parser.dayFirstAt Parser.digits12 Parser.firstMatch Parser.charAt
       Parser.digitsN].
  rewrite Hd1, Hd2. cbn [Parser.firstMatch Parser.charAt]. rewrite Sh.
  cbn [Parser.digits12]. rewrite Hm1, Hm2. cbn [Parser.firstMatch Parser.charAt]. rewrite Sh.
  cbn [Parser.digitsN]. rewrite Hy1, Hy2, Hy3, Hy4. reflexivity.
Qed.

Lemma normalizeDate_agrees_on_15_01_2025 :
  (isDigit "1" = true /\ isDigit "5" = true /\ isDigit "0" = true /\ isDigit "2" = true)
  /\ Parser.normalizeDate (VStr "15/01/2025") = inr (Some (convertToISODate "15/01/2025")).
Proof.
  split; [repeat split |].
  exact (normalizeDate_agrees_with_convertToISODate "1" "5" "0" "1" "2" "0" "2" "5"
           eq_refl eq_refl eq_refl eq_refl eq_refl eq_refl eq_refl eq_refl).
Defined.

(** ** The worker: the password and the table *)

(** X28: a lookup of the password that throws counts as a password that
    is not stored: [processRecord] goes on as it does when the table has no
    item, and ends with the same result and the same state. *)
Theorem processRecord_lookup_failure_is_no_password :
  forall (SU ST : Type) (UPLOADS_TABLE : option string)
         (storeUpdate : UpdateCommand -> SU -> (error + unit) * SU)
         (storeSend : Command -> ST -> (error + option Transaction) * ST)
         (decodeURIComponent : string -> error + string)
         (sha256_hex : string -> string) (Number_toString : number -> string)
         (now : string) (lineClock : nat -> string)
         (event : error + option S3Event) (metadata : error + gmap string string)
         (env : Env) (started ended : Z) (dbError : error)
         (fs : FS) (t : World SU) (db : @Db ST),
    processRecord UPLOADS_TABLE storeUpdate storeSend decodeURIComponent sha256_hex
      Number_toString now lineClock
      {| s3Event := event; objectMetadata := metadata;
         passwordItem := fun _ _ => inl dbError;
         extraction := env; processingStartTime := started; processingEndTime := ended |}
      (fs, t, db)
    = processRecord UPLOADS_TABLE storeUpdate storeSend decodeURIComponent sha256_hex
        Number_toString now lineClock
        {| s3Event := event; objectMetadata := metadata;
           passwordItem := fun _ _ => inr None;
           extraction := env; processingStartTime := started; processingEndTime := ended |}
        (fs, t, db).
Proof.
  intros. rewrite !processRecord_steps.
  cbn [s3Event objectMetadata passwordItem extraction processingStartTime
       processingEndTime].
  reflexivity.
Qed.

Lemma saveLoop_table (transactions : list Transaction) :
  forall (c : Counters) (table : Table) (trace : list Command),
  exists (c' : Counters) (table' : Table) (trace' : list Command),
    saveLoop tableSend transactions c (table, trace) = (inr c', (table', trace'))
    /\ errors c' = errors c
    /\ forall key : TxKey,
         table' !! key
         = match table !! key with
           | Some item => Some item
           | None => find (fun t => bool_decide (keyOf t = key)) transactions
           end.
Proof.
  induction transactions as [| t rest IH]; intros c table trace.
  - exists c, table, trace. split; [reflexivity |]. split; [reflexivity |].
    intros key. cbn [find]. now destruct (table !! key).
  - cbn [saveLoop]. unfold bind at 1.
    unfold saveOne, tryCatch, bind, send, ret. cbn [fst snd tableSend].
    destruct (table !! keyOf t) as [item |] eqn:Hget.
    + destruct (IH {| saved := saved c; duplicates := S (duplicates c);
                      errors := errors c |} table
                  (trace ++ [GetCommand (keyOf t)])%list)
        as (c' & table' & trace' & Hrun & Herr & Htable).
      exists c', table', trace'. split; [exact Hrun |]. split; [exact Herr |].
      intros key. rewrite Htable. cbn [find].
      destruct (table !! key) as [item' |] eqn:Hkey; [reflexivity |].
      rewrite bool_decide_eq_false_2; [reflexivity |].
      intros Heq. rewrite Heq in Hget. congruence.
    + cbn [fst snd tableSend]. rewrite Hget.
      destruct (IH {| saved := S (saved c); duplicates := duplicates c;
                      errors := errors c |} (<[keyOf t := t]> table)
                  ((trace ++ [GetCommand (keyOf t)]) ++ [PutCommand t])%list)
        as (c' & table' & trace' & Hrun & Herr & Htable).
      exists c', table', trace'. split; [exact Hrun |]. split; [exact Herr |].
      intros key. rewrite Htable. cbn [find].
      destruct (decide (keyOf t = key)) as [<- | Hne].
      * rewrite lookup_insert_eq, Hget. now rewrite bool_decide_eq_true_2.
      * rewrite lookup_insert_ne by exact Hne.
        now rewrite (bool_decide_eq_false_2 _ Hne).
Qed.

(** X30: [saveTransactions] on the reference table, from any table and for
    any list, with keys repeated or not: no error is counted, no item that
    was in the table is changed or removed, and a key that was free holds
    afterwards the first transaction of the list that has it, if there is
    one. *)
Theorem saveTransactions_first_write_wins :
  forall (transactions : list Transaction) (table : Table) (trace : list Command),
  exists (c : Counters) (table' : Table) (trace' : list Command),
    saveTransactions tableSend transactions (table, trace) = (inr c, (table', trace'))
    /\ errors c = 0
    /\ forall key : TxKey,
         table' !! key
         = match table !! key with
           | Some item => Some item
           | None => find (fun t => bool_decide (keyOf t = key)) transactions
           end.
Proof.
  intros transactions table trace. unfold saveTransactions.
  destruct (saveLoop_table transactions {| saved := 0; duplicates := 0; errors := 0 |}
              table trace) as (c & table' & trace' & Hrun & Herr & Htable).
  exists c, table', trace'. auto.
Qed.
